(** * ArdusRpa: form-filling scripts, shallow embedding and checked properties

    The repository is a set of independent Python scripts that drive a
    browser to fill web forms.  This development embeds the parts the
    specification talks about:

    - [prac/main.py]: the Selenium/CSV Google-Forms filler
      ([_candidate_label_variants], [_xpath_literal], [fill_text_field],
      [select_radio], [select_checkboxes], [click_button_by_text],
      [submit_form], [parse_row_types]) and its inspector
      ([extract_form_questions], the header suggestion of [run_inspector]);
    - [prac/google-form-rpa-agent/rpa/browser_filler.py]: [prefill_form];
    - [prac/google-form-rpa-agent/rpa/form_parser_gemini.py]:
      [_extract_json_text], [_guess_value], [_fallback_config],
      [call_gemini], [build_config_from_gemini] and the second pass of
      [summarize_form_fields];
    - [prac/normalforms/form_filler/filler.py] and [airtable.py]:
      [fill_value], [submit], [wait_for_success] and the helpers for the
      Airtable widgets, with the run of the CLI driver
      [form_filler/__main__.py].

    Conventions of the embedding.

    - A Python [str] is a Rocq [string]: a sequence of code points below
      256.  On that range [\d] matches exactly the characters 0-9,
      [str.lower] keeps the length, and [str.strip] removes the code points
      9-13, 28-32, 133 and 160.
    - Python values of unknown type (JSON data) are the inductive [pyval];
      JSON numbers are restricted to integers.
    - Code that can raise returns a [res]; code that talks to the browser
      threads an explicit list of the interactions it issued.
    - The browser itself is not part of the repository: a Selenium page is
      a DOM tree with the XPath fragments the scripts use evaluated on it, a
      Playwright page is a record of the answers the page gives to the
      queries of the scripts. *)

From Stdlib Require Import Ascii String ZArith List Lia DecimalString.
From stdpp Require Import gmap strings list.

Set Warnings "-register-all".

Local Open Scope list_scope.

(** ** Python strings *)

Module Py.

(** The double quote, the single quote and the line feed. *)
Definition dquote : ascii := "034"%char.
Definition squote : ascii := "039"%char.
Definition newline : ascii := "010"%char.

Definition chr (c : ascii) : string := String c "".

Definition code (c : ascii) : N := N_of_ascii c.

Definition between (lo hi n : N) : bool := ((lo <=? n) && (n <=? hi))%N.

(** [str.isspace] on one code point below 256. *)
Definition isspace (c : ascii) : bool :=
  let n := code c in
  between 9 13 n || between 28 32 n || (n =? 133)%N || (n =? 160)%N.

(** The characters [\d] matches below 256. *)
Definition isdigit (c : ascii) : bool := between 48 57 (code c).

Definition lower_char (c : ascii) : ascii :=
  let n := code c in
  if between 65 90 n || (between 192 222 n && negb (n =? 215)%N)
  then ascii_of_N (n + 32) else c.

(** [s.lower()] *)
Fixpoint lower (s : string) : string :=
  match s with
  | "" => ""
  | String c s' => String (lower_char c) (lower s')
  end.

Definition is_empty (s : string) : bool :=
  match s with "" => true | _ => false end.

(** [s.lstrip()], [s.rstrip()], [s.strip()] *)
Fixpoint lstrip (s : string) : string :=
  match s with
  | "" => ""
  | String c s' => if isspace c then lstrip s' else s
  end.

Fixpoint rstrip (s : string) : string :=
  match s with
  | "" => ""
  | String c s' =>
      let r := rstrip s' in
      if isspace c && is_empty r then "" else String c r
  end.

Definition strip (s : string) : string := rstrip (lstrip s).

(** [c in s] for a one-character [c] *)
Fixpoint has_char (c : ascii) (s : string) : bool :=
  match s with
  | "" => false
  | String d s' => Ascii.eqb c d || has_char c s'
  end.

(** [s.startswith(p)] *)
Fixpoint startswith (s p : string) {struct p} : bool :=
  match p with
  | "" => true
  | String a p' =>
      match s with
      | "" => false
      | String b s' => Ascii.eqb a b && startswith s' p'
      end
  end.

(** [sub in s] *)
Fixpoint contains (s sub : string) : bool :=
  startswith s sub ||
  match s with
  | "" => false
  | String _ s' => contains s' sub
  end.

(** [s.endswith(suf)] *)
Fixpoint endswith (s suf : string) : bool :=
  String.eqb s suf ||
  match s with
  | "" => false
  | String _ s' => endswith s' suf
  end.

(** [s[:-n]] for [n > 0] *)
Definition drop_last (n : nat) (s : string) : string :=
  String.substring 0 (String.length s - n) s.

(** [s.split(sep)] for a one-character separator *)
Fixpoint split (sep : ascii) (s : string) : list string :=
  match s with
  | "" => [""]
  | String c s' =>
      if Ascii.eqb c sep then "" :: split sep s'
      else match split sep s' with
           | h :: t => String c h :: t
           | [] => [chr c]
           end
  end.

(** [sep.join(l)] *)
Fixpoint join (sep : string) (l : list string) : string :=
  match l with
  | [] => ""
  | [x] => x
  | x :: l' => x +:+ sep +:+ join sep l'
  end.


(** [int(s)] on a string of decimal digits *)
Definition digit_val (c : ascii) : N := (code c - 48)%N.

Fixpoint int_of_digits_acc (acc : N) (s : string) : N :=
  match s with
  | "" => acc
  | String c s' => int_of_digits_acc (10 * acc + digit_val c)%N s'
  end.

Definition int_of_digits (s : string) : N := int_of_digits_acc 0 s.

(** [str(n)] for a natural number and for an integer *)
Definition str_of_N (n : N) : string := NilZero.string_of_uint (N.to_uint n).
Definition str_of_Z (z : Z) : string := NilZero.string_of_int (Z.to_int z).

(** [f"{n:02d}"] *)
Definition pad2 (n : N) : string :=
  if (n <? 10)%N then "0" +:+ str_of_N n else str_of_N n.

(** Exceptions the scripts raise or let through. *)
Inductive exn : Type :=
| TypeError (msg : string)
| ValueError (msg : string)
| FileNotFoundError (msg : string)
| PlaywrightTimeoutError (msg : string)
| Exception (msg : string).

(** [str(e)] *)
Definition exn_msg (e : exn) : string :=
  match e with
  | TypeError m | ValueError m | FileNotFoundError m
  | PlaywrightTimeoutError m | Exception m => m
  end.

Inductive res (A : Type) : Type :=
| Ok (a : A)
| Raise (e : exn).
Arguments Ok {A} a.
Arguments Raise {A} e.

Definition bind {A B} (m : res A) (k : A -> res B) : res B :=
  match m with
  | Ok a => k a
  | Raise e => Raise e
  end.

(** *** Values of unknown type

    What [json.load] returns and what the dictionaries of the scripts
    hold.  A [dict] keeps its items as a list of pairs. *)
Inductive pyval : Type :=
| PNone
| PBool (b : bool)
| PInt (z : Z)
| PStr (s : string)
| PList (l : list pyval)
| PDict (d : list (string * pyval)).

(** [bool(v)] *)
Definition truthy (v : pyval) : bool :=
  match v with
  | PNone => false
  | PBool b => b
  | PInt z => negb (z =? 0)%Z
  | PStr s => negb (is_empty s)
  | PList l => match l with [] => false | _ => true end
  | PDict d => match d with [] => false | _ => true end
  end.

(** [a or b] *)
Definition py_or (a b : pyval) : pyval := if truthy a then a else b.

Definition hex_digit (n : N) : ascii :=
  if (n <? 10)%N then ascii_of_N (48 + n) else ascii_of_N (87 + n).

Definition hex_escape (c : ascii) : string :=
  let n := code c in
  String "\" (String "x" (String (hex_digit (n / 16)) (chr (hex_digit (n mod 16))))).

(** One character of [repr(s)] when the quote chosen is [q]. *)
Definition repr_char (q c : ascii) : string :=
  let n := code c in
  if Ascii.eqb c "\" || Ascii.eqb c q then String "\" (chr c)
  else if (n =? 9)%N then "\t"
  else if (n =? 10)%N then "\n"
  else if (n =? 13)%N then "\r"
  else if (n <? 32)%N || (n =? 127)%N then hex_escape c
  else if (n <? 127)%N then chr c
  else if between 128 160 n || (n =? 173)%N then hex_escape c
  else chr c.

Fixpoint repr_chars (q : ascii) (s : string) : string :=
  match s with
  | "" => ""
  | String c s' => repr_char q c +:+ repr_chars q s'
  end.

(** [repr(s)] for a [str] *)
Definition repr_str (s : string) : string :=
  let q := if has_char squote s && negb (has_char dquote s) then dquote else squote in
  chr q +:+ repr_chars q s +:+ chr q.

(** [repr(v)] *)
Fixpoint repr (v : pyval) : string :=
  match v with
  | PNone => "None"
  | PBool true => "True"
  | PBool false => "False"
  | PInt z => str_of_Z z
  | PStr s => repr_str s
  | PList l => "[" +:+ join ", " (List.map repr l) +:+ "]"
  | PDict d =>
      "{" +:+ join ", " (List.map (fun kv => repr_str (fst kv) +:+ ": " +:+ repr (snd kv)) d)
      +:+ "}"
  end.

(** [str(v)] *)
Definition py_str (v : pyval) : string :=
  match v with
  | PStr s => s
  | _ => repr v
  end.

(** [d.get(k)] on the items of a [dict] *)
Fixpoint dict_get (k : string) (d : list (string * pyval)) : option pyval :=
  match d with
  | [] => None
  | (k', v) :: d' => if String.eqb k k' then Some v else dict_get k d'
  end.

End Py.

Import Py.

(** ** XPath 1.0 string expressions

    The reading side of [_xpath_literal]: the value of an XPath expression
    that is a string literal or a call of [concat] on string literals.
    A literal is a run of characters other than its quote between two equal
    quotes; [concat] takes at least two arguments; white space may
    separate the tokens. *)

Module XPathExpr.

Definition is_xml_space (c : ascii) : bool :=
  let n := code c in (n =? 32)%N || (n =? 9)%N || (n =? 10)%N || (n =? 13)%N.

Fixpoint skip_ws (s : string) : string :=
  match s with
  | "" => ""
  | String c s' => if is_xml_space c then skip_ws s' else s
  end.

(** The characters up to the closing quote [q], and what follows it. *)
Fixpoint until_quote (q : ascii) (s : string) : option (string * string) :=
  match s with
  | "" => None
  | String c s' =>
      if Ascii.eqb c q then Some ("", s')
      else match until_quote q s' with
           | Some (v, r) => Some (String c v, r)
           | None => None
           end
  end.

Definition parse_literal (s : string) : option (string * string) :=
  match s with
  | String q s' =>
      if Ascii.eqb q squote || Ascii.eqb q dquote then until_quote q s'
      else None
  | "" => None
  end.

(** The arguments of a call, up to and including the closing bracket. *)
Fixpoint parse_args (fuel : nat) (s : string) : option (list string * string) :=
  match fuel with
  | O => None
  | S fuel' =>
      match parse_literal (skip_ws s) with
      | None => None
      | Some (v, r) =>
          match skip_ws r with
          | String c r' =>
              if Ascii.eqb c ","%char then
                match parse_args fuel' r' with
                | Some (vs, r'') => Some (v :: vs, r'')
                | None => None
                end
              else if Ascii.eqb c ")"%char then Some ([v], r')
              else None
          | "" => None
          end
      end
  end.

Fixpoint concat_all (l : list string) : string :=
  match l with
  | [] => ""
  | x :: l' => x +:+ concat_all l'
  end.

(** The string value of the expression, [None] when it is not one of the
    two forms. *)
Definition string_value (e : string) : option string :=
  let e := skip_ws e in
  if startswith e "concat(" then
    match parse_args (String.length e) (String.substring 7 (String.length e - 7) e) with
    | Some (v1 :: v2 :: vs, r) =>
        if is_empty (skip_ws r) then Some (concat_all (v1 :: v2 :: vs)) else None
    | _ => None
    end
  else
    match parse_literal e with
    | Some (v, r) => if is_empty (skip_ws r) then Some v else None
    | None => None
    end.

End XPathExpr.


(** ** The page a Selenium driver shows

    A DOM tree, the current value of the [aria-checked] attribute of the
    controls that were clicked, and the XPath queries the scripts build,
    evaluated in document order.  An element is named by its path from the
    root.  The queries of the scripts never test [aria-checked], so its
    current value is kept beside the tree. *)

Module Dom.

Inductive node : Type :=
| Elem (tag : string) (attrs : list (string * string)) (kids : list node)
| Text (s : string).

Definition path : Type := list nat.

Fixpoint attr (name : string) (attrs : list (string * string)) : option string :=
  match attrs with
  | [] => None
  | (k, v) :: attrs' => if String.eqb k name then Some v else attr name attrs'
  end.

Definition node_attr (name : string) (n : node) : option string :=
  match n with
  | Elem _ a _ => attr name a
  | Text _ => None
  end.

Definition node_tag (n : node) : string :=
  match n with
  | Elem t _ _ => t
  | Text _ => ""
  end.

(** The elements at or below [n], in document order, with their paths. *)
Fixpoint elements (p : path) (n : node) : list (path * node) :=
  match n with
  | Text _ => []
  | Elem _ _ kids =>
      (p, n) ::
      (fix below (i : nat) (ks : list node) : list (path * node) :=
         match ks with
         | [] => []
         | k :: ks' => elements (p ++ [i]) k ++ below (S i) ks'
         end) 0 kids
  end.

(** The elements strictly below [n]. *)
Definition descendants (p : path) (n : node) : list (path * node) :=
  tail (elements p n).

(** The string value of a node: the text below it. *)
Fixpoint text_of (n : node) : string :=
  match n with
  | Text s => s
  | Elem _ _ kids =>
      (fix texts (ks : list node) : string :=
         match ks with
         | [] => ""
         | k :: ks' => text_of k +:+ texts ks'
         end) kids
  end.

(** The maximal runs of characters that are not white space. *)
Fixpoint words (s : string) : list string :=
  match s with
  | "" => []
  | String c s' =>
      if XPathExpr.is_xml_space c then words s'
      else match s' with
           | "" => [chr c]
           | String d _ =>
               if XPathExpr.is_xml_space d then chr c :: words s'
               else match words s' with
                    | w :: ws => String c w :: ws
                    | [] => [chr c]
                    end
           end
  end.

(** XPath [normalize-space] *)
Definition normalize_space (s : string) : string := join " " (words s).

(** A predicate of a step; [lit] is the text of an XPath string
    expression, as [_xpath_literal] writes it. *)
Inductive cond : Type :=
| AttrEq (name lit : string)          (* @name=lit *)
| AttrContains (name lit : string)    (* contains(@name, lit) *)
| HasDescendantText (lit : string).   (* .//*[normalize-space()=lit] *)

(** [//t1[c1 and c2] | //t2[c1 and c2]]: the elements with one of the tags
    that satisfy all the predicates. *)
Record query : Type := Query { q_tags : list string; q_conds : list cond }.

Definition cond_lit (c : cond) : string :=
  match c with
  | AttrEq _ l | AttrContains _ l | HasDescendantText l => l
  end.

(** A query is well formed when each of its literals is an XPath string
    expression. *)
Definition well_formed (q : query) : bool :=
  forallb (fun c => match XPathExpr.string_value (cond_lit c) with
                    | Some _ => true
                    | None => false
                    end) (q_conds q).

Definition lit_value (lit : string) : string :=
  match XPathExpr.string_value lit with
  | Some v => v
  | None => ""
  end.

Definition holds (c : cond) (e : path * node) : bool :=
  match c with
  | AttrEq name lit =>
      match node_attr name (snd e) with
      | Some v => String.eqb v (lit_value lit)
      | None => false
      end
  | AttrContains name lit =>
      contains (match node_attr name (snd e) with Some v => v | None => "" end)
               (lit_value lit)
  | HasDescendantText lit =>
      existsb (fun d => String.eqb (normalize_space (text_of (snd d))) (lit_value lit))
              (descendants (fst e) (snd e))
  end.

Definition selects (q : query) (e : path * node) : bool :=
  existsb (String.eqb (node_tag (snd e))) (q_tags q)
  && forallb (fun c => holds c e) (q_conds q).

Record page : Type := Page {
  root : node;
  aria_checked_now : gmap path string
}.

(** [driver.find_elements(By.XPATH, "//...")]; an expression the browser
    cannot parse is an [InvalidSelectorException]. *)
Definition find_elements (pg : page) (q : query) : res (list (path * node)) :=
  if well_formed q then Ok (List.filter (selects q) (elements [] (root pg)))
  else Raise (Exception "InvalidSelectorException").

(** [c.find_elements(By.XPATH, ".//...")] *)
Definition find_elements_in (c : path * node) (q : query) : res (list (path * node)) :=
  if well_formed q then Ok (List.filter (selects q) (descendants (fst c) (snd c)))
  else Raise (Exception "InvalidSelectorException").

(** [find_element]: the first element, [None] for
    [NoSuchElementException]. *)
Definition find_element (pg : page) (q : query) : res (option (path * node)) :=
  bind (find_elements pg q) (fun l => Ok (head l)).

Definition find_element_in (c : path * node) (q : query) : res (option (path * node)) :=
  bind (find_elements_in c q) (fun l => Ok (head l)).

(** [el.get_attribute("aria-checked")] *)
Definition aria_checked (pg : page) (e : path * node) : option string :=
  match aria_checked_now pg !! fst e with
  | Some v => Some v
  | None => node_attr "aria-checked" (snd e)
  end.

(** What the page does on a click on a check box: it toggles. *)
Definition click (pg : page) (e : path * node) : page :=
  let v := match aria_checked pg e with
           | Some "true" => "false"
           | _ => "true"
           end in
  Page (root pg) (<[fst e := v]> (aria_checked_now pg)).

(** The interactions a script issues. *)
Inductive action : Type :=
| Clear (p : path)
| SendKeys (p : path) (keys : string)
| Click (p : path).

End Dom.

(** ** prac/main.py *)

Module CsvForm.
Import Dom.

(** [_candidate_label_variants(label)] *)
Definition _candidate_label_variants (label : string) : list string :=
  let base := strip label in
  [base; base +:+ " (Required)"; base +:+ " *"; base +:+ "*"].

(** The tokens the loop over [enumerate(parts)] appends: the quoted part
    when it is not empty, then, except after the last part, the XPath
    literal for a single quote. *)
Fixpoint literal_tokens (parts : list string) : list string :=
  match parts with
  | [] => []
  | p :: rest =>
      (if is_empty p then [] else [chr squote +:+ p +:+ chr squote])
      ++ match rest with
         | [] => []
         | _ :: _ => (chr dquote +:+ chr squote +:+ chr dquote)
                     :: literal_tokens rest
         end
  end.

(** [_xpath_literal(s)] *)
Definition _xpath_literal (s : string) : string :=
  if negb (has_char squote s) then chr squote +:+ s +:+ chr squote
  else if negb (has_char dquote s) then chr dquote +:+ s +:+ chr dquote
  else "concat(" +:+ join ", " (literal_tokens (split squote s)) +:+ ")".

(** [//div[@role='listitem' and .//*[normalize-space()={qlit}]]] *)
Definition question_containers (qlit : string) : query :=
  Query ["div"] [AttrEq "role" "'listitem'"; HasDescendantText qlit].

(** The loop of [_find_in_question_container] over the containers. *)
Fixpoint first_in_containers (cs : list (path * node)) (inner : query)
  : res (option (path * node)) :=
  match cs with
  | [] => Ok None
  | c :: cs' =>
      bind (find_element_in c inner) (fun r =>
        match r with
        | Some el => Ok (Some el)
        | None => first_in_containers cs' inner
        end)
  end.

(** [_find_in_question_container(driver, label, inner_xpath)] *)
Definition _find_in_question_container (pg : page) (label : string) (inner : query)
  : res (option (path * node)) :=
  let qlit := _xpath_literal label in
  bind (find_elements pg (question_containers qlit)) (fun containers =>
    first_in_containers containers inner).

(** [el.clear()] with its failure ignored, then [el.send_keys(value)]. *)
Definition type_into (el : path * node) (value : string) : list action :=
  [Clear (fst el); SendKeys (fst el) value].

(** The four global locators [fill_text_field] builds for one variant. *)
Definition text_locators (v : string) : list query :=
  let vq := _xpath_literal v in
  [ Query ["input"] [AttrEq "aria-label" vq];
    Query ["textarea"] [AttrEq "aria-label" vq];
    Query ["input"] [AttrContains "aria-label" vq];
    Query ["textarea"] [AttrContains "aria-label" vq] ].

(** [.//input | .//textarea] *)
Definition any_text_control : query := Query ["input"; "textarea"] [].

(** The first loop of [fill_text_field]: the question containers. *)
Fixpoint fill_in_containers (pg : page) (variants : list string) (value : string)
  : res (option (list action)) :=
  match variants with
  | [] => Ok None
  | v :: vs =>
      bind (_find_in_question_container pg v any_text_control) (fun r =>
        match r with
        | Some el => Ok (Some (type_into el value))
        | None => fill_in_containers pg vs value
        end)
  end.

(** The second loop: the global locators. *)
Fixpoint fill_by_locators (pg : page) (locators : list query) (value : string)
  : res (option (list action)) :=
  match locators with
  | [] => Ok None
  | xp :: xps =>
      bind (find_element pg xp) (fun r =>
        match r with
        | Some el => Ok (Some (type_into el value))
        | None => fill_by_locators pg xps value
        end)
  end.

(** [fill_text_field(driver, label, value)]: what it returns and what it
    typed. *)
Definition fill_text_field (pg : page) (label value : string)
  : res (bool * list action) :=
  let variants := _candidate_label_variants label in
  let locators := flat_map text_locators variants in
  bind (fill_in_containers pg variants value) (fun r =>
    match r with
    | Some acts => Ok (true, acts)
    | None =>
        bind (fill_by_locators pg locators value) (fun r' =>
          match r' with
          | Some acts => Ok (true, acts)
          | None => Ok (false, [])
          end)
    end).

(** The three places [select_checkboxes] looks for one option. *)
Definition find_checkbox (pg : page) (question_label opt : string)
  : res (option (path * node)) :=
  let ov := _xpath_literal opt in
  bind (_find_in_question_container pg question_label
          (Query ["div"] [AttrEq "role" "'checkbox'"; AttrEq "aria-label" ov]))
    (fun el =>
      match el with
      | Some e => Ok (Some e)
      | None =>
          bind (find_element pg
                  (Query ["div"] [AttrEq "role" "'checkbox'"; AttrEq "aria-label" ov]))
            (fun el' =>
              match el' with
              | Some e => Ok (Some e)
              | None =>
                  find_element pg
                    (Query ["div"] [AttrEq "role" "'checkbox'"; AttrContains "aria-label" ov])
              end)
      end).

(** The state of the loop of [select_checkboxes]: the page, [success] and
    the clicks so far. *)
Definition check_state : Type := page * bool * list action.

(** One turn of the loop. *)
Definition check_one (question_label : string) (st : check_state) (opt : string)
  : res check_state :=
  let '(pg, success, acts) := st in
  let opt := strip opt in
  if is_empty opt then Ok st
  else
    bind (find_checkbox pg question_label opt) (fun el =>
      match el with
      | Some e =>
          match aria_checked pg e with
          | Some "true" => Ok (pg, success, acts)
          | _ => Ok (click pg e, success, acts ++ [Click (fst e)])
          end
      | None => Ok (pg, false, acts)
      end).

Fixpoint check_all (question_label : string) (st : check_state) (opts : list string)
  : res check_state :=
  match opts with
  | [] => Ok st
  | o :: os => bind (check_one question_label st o) (fun st' => check_all question_label st' os)
  end.

(** [select_checkboxes(driver, question_label, option_values)]: the page
    afterwards, the value returned and the clicks. *)
Definition select_checkboxes (pg : page) (question_label : string) (option_values : list string)
  : res check_state :=
  check_all question_label (pg, true, []) option_values.

(** A row of [csv.DictReader]: the header and the cell of each column, in
    order; [None] is the cell of a short row. *)
Definition row : Type := list (string * option string).

(** [text_fields, radio_fields, checkbox_fields] *)
Definition row_types : Type :=
  gmap string string * gmap string string * gmap string (list string).

(** [[s.strip() for s in v.split(";") if s.strip()]] *)
Definition multi_items (v : string) : list string :=
  List.map strip (List.filter (fun s => negb (is_empty (strip s))) (split ";" v)).

(** The body of the loop of [parse_row_types]. *)
Definition parse_cell (acc : row_types) (cell : string * option string) : row_types :=
  let '(text_fields, radio_fields, checkbox_fields) := acc in
  match snd cell with
  | None => acc
  | Some val =>
      let k := strip (fst cell) in
      let v := strip val in
      if is_empty k || is_empty v then acc
      else if endswith (lower k) "(choice)" then
        let label := strip (drop_last (String.length "(choice)") k) in
        (text_fields, <[label := v]> radio_fields, checkbox_fields)
      else if endswith (lower k) "(multi)" then
        let label := strip (drop_last (String.length "(multi)") k) in
        (text_fields, radio_fields, <[label := multi_items v]> checkbox_fields)
      else
        (<[k := v]> text_fields, radio_fields, checkbox_fields)
  end.

(** [parse_row_types(row)] *)
Definition parse_row_types (r : row) : row_types :=
  fold_left parse_cell r (∅, ∅, ∅).

(** The three places [select_radio] looks for the option. *)
Definition find_radio (pg : page) (question_label option_value : string)
  : res (option (path * node)) :=
  let ov := _xpath_literal option_value in
  bind (_find_in_question_container pg question_label
          (Query ["div"] [AttrEq "role" "'radio'"; AttrEq "aria-label" ov]))
    (fun el =>
      match el with
      | Some e => Ok (Some e)
      | None =>
          bind (find_element pg
                  (Query ["div"] [AttrEq "role" "'radio'"; AttrEq "aria-label" ov]))
            (fun el' =>
              match el' with
              | Some e => Ok (Some e)
              | None =>
                  find_element pg
                    (Query ["div"] [AttrEq "role" "'radio'"; AttrContains "aria-label" ov])
              end)
      end).

(** [select_radio(driver, question_label, option_value)]: the value
    returned and the click. *)
Definition select_radio (pg : page) (question_label option_value : string)
  : res (bool * list action) :=
  bind (find_radio pg question_label option_value) (fun el =>
    match el with
    | Some e => Ok (true, [Click (fst e)])
    | None => Ok (false, [])
    end).

(** *** The buttons

    [click_button_by_text] waits for a button to be clickable and clicks
    it; the page may change at each wait and at each click.  The browser
    is a state of any type; [wait_and_click st timeout xpath] tells
    whether an element selected by [xpath] became clickable within
    [timeout] seconds, and was clicked, and gives the state afterwards. *)

Section Buttons.
Variable browser : Type.
Variable wait_and_click : browser -> Z -> string -> bool * browser.

(** [f"//div[@role='button' and .//span[normalize-space()={tlit}]]"] *)
Definition button_xpath (t : string) : string :=
  "//div[@role='button' and .//span[normalize-space()=" +:+ _xpath_literal (strip t) +:+ "]]".

(** [click_button_by_text(driver, texts, timeout)]: the state afterwards,
    the value returned and the XPath clicked. *)
Fixpoint click_button_by_text (st : browser) (texts : list string) (timeout : Z)
  : browser * bool * list string :=
  match texts with
  | [] => (st, false, [])
  | t :: rest =>
      let xpath := button_xpath t in
      match wait_and_click st timeout xpath with
      | (true, st') => (st', true, [xpath])
      | (false, st') => click_button_by_text st' rest timeout
      end
  end.

(** The last line of [submit_form]. *)
Definition final_attempt (st : browser) : browser * list string :=
  let '(st', _, clicked) := click_button_by_text st ["Submit"; "Send"] 5 in
  (st', clicked).

(** The loop of [submit_form] with [n] rounds left. *)
Fixpoint submit_rounds (n : nat) (st : browser) : browser * list string :=
  match n with
  | O => final_attempt st
  | S n' =>
      let '(st1, submitted, clicked1) := click_button_by_text st ["Submit"; "Send"] 5 in
      if submitted : bool then (st1, clicked1)
      else
        let '(st2, went_on, clicked2) := click_button_by_text st1 ["Next"; "Continue"] 5 in
        if went_on : bool then
          let '(st3, clicked3) := submit_rounds n' st2 in
          (st3, clicked2 ++ clicked3)
        else final_attempt st2
  end.

(** [submit_form(driver)]: the state afterwards and the XPaths clicked,
    in order. *)
Definition submit_form (st : browser) : browser * list string :=
  submit_rounds 5 st.

(** [accept_cookies_if_present(driver)] *)
Definition accept_cookies_if_present (st : browser) : browser * list string :=
  let '(st', _, clicked) :=
    click_button_by_text st ["I agree"; "Accept all"; "Accept All"; "Accept"] 2 in
  (st', clicked).

End Buttons.

(** *** The inspector *)

(** An item of the list [extract_form_questions] returns. *)
Record question : Type := Question {
  q_label : string;
  q_type : string;
  q_options : list string
}.

(** A relative path [.//a] or [.//a//b]. *)
Inductive rel_path : Type :=
| Below (q : query)
| Below2 (outer inner : query).

(** [el.find_element(By.XPATH, xp)]: the first element in document
    order. *)
Definition find_rel (el : path * node) (xp : rel_path) : res (option (path * node)) :=
  match xp with
  | Below q => find_element_in el q
  | Below2 outer inner =>
      bind (find_elements_in el outer) (fun outers => first_in_containers outers inner)
  end.

Definition aria_label (el : path * node) : string :=
  match node_attr "aria-label" (snd el) with
  | Some l => l
  | None => ""
  end.

(** [_collect_aria_labels(container, role)] *)
Definition _collect_aria_labels (container : path * node) (role : string) : list string :=
  match find_elements_in container
          (Query ["div"] [AttrEq "role" (chr squote +:+ role +:+ chr squote)]) with
  | Ok els =>
      let labels := List.map aria_label els in
      List.map strip
        (List.filter (fun l => negb (is_empty l) && negb (is_empty (strip l))) labels)
  | Raise _ => []
  end.

(** [.//*[@role='listbox']] *)
Definition listboxes (item : path * node) : list (path * node) :=
  List.filter (fun e => match node_attr "role" (snd e) with
                        | Some r => String.eqb r "listbox"
                        | None => false
                        end)
              (descendants (fst item) (snd item)).

Definition heading_paths : list rel_path :=
  [ Below2 (Query ["div"] [AttrEq "role" "'heading'"]) (Query ["span"] []);
    Below (Query ["div"] [AttrEq "role" "'heading'"]) ].

Section Inspector.
(** [el.text] is the text the browser renders for an element: an answer
    of the page. *)
Variable visible_text : path -> string.

(** [_text(el)] *)
Definition _text (el : path * node) : string := strip (visible_text (fst el)).

(** [_first_text(el, xpaths)] *)
Fixpoint _first_text (el : path * node) (xpaths : list rel_path) : res string :=
  match xpaths with
  | [] => Ok ""
  | xp :: rest =>
      bind (find_rel el xp) (fun found =>
        match found with
        | Some f => let t := _text f in if is_empty t then _first_text el rest else Ok t
        | None => _first_text el rest
        end)
  end.

(** The body of the loop of [extract_form_questions] for the item number
    [idx]. *)
Definition question_of (idx : N) (item : path * node) : res question :=
  let radios := _collect_aria_labels item "radio" in
  let checks := _collect_aria_labels item "checkbox" in
  bind (find_elements_in item (Query ["textarea"] [])) (fun textareas =>
  bind (find_elements_in item (Query ["input"] [])) (fun inputs =>
  bind (_first_text item heading_paths) (fun label =>
  bind (if is_empty label then
          bind (find_element_in item any_text_control) (fun el =>
            Ok (match el with
                | Some e => aria_label e
                | None => ""
                end))
        else Ok label) (fun label =>
  let label := strip (if is_empty label then "Question " +:+ str_of_N idx else label) in
  Ok (match radios, checks, textareas, inputs with
      | _ :: _, _, _, _ => Question label "choice" radios
      | [], _ :: _, _, _ => Question label "multi" checks
      | [], [], _ :: _, _ => Question label "paragraph" []
      | [], [], [], _ :: _ => Question label "text" []
      | [], [], [], [] =>
          Question label (match listboxes item with
                          | _ :: _ => "choice"
                          | [] => "unknown"
                          end) []
      end))))).

Fixpoint questions_from (idx : N) (items : list (path * node)) : res (list question) :=
  match items with
  | [] => Ok []
  | item :: rest =>
      bind (question_of idx item) (fun q =>
        bind (questions_from (idx + 1) rest) (fun qs => Ok (q :: qs)))
  end.

(** [extract_form_questions(driver)], once the form is ready. *)
Definition extract_form_questions (pg : page) : res (list question) :=
  bind (find_elements pg (Query ["div"] [AttrEq "role" "'listitem'"])) (fun items =>
    questions_from 1 items).

End Inspector.

(** The loop of [run_inspector] that builds the header suggestion and the
    sample row. *)
Definition template_step (acc : list string * gmap string string) (q : question)
  : list string * gmap string string :=
  let '(headers, sample) := acc in
  let t := q_type q in
  let lbl := q_label q in
  if String.eqb t "text" || String.eqb t "paragraph" then
    (headers ++ [lbl], <[lbl := String.substring 0 60 ("Sample " +:+ lbl)]> sample)
  else if String.eqb t "choice" then
    let h := lbl +:+ " (choice)" in
    (headers ++ [h], <[h := match q_options q with o :: _ => o | [] => "" end]> sample)
  else if String.eqb t "multi" then
    let h := lbl +:+ " (multi)" in
    (headers ++ [h],
     <[h := match q_options q with
            | _ :: _ => join "; " (firstn 2 (q_options q))
            | [] => ""
            end]> sample)
  else acc.

Definition template (qs : list question) : list string * gmap string string :=
  fold_left template_step qs ([], ∅).

End CsvForm.

(** ** The page a Playwright driver shows

    The scripts name controls by locators and ask the page how many
    elements a locator selects; interactions and waits either complete or
    time out.  A page is the record of these answers.  A run is the result
    of the call together with the interactions issued and the lines
    printed, in order. *)

Module Playwright.

(** The [name] argument of [get_by_role]:
    [re.compile(rf'^{re.escape(s)}$', re.I)] or a regular expression. *)
Inductive name_pattern : Type :=
| NameExactI (s : string)
| NameRegexI (source : string).

Inductive locator : Type :=
| Locator (selector : string)                    (* page.locator(selector) *)
| GetByLabel (label : string)                    (* page.get_by_label(label) *)
| GetByRole (role : string) (name : name_pattern)
| Sub (outer : locator) (selector : string)      (* outer.locator(selector) *)
| FilterHas (outer inner : locator)              (* outer.filter(has=inner) *)
| First (l : locator).                           (* l.first *)

Inductive action : Type :=
| Fill (l : locator) (value : string)
| PageFill (selector value : string)
| Click (l : locator)
| Tick (l : locator)                           (* l.check() *)
| Untick (l : locator)                         (* l.uncheck() *)
| ScrollIntoView (l : locator)
| SelectOption (selector label : string)
| Press (key : string)
| InsertText (text : string)
| SetInputFiles (l : locator) (file : string)
| WaitForSelector (selector : string) (timeout : Z)
| WaitFor (l : locator) (timeout : Z)
| WaitForTimeout (ms : Z).

Inductive event : Type :=
| Did (a : action)
| Printed (line : string).

Record page : Type := {
  count : locator -> nat;                 (* l.count() *)
  tag_name : locator -> option string;    (* l.evaluate("el => el.tagName.toLowerCase()") *)
  input_value : locator -> option string; (* l.input_value() *)
  url : string;                           (* page.url *)
  completes : action -> bool;             (* false: PlaywrightTimeoutError *)
  resolve : string -> string;             (* Path(p).resolve() *)
  file_exists : string -> bool            (* Path.exists() *)
}.

Definition run (A : Type) : Type := res A * list event.

Definition ret {A} (a : A) : run A := (Ok a, []).

Definition raise {A} (e : exn) : run A := (Raise e, []).

Definition bind {A B} (m : run A) (k : A -> run B) : run B :=
  match m with
  | (Ok a, t) => let '(r, t') := k a in (r, t ++ t')
  | (Raise e, t) => (Raise e, t)
  end.

Definition is_timeout (e : exn) : bool :=
  match e with
  | PlaywrightTimeoutError _ => true
  | _ => false
  end.

(** [try: m except <class>: h] *)
Definition try_catch {A} (catches : exn -> bool) (m : run A) (h : exn -> run A) : run A :=
  match m with
  | (Raise e, t) =>
      if catches e then let '(r, t') := h e in (r, t ++ t') else (Raise e, t)
  | ok => ok
  end.

Definition any_exception (e : exn) : bool := true.

Definition do (pg : page) (a : action) : run unit :=
  (if completes pg a then Ok tt else Raise (PlaywrightTimeoutError "Timeout exceeded"),
   [Did a]).

Definition print (line : string) : run unit := (Ok tt, [Printed line]).

(** The interactions of a run. *)
Fixpoint actions (t : list event) : list action :=
  match t with
  | [] => []
  | Did a :: t' => a :: actions t'
  | Printed _ :: t' => actions t'
  end.

End Playwright.

Notation "x <- m ;; k" := (Playwright.bind m (fun x => k))
  (at level 100, m at next level, right associativity).
Notation "m ;;; k" := (Playwright.bind m (fun _ => k))
  (at level 100, right associativity).

(** ** prac/google-form-rpa-agent/rpa/browser_filler.py *)

Module BrowserFiller.
Import Playwright.

(** Exactly [n] characters of [\d], and what follows. *)
Fixpoint digits (n : nat) (s : string) : option (string * string) :=
  match n with
  | O => Some ("", s)
  | S n' =>
      match s with
      | String c s' =>
          if isdigit c then
            match digits n' s' with
            | Some (d, r) => Some (String c d, r)
            | None => None
            end
          else None
      | "" => None
      end
  end.

Definition expect (c : ascii) (s : string) : option string :=
  match s with
  | String d s' => if Ascii.eqb c d then Some s' else None
  | "" => None
  end.

(** Python's [$]: the end of the string or the line feed that ends it. *)
Definition at_end (s : string) : bool :=
  match s with
  | "" => true
  | String c "" => Ascii.eqb c newline
  | _ => false
  end.

(** [re.match(r"(\d{4})-(\d{2})-(\d{2})$", s)]: the three groups. *)
Definition match_date (s : string) : option (string * string * string) :=
  match digits 4 s with
  | Some (y, r1) =>
      match expect "-" r1 with
      | Some r2 =>
          match digits 2 r2 with
          | Some (mo, r3) =>
              match expect "-" r3 with
              | Some r4 =>
                  match digits 2 r4 with
                  | Some (d, r5) => if at_end r5 then Some (y, mo, d) else None
                  | None => None
                  end
              | None => None
              end
          | None => None
          end
      | None => None
      end
  | None => None
  end.

(** [re.match(r"(\d{2}):(\d{2})$", s)]: the two groups. *)
Definition match_time (s : string) : option (string * string) :=
  match digits 2 s with
  | Some (hh, r1) =>
      match expect ":" r1 with
      | Some r2 =>
          match digits 2 r2 with
          | Some (mm, r3) => if at_end r3 then Some (hh, mm) else None
          | None => None
          end
      | None => None
      end
  | None => None
  end.

(** An item of [config['fields']]; [None] is what [f.get] gives for a
    missing key. *)
Record field : Type := Field {
  f_type : option string;
  f_entry_id : option string;
  f_question_label : option string;
  f_value : pyval
}.

Definition nonempty (o : option string) : bool :=
  match o with
  | Some s => negb (is_empty s)
  | None => false
  end.

Definition text_of_opt (o : option string) : string :=
  match o with
  | Some s => s
  | None => "None"
  end.

Definition type_is (t : option string) (name : string) : bool :=
  match t with
  | Some s => String.eqb s name
  | None => false
  end.

(** [f'[name="entry.{eid}{suf}"]'] *)
Definition part_selector (eid suf : string) : string :=
  "[name=" +:+ chr dquote +:+ "entry." +:+ eid +:+ suf +:+ chr dquote +:+ "]".

(** The loop over the parts of a date or of a time: each part is typed
    into its own input when the page has it. *)
Fixpoint fill_parts (pg : page) (eid : string) (parts : list (string * string)) : run unit :=
  match parts with
  | [] => ret tt
  | (suf, v) :: rest =>
      let sel := part_selector eid suf in
      (if (0 <? count pg (Locator sel))%nat then do pg (PageFill sel v) else ret tt) ;;;
      fill_parts pg eid rest
  end.

(** The items of a checkbox value, [re.escape] raising on what is not a
    [str]. *)
Fixpoint check_boxes (pg : page) (vals : list pyval) : run unit :=
  match vals with
  | [] => ret tt
  | o :: rest =>
      match o with
      | PStr s =>
          let cb := GetByRole "checkbox" (NameExactI s) in
          (if (0 <? count pg cb)%nat then
             try_catch any_exception
               (do pg (ScrollIntoView (First cb)) ;;; do pg (Tick (First cb)))
               (fun _ => ret tt)
           else ret tt) ;;;
          check_boxes pg rest
      | _ => raise (TypeError "decoding to str: need a bytes-like object")
      end
  end.

(** The body of the loop of [prefill_form] over the fields. *)
Definition fill_field (pg : page) (f : field) : run unit :=
  let t := f_type f in
  let eid := text_of_opt (f_entry_id f) in
  let has_eid := nonempty (f_entry_id f) in
  let val := f_value f in
  if (type_is t "text" || type_is t "paragraph") && has_eid then
    let sel := "input[name=" +:+ chr dquote +:+ "entry." +:+ eid +:+ chr dquote
               +:+ "]:not([type=" +:+ chr dquote +:+ "hidden" +:+ chr dquote
               +:+ "]), textarea[name=" +:+ chr dquote +:+ "entry." +:+ eid
               +:+ chr dquote +:+ "]" in
    let loc := Locator sel in
    if (0 <? count pg loc)%nat then
      try_catch any_exception (do pg (Fill (First loc) (py_str val))) (fun _ => ret tt)
    else ret tt
  else if type_is t "date" && has_eid then
    match match_date (py_str val) with
    | Some (y, mo, d) =>
        fill_parts pg eid
          [("_year", y);
           ("_month", str_of_N (int_of_digits mo));
           ("_day", str_of_N (int_of_digits d))]
    | None => ret tt
    end
  else if type_is t "time" && has_eid then
    match match_time (py_str val) with
    | Some (hh, mm) =>
        fill_parts pg eid
          [("_hour", str_of_N (int_of_digits hh));
           ("_minute", pad2 (int_of_digits mm))]
    | None => ret tt
    end
  else if type_is t "dropdown" && has_eid then
    let sel := "select[name=" +:+ chr dquote +:+ "entry." +:+ eid +:+ chr dquote +:+ "]" in
    if (0 <? count pg (Locator sel))%nat then do pg (SelectOption sel (py_str val))
    else ret tt
  else if type_is t "choice" then
    let r := GetByRole "radio" (NameExactI (py_str val)) in
    if (0 <? count pg r)%nat then
      try_catch any_exception
        (do pg (ScrollIntoView (First r)) ;;; do pg (Tick (First r)))
        (fun _ => ret tt)
    else ret tt
  else if type_is t "checkbox" then
    check_boxes pg (match val with PList l => l | _ => [PStr (py_str val)] end)
  else ret tt.

(** The loop of [prefill_form] over [config.get('fields', [])], and the
    line it prints when it is through (without its check mark). *)
Fixpoint fill_fields (pg : page) (fields : list field) : run unit :=
  match fields with
  | [] => ret tt
  | f :: rest => fill_field pg f ;;; fill_fields pg rest
  end.

Definition prefill_form (pg : page) (fields : list field) (keep_open : bool) : run unit :=
  fill_fields pg fields ;;;
  print ("Prefill done." +:+
         (if keep_open then " Browser left open. (No submit)." else "")).

End BrowserFiller.

(** ** prac/normalforms/form_filler/airtable.py and filler.py *)

Module AirtableFiller.
Import Playwright.

(** [f"//label[normalize-space()='{label}']"] *)
Definition label_xpath (label : string) : string :=
  "//label[normalize-space()='" +:+ label +:+ "']".

(** A [try] block that may [return] from the function: [true] when it
    did, [false] when control goes on after the block. *)
Definition returned : run bool := ret true.
Definition goes_on : run bool := ret false.

(** [open_field(page, label)] *)
Definition open_field (pg : page) (label : string) : run unit :=
  let field := First (GetByLabel label) in
  r <- try_catch is_timeout
         (if (0 <? count pg field)%nat then do pg (Click field) ;;; returned else goes_on)
         (fun _ => goes_on) ;;
  if r : bool then ret tt
  else
    try_catch is_timeout
      (let xpath := label_xpath label in
       let label_element := First (Locator xpath) in
       if (0 <? count pg label_element)%nat then
         let focusable_xpath :=
           xpath +:+ "/following::input[1] | " +:+ xpath +:+ "/following::textarea[1] | "
           +:+ xpath +:+ "/following::select[1] | " +:+ xpath +:+ "/following::button[1]" in
         let focusable := First (Locator focusable_xpath) in
         if (0 <? count pg focusable)%nat then do pg (Click focusable)
         else do pg (Click label_element)
       else ret tt)
      (fun _ => raise (PlaywrightTimeoutError ("Could not find field with label: " +:+ label))).

(** [fill_select_single(page, label, choice)] *)
Definition fill_select_single (pg : page) (label choice : string) : run unit :=
  open_field pg label ;;;
  do pg (Press "Enter") ;;;
  do pg (WaitForTimeout 500) ;;;
  do pg (InsertText choice) ;;;
  do pg (Press "Enter") ;;;
  do pg (WaitForTimeout 300).

(** [fill_select_multi(page, label, choices)]; a choice that is not a
    [str] is refused by [insert_text]. *)
Fixpoint fill_select_multi (pg : page) (label : string) (choices : list pyval) : run unit :=
  match choices with
  | [] => ret tt
  | c :: rest =>
      open_field pg label ;;;
      do pg (Press "Enter") ;;;
      do pg (WaitForTimeout 500) ;;;
      match c with
      | PStr choice => do pg (InsertText choice)
      | _ => raise (Exception "text: expected string")
      end ;;;
      do pg (Press "Enter") ;;;
      do pg (WaitForTimeout 300) ;;;
      do pg (Press "Escape") ;;;
      do pg (WaitForTimeout 200) ;;;
      fill_select_multi pg label rest
  end.

(** [set_attachment(page, label, file_path)] *)
Definition set_attachment (pg : page) (label file_path : string) : run unit :=
  let file_path := resolve pg file_path in
  if negb (file_exists pg file_path) then
    raise (FileNotFoundError ("File not found: " +:+ file_path))
  else
    let file_input := Sub (GetByLabel label) "input[type='file']" in
    r <- try_catch is_timeout
           (if (0 <? count pg file_input)%nat
            then do pg (SetInputFiles file_input file_path) ;;; returned
            else goes_on)
           (fun _ => goes_on) ;;
    if r : bool then ret tt
    else
      let missing := PlaywrightTimeoutError ("Could not find file input for label: " +:+ label) in
      try_catch is_timeout
        (let file_input := First (Locator (label_xpath label +:+ "//input[@type='file']")) in
         if (0 <? count pg file_input)%nat then do pg (SetInputFiles file_input file_path)
         else raise missing)
        (fun _ => raise missing).

(** [check_by_label] and [uncheck_by_label] differ in the interaction
    only. *)
Definition toggle_by_label (pg : page) (label : string) (interaction : locator -> action)
  : run unit :=
  let checkbox := GetByLabel label in
  r <- try_catch is_timeout
         (if (0 <? count pg checkbox)%nat then do pg (interaction checkbox) ;;; returned
          else goes_on)
         (fun _ => goes_on) ;;
  if r : bool then ret tt
  else
    let checkbox := First (Locator (label_xpath label +:+ "//input[@type='checkbox']")) in
    if (0 <? count pg checkbox)%nat then do pg (interaction checkbox)
    else raise (PlaywrightTimeoutError ("Could not find checkbox for label: " +:+ label)).

Definition check_by_label (pg : page) (label : string) : run unit :=
  toggle_by_label pg label Tick.

Definition uncheck_by_label (pg : page) (label : string) : run unit :=
  toggle_by_label pg label Untick.

(** The six selectors of [_fill_text_field]. *)
Definition text_field_xpaths (label : string) : list string :=
  [ label_xpath label +:+ "/following::input[1]";
    label_xpath label +:+ "/following::textarea[1]";
    label_xpath label +:+ "//input";
    label_xpath label +:+ "//textarea";
    "//label[contains(text(), '" +:+ label +:+ "')]/following::input[1]";
    "//label[contains(text(), '" +:+ label +:+ "')]/following::textarea[1]" ].

(** [field.evaluate("el => el.tagName.toLowerCase()")] *)
Definition evaluate_tag (pg : page) (l : locator) : run string :=
  match tag_name pg l with
  | Some t => ret t
  | None => raise (PlaywrightTimeoutError "Timeout exceeded")
  end.

(** The loop of [_fill_text_field] over its selectors; [true] when a
    field was filled. *)
Fixpoint fill_first_xpath (pg : page) (xpaths : list string) (value : string) : run bool :=
  match xpaths with
  | [] => goes_on
  | xpath :: rest =>
      r <- try_catch any_exception
             (let field := First (Locator xpath) in
              if (0 <? count pg field)%nat then
                tag <- evaluate_tag pg field ;;
                if String.eqb tag "input" || String.eqb tag "textarea"
                then do pg (Fill field value) ;;; returned
                else goes_on
              else goes_on)
             (fun _ => goes_on) ;;
      if r : bool then returned else fill_first_xpath pg rest value
  end.

(** [_fill_text_field(page, label, value, timeout)] *)
Definition _fill_text_field (pg : page) (label value : string) (timeout : Z) : run unit :=
  r <- fill_first_xpath pg (text_field_xpaths label) value ;;
  if r : bool then ret tt
  else
    r' <- try_catch any_exception
            (let field :=
               First (FilterHas (Locator "input, textarea")
                                (Locator ("label:has-text('" +:+ label +:+ "')"))) in
             if (0 <? count pg field)%nat then do pg (Fill field value) ;;; returned
             else goes_on)
            (fun _ => goes_on) ;;
    if r' : bool then ret tt
    else raise (PlaywrightTimeoutError ("Could not find text field for label: " +:+ label)).

(** [_fill_checkbox(page, label, checked, timeout)] *)
Definition _fill_checkbox (pg : page) (label : string) (checked : bool) (timeout : Z)
  : run unit :=
  if checked then check_by_label pg label else uncheck_by_label pg label.

Definition _fill_single_select (pg : page) (label choice : string) (timeout : Z) : run unit :=
  fill_select_single pg label choice.

Definition _fill_multi_select (pg : page) (label : string) (choices : list pyval) (timeout : Z)
  : run unit :=
  fill_select_multi pg label choices.

Definition _fill_attachment (pg : page) (label file_path : string) (timeout : Z) : run unit :=
  set_attachment pg label file_path.

(** [kind == name] *)
Definition kind_is (kind : pyval) (name : string) : bool :=
  match kind with
  | PStr s => String.eqb s name
  | _ => false
  end.

(** [kind in ["text", "long_text", "email", "url", "tel", "number", "date"]] *)
Definition text_kinds : list string :=
  ["text"; "long_text"; "email"; "url"; "tel"; "number"; "date"].

(** The kinds [fill_value] has a branch for. *)
Definition supported_kinds : list string :=
  text_kinds ++ ["checkbox"; "single_select"; "multi_select"; "attachment"].

(** [fill_value(page, kind, label, value, timeout)] *)
Definition fill_value (pg : page) (kind : pyval) (label : string) (value : pyval) (timeout : Z)
  : run unit :=
  try_catch any_exception
    (if existsb (kind_is kind) text_kinds then
       _fill_text_field pg label (py_str value) timeout
     else if kind_is kind "checkbox" then
       _fill_checkbox pg label (truthy value) timeout
     else if kind_is kind "single_select" then
       _fill_single_select pg label (py_str value) timeout
     else if kind_is kind "multi_select" then
       _fill_multi_select pg label
         (match value with PList l => l | _ => [PStr (py_str value)] end) timeout
     else if kind_is kind "attachment" then
       _fill_attachment pg label (py_str value) timeout
     else raise (ValueError ("Unsupported field type: " +:+ py_str kind)))
    (fun e =>
       raise (Exception ("Failed to fill field '" +:+ label +:+ "' (type: "
                         +:+ py_str kind +:+ "): " +:+ exn_msg e))).

(** The keys of the configuration the two functions below read. *)
Record config : Type := Config {
  submit_selector : option string;          (* config.get("submit_selector") *)
  success_selector : option string;         (* config["page"].get("success_selector") *)
  success_url_contains : option string      (* config["page"].get("success_url_contains") *)
}.

Definition configured (o : option string) : option string :=
  match o with
  | Some s => if is_empty s then None else Some s
  | None => None
  end.

Definition alternative_selectors : list string :=
  [ "button[type='submit']"; "input[type='submit']"; "button:has-text('Submit')";
    "button:has-text('Send')"; "button:has-text('Send Form')" ].

Fixpoint click_first_selector (pg : page) (selectors : list string) : run bool :=
  match selectors with
  | [] => goes_on
  | selector :: rest =>
      r <- try_catch is_timeout
             (let button := First (Locator selector) in
              if (0 <? count pg button)%nat then do pg (Click button) ;;; returned
              else goes_on)
             (fun _ => goes_on) ;;
      if r : bool then returned else click_first_selector pg rest
  end.

(** [submit(page, config)] *)
Definition submit (pg : page) (cfg : config) : run unit :=
  r <- try_catch is_timeout
         (let submit_button := GetByRole "button" (NameRegexI "submit") in
          if (0 <? count pg submit_button)%nat then do pg (Click submit_button) ;;; returned
          else goes_on)
         (fun _ => goes_on) ;;
  if r : bool then ret tt
  else
    r1 <- click_first_selector pg alternative_selectors ;;
    if r1 : bool then ret tt
    else
      r2 <- match configured (submit_selector cfg) with
            | Some sel => click_first_selector pg [sel]
            | None => goes_on
            end ;;
      if r2 : bool then ret tt
      else raise (PlaywrightTimeoutError "Could not find submit button").

Definition success_patterns : list string :=
  [ "thank you"; "thanks"; "submitted"; "response"; "success"; "form submitted";
    "thank you for" ].

(** The loop of [wait_for_success] over the patterns. *)
Fixpoint wait_for_pattern (pg : page) (patterns : list string) (timeout : Z) : run bool :=
  match patterns with
  | [] => goes_on
  | pattern :: rest =>
      r <- try_catch is_timeout
             (let success_element := First (Locator ("text=/" +:+ pattern +:+ "/i")) in
              if (0 <? count pg success_element)%nat then
                do pg (WaitFor success_element
                         (timeout / Z.of_nat (length success_patterns))) ;;; returned
              else goes_on)
             (fun _ => goes_on) ;;
      if r : bool then returned else wait_for_pattern pg rest timeout
  end.

Definition first_name_xpath : string :=
  "//label[normalize-space()='First Name']/following::input[1]".

(** The last [try] block of [wait_for_success]. *)
Definition form_gone (pg : page) : run bool :=
  try_catch any_exception
    (do pg (WaitForTimeout 3000) ;;;
     if (count pg (Locator "input, textarea") =? 0)%nat then
       print "Form fields no longer present - assuming successful submission" ;;; returned
     else if (count pg (Locator "button[type='submit'], button:has-text('Submit')") =? 0)%nat then
       print "Submit button no longer present - assuming successful submission" ;;; returned
     else
       let first_name_field := First (Locator first_name_xpath) in
       if (0 <? count pg first_name_field)%nat then
         match input_value pg first_name_field with
         | Some first_name_value =>
             if is_empty first_name_value then
               print "Form fields appear to be cleared - assuming successful submission" ;;;
               returned
             else goes_on
         | None => raise (PlaywrightTimeoutError "Timeout exceeded")
         end
       else goes_on)
    (fun _ => goes_on).


(** [wait_for_success(page, config, timeout)] *)
Definition wait_for_success (pg : page) (cfg : config) (timeout : Z) : run unit :=
  r <- match configured (success_selector cfg) with
       | Some sel =>
           try_catch is_timeout (do pg (WaitForSelector sel timeout) ;;; returned)
             (fun _ => goes_on)
       | None => goes_on
       end ;;
  if r : bool then ret tt
  else
    match configured (success_url_contains cfg) with
    | Some part =>
        let current_url := url pg in
        if contains current_url part then ret tt
        else raise (PlaywrightTimeoutError
                      ("Expected URL to contain '" +:+ part +:+ "', got: " +:+ current_url))
    | None =>
        r1 <- wait_for_pattern pg success_patterns timeout ;;
        if r1 : bool then ret tt
        else
          r2 <- form_gone pg ;;
          if r2 : bool then ret tt
          else
            print "Warning: Could not detect clear success confirmation, but form was filled and submitted" ;;;
            print "This is common with Airtable forms - submission likely successful"
    end.

(** *** The field loop of the CLI driver ([form_filler/__main__.py]) *)

(** An item of [data.json] that passed the check for its three keys. *)
Record field_data : Type := FieldData {
  fd_label : string;
  fd_type : pyval;
  fd_value : pyval
}.

(** [for field_data in data: ... fill_value(...)] *)
Fixpoint fill_all (pg : page) (data : list field_data) (timeout : Z) : run unit :=
  match data with
  | [] => ret tt
  | fd :: rest =>
      print ("Filling field: " +:+ fd_label fd +:+ " (" +:+ py_str (fd_type fd) +:+ ") = "
             +:+ py_str (fd_value fd)) ;;;
      fill_value pg (fd_type fd) (fd_label fd) (fd_value fd) timeout ;;;
      fill_all pg rest timeout
  end.

(** The [status] and [error] of the log row. *)
Definition outcome : Type := string * string.

(** The part of [main()] from the field loop to the success message, with
    the two handlers that set [status] and [error_message]; the
    screenshots are left out. *)
Definition fill_and_submit (pg : page) (cfg : config) (data : list field_data) (timeout : Z)
  : outcome * list event :=
  let body :=
    fill_all pg data timeout ;;;
    print "All fields filled, submitting form..." ;;;
    submit pg cfg ;;;
    print "Form submitted, waiting for success confirmation..." ;;;
    wait_for_success pg cfg timeout ;;;
    print "Success! Form submitted successfully." in
  match body with
  | (Ok _, t) => (("success", ""), t)
  | (Raise (PlaywrightTimeoutError m), t) =>
      (("timeout", "Timeout error: " +:+ m), t ++ [Printed ("Error: Timeout error: " +:+ m)])
  | (Raise e, t) => (("error", exn_msg e), t ++ [Printed ("Error: " +:+ exn_msg e)])
  end.

(** *** The run of the CLI driver as a whole *)

(** An item of [data.json]: one that fails the check for its three keys,
    or a field. *)
Inductive data_item : Type :=
| Malformed
| WellFormed (fd : field_data).

(** The loop over [data], [sys.exit(1)] included: [false] when it left
    through [sys.exit]. *)
Fixpoint fill_items (pg : page) (data : list data_item) (timeout : Z) : run bool :=
  match data with
  | [] => ret true
  | Malformed :: _ =>
      print "Error: Each field in data.json must have 'label', 'type', and 'value' keys" ;;;
      ret false
  | WellFormed fd :: rest =>
      print ("Filling field: " +:+ fd_label fd +:+ " (" +:+ py_str (fd_type fd) +:+ ") = "
             +:+ py_str (fd_value fd)) ;;;
      fill_value pg (fd_type fd) (fd_label fd) (fd_value fd) timeout ;;;
      fill_items pg rest timeout
  end.

(** What a run leaves: the [status] of the row it appends to the log and
    the exit code of the process. *)
Record run_end : Type := RunEnd {
  logged_status : string;
  exit_code : Z
}.

(** [main()] from the field loop on; [data] is [None] when [data.json]
    does not hold a list.  [sys.exit] raises [SystemExit], which is not an
    [Exception]: neither handler sees it, the [finally] block logs the
    status as it stands and the process ends with the code given. *)
Definition main_run (pg : page) (cfg : config) (data : option (list data_item)) (timeout : Z)
  : run_end * list event :=
  let body : run bool :=
    match data with
    | None => print "Error: data.json must contain a list of field objects" ;;; ret false
    | Some items =>
        filled <- fill_items pg items timeout ;;
        if filled : bool then
          print "All fields filled, submitting form..." ;;;
          submit pg cfg ;;;
          print "Form submitted, waiting for success confirmation..." ;;;
          wait_for_success pg cfg timeout ;;;
          print "Success! Form submitted successfully." ;;;
          ret true
        else ret false
    end in
  match body with
  | (Ok true, t) => (RunEnd "success" 0, t ++ [Printed "Form filling completed successfully!"])
  | (Ok false, t) => (RunEnd "success" 1, t)
  | (Raise (PlaywrightTimeoutError m), t) =>
      (RunEnd "timeout" 1,
       t ++ [Printed ("Error: Timeout error: " +:+ m);
             Printed ("Form filling failed: Timeout error: " +:+ m)])
  | (Raise e, t) =>
      (RunEnd "error" 1,
       t ++ [Printed ("Error: " +:+ exn_msg e);
             Printed ("Form filling failed: " +:+ exn_msg e)])
  end.

End AirtableFiller.

(** ** prac/google-form-rpa-agent/rpa/form_parser_gemini.py *)

Module GeminiParser.

(** The suffix after the first occurrence of [sub], and the prefix before
    it. *)
Fixpoint after_first (sub s : string) : option string :=
  if startswith s sub then Some (String.substring (String.length sub) (String.length s) s)
  else match s with
       | "" => None
       | String _ s' => after_first sub s'
       end.

Fixpoint before_first (sub s : string) : option string :=
  if startswith s sub then Some ""
  else match s with
       | "" => None
       | String c s' =>
           match before_first sub s' with
           | Some p => Some (String c p)
           | None => None
           end
       end.

(** [s.find(c)] and [s.rfind(c)], [None] for -1. *)
Fixpoint find_char (c : ascii) (s : string) : option nat :=
  match s with
  | "" => None
  | String d s' =>
      if Ascii.eqb c d then Some 0
      else match find_char c s' with
           | Some i => Some (S i)
           | None => None
           end
  end.

Fixpoint rfind_char (c : ascii) (s : string) : option nat :=
  match s with
  | "" => None
  | String d s' =>
      match rfind_char c s' with
      | Some i => Some (S i)
      | None => if Ascii.eqb c d then Some 0 else None
      end
  end.

(** Group 1 of [re.search(r"```(?:json)?\s*([\s\S]*?)```", s, re.IGNORECASE)]:
    the text between the first fence, with the word [json] and the white
    space after it dropped, and the next fence. *)
Definition fence_group (s : string) : option string :=
  match after_first "```" s with
  | Some r =>
      let r1 := if startswith (lower (String.substring 0 4 r)) "json"
                then String.substring 4 (String.length r) r else r in
      before_first "```" (lstrip r1)
  | None => None
  end.

(** Group 0 of [re.search(r"\{[\s\S]*\}\s*$", s)]: from the first brace to
    the end, when only white space follows some closing brace after it. *)
Definition object_to_end (s : string) : option string :=
  if endswith (rstrip s) "}" then
    match find_char "{" (rstrip s) with
    | Some first => Some (String.substring first (String.length s) s)
    | None => None
    end
  else None.

(** [_extract_json_text(txt)] *)
Definition _extract_json_text (txt : string) : res string :=
  if is_empty txt then Raise (ValueError "Empty response text")
  else
    let s := strip txt in
    let fenced := match fence_group s with
                  | Some g => if is_empty (strip g) then None else Some (strip g)
                  | None => None
                  end in
    match fenced with
    | Some candidate => Ok candidate
    | None =>
        match object_to_end s with
        | Some m => Ok m
        | None =>
            match find_char "{" s, rfind_char "}" s with
            | Some first, Some last =>
                if (first <? last)%nat
                then Ok (String.substring first (last + 1 - first) s)
                else Raise (ValueError "No JSON object found in model output")
            | _, _ => Raise (ValueError "No JSON object found in model output")
            end
        end
    end.

(** [basic[k] not in (None, '')] fails for these two values. *)
Definition blank (v : pyval) : bool :=
  match v with
  | PNone => true
  | PStr s => is_empty s
  | _ => false
  end.

(** The local function [pick(keys, default)] of [_guess_value]. *)
Fixpoint pick (basic : gmap string pyval) (keys : list string) (default : pyval) : pyval :=
  match keys with
  | [] => default
  | k :: ks =>
      match basic !! k with
      | Some v => if blank v then pick basic ks default else v
      | None => pick basic ks default
      end
  end.

(** [a + b] where one of the two is a [str]: the sum of two [str], a
    [TypeError] otherwise. *)
Definition add_str (a b : pyval) : res pyval :=
  match a, b with
  | PStr x, PStr y => Ok (PStr (x +:+ y))
  | _, _ => Raise (TypeError "unsupported operand type(s) for +")
  end.

(** [v.strip()] *)
Definition strip_value (v : pyval) : res pyval :=
  match v with
  | PStr s => Ok (PStr (strip s))
  | _ => Raise (Exception "AttributeError: object has no attribute 'strip'")
  end.

(** [str(a).strip().lower() == str(b).strip().lower()] *)
Definition same_option (a b : string) : bool :=
  String.eqb (lower (strip a)) (lower (strip b)).

(** [for o in options: if ... == ...: return o] *)
Fixpoint matching_option (options : list string) (v : string) : option string :=
  match options with
  | [] => None
  | o :: os => if same_option o v then Some o else matching_option os v
  end.

(** [for x in v]: the items of a list, the keys of a dict, the characters
    of a str; the other values are not iterable. *)
Fixpoint chars (s : string) : list pyval :=
  match s with
  | "" => []
  | String c s' => PStr (chr c) :: chars s'
  end.

Definition iterate (v : pyval) : res (list pyval) :=
  match v with
  | PList l => Ok l
  | PDict d => Ok (List.map (fun kv => PStr (fst kv)) d)
  | PStr s => Ok (chars s)
  | PInt _ => Raise (TypeError "'int' object is not iterable")
  | PBool _ => Raise (TypeError "'bool' object is not iterable")
  | PNone => Raise (TypeError "'NoneType' object is not iterable")
  end.

Definition get (basic : gmap string pyval) (k : string) : pyval :=
  match basic !! k with
  | Some v => v
  | None => PNone
  end.

(** The branch of [_guess_value] for the types [text] and [paragraph]. *)
Definition guess_text (l : string) (basic : gmap string pyval) : res pyval :=
  let pick := pick basic in
  if contains l "email" then Ok (pick ["email"; "mail"] (PStr ""))
  else if contains l "phone" || contains l "mobile"
  then Ok (pick ["phone"; "phone_number"; "mobile"] (PStr ""))
  else if contains l "first name"
  then Ok (pick ["first_name"; "firstname"; "given_name"; "name_first"] (PStr ""))
  else if contains l "last name" || contains l "surname"
  then Ok (pick ["last_name"; "lastname"; "family_name"; "name_last"] (PStr ""))
  else if contains l "name" then
    let full := pick ["name"; "full_name"] (PStr "") in
    if truthy full then Ok full
    else
      let fn := pick ["first_name"; "firstname"] (PStr "") in
      let ln := pick ["last_name"; "lastname"] (PStr "") in
      Py.bind (add_str fn (PStr " ")) (fun a => Py.bind (add_str a ln) strip_value)
  else if contains l "company" || contains l "organization" || contains l "organisation"
  then Ok (pick ["company"; "organization"; "organisation"; "employer"] (PStr ""))
  else if contains l "title" || contains l "role" || contains l "position"
  then Ok (pick ["title"; "role"; "position"; "job_title"] (PStr ""))
  else if contains l "city" then Ok (pick ["city"] (PStr ""))
  else if contains l "state" || contains l "province"
  then Ok (pick ["state"; "province"] (PStr ""))
  else if contains l "country" then Ok (pick ["country"] (PStr ""))
  else if contains l "zip" || contains l "postal"
  then Ok (pick ["zip"; "postal"; "postal_code"; "zip_code"] (PStr ""))
  else if contains l "address" then Ok (pick ["address"; "street"] (PStr ""))
  else if contains l "website" || contains l "url" then Ok (pick ["website"; "url"] (PStr ""))
  else if contains l "message" || contains l "comments" || contains l "notes"
  then Ok (pick ["message"; "notes"; "comment"] (PStr ""))
  else Ok (PStr "").

Definition is_some {A} (o : option A) : bool :=
  match o with Some _ => true | None => false end.

(** [_guess_value(label, ftype, options, basic)] *)
Definition _guess_value (label ftype : string) (options : list string)
    (basic : gmap string pyval) : res pyval :=
  let l := lower label in
  if String.eqb ftype "text" || String.eqb ftype "paragraph" then guess_text l basic
  else if String.eqb ftype "date" then
    let v := pick basic ["date"; "dob"; "birthday"] (PStr "") in
    Ok (if is_some (BrowserFiller.match_date (py_str (py_or v (PStr "")))) then v else PStr "")
  else if String.eqb ftype "time" then
    let v := pick basic ["time"] (PStr "") in
    Ok (if is_some (BrowserFiller.match_time (py_str (py_or v (PStr "")))) then v else PStr "")
  else if String.eqb ftype "dropdown" || String.eqb ftype "choice" then
    let v := pick basic ["choice"; "selection"; "option"; "answer"; "value"] (PStr "") in
    let found := match v, options with
                 | PStr hint, _ :: _ => matching_option options hint
                 | _, _ => None
                 end in
    match found with
    | Some o => Ok (PStr o)
    | None => Ok (PStr (match options with o :: _ => o | [] => "" end))
    end
  else if String.eqb ftype "checkbox" then
    let v := py_or (get basic "selections")
               (py_or (get basic "options") (py_or (get basic "answers") (PList []))) in
    let v := match v with PStr _ => PList [v] | _ => v end in
    Py.bind (iterate (py_or v (PList []))) (fun items =>
      Ok (PList (List.map PStr
            (flat_map (fun o => List.filter (fun cand => same_option cand (py_str o)) options)
                      items))))
  else Ok (PStr "").

(** An item of the summary [summarize_form_fields] returns; [None] is a
    missing key. *)
Record descriptor : Type := Descriptor {
  entry_id : option string;
  question_label : option string;
  type_ : option string;
  options : option (list string)
}.

Definition opt_str (o : option string) : pyval :=
  match o with
  | Some s => PStr s
  | None => PNone
  end.

Definition is_list (v : pyval) : bool :=
  match v with PList _ => true | _ => false end.

(** The dictionary [_fallback_config] appends for one descriptor. *)
Definition fallback_field (basic : gmap string pyval) (f : descriptor) : res pyval :=
  let eid := entry_id f in
  let ql := match question_label f with Some s => s | None => "" end in
  let ftype := match type_ f with Some s => s | None => "text" end in
  let options := match options f with Some l => l | None => [] end in
  Py.bind (_guess_value ql ftype options basic) (fun val =>
    let val := if String.eqb ftype "checkbox" && negb (is_list val)
               then (if truthy val then PList [val] else PList [])
               else val in
    Ok (PDict [ ("entry_id", opt_str eid);
                ("question_label", PStr ql);
                ("type", PStr ftype);
                ("value", val);
                ("option_hints",
                 match options with
                 | [] => PNone
                 | _ => PList (List.map PStr options)
                 end) ])).

Fixpoint fallback_fields (basic : gmap string pyval) (summary : list descriptor)
  : res (list pyval) :=
  match summary with
  | [] => Ok []
  | f :: rest =>
      Py.bind (fallback_field basic f) (fun d =>
        Py.bind (fallback_fields basic rest) (fun ds => Ok (d :: ds)))
  end.

(** [_fallback_config(url, summary, basic)] *)
Definition _fallback_config (url : string) (summary : list descriptor)
    (basic : gmap string pyval) : res pyval :=
  Py.bind (fallback_fields basic summary) (fun fields =>
    Ok (PDict [("form_url", PStr url); ("fields", PList fields)])).

(** What the model call gives back: the attribute [text] and, for each
    candidate, the [text] of each part ([None] where there is none). *)
Record response : Type := Response {
  r_text : option string;
  r_candidates : list (list (option string))
}.

Inductive generation : Type :=
| GenerateRaises (e : exn)
| GenerateReturns (r : response).

(** What lies outside the script: the API key of the environment, the
    outcome of [generate_content] and [json.loads] ([None] where it
    raises). *)
Record world : Type := World {
  api : option string;
  generate : generation;
  json_loads : string -> option pyval
}.

(** The text of the response, "best effort". *)
Definition response_text (r : response) : string :=
  match r_text r with
  | Some (String c t) => String c t
  | _ =>
      join (chr newline)
        (flat_map (fun parts =>
                     flat_map (fun p => match p with
                                        | Some (String c t) => [String c t]
                                        | _ => []
                                        end) parts)
                  (r_candidates r))
  end.

(** [isinstance(data, dict) and isinstance(data.get('fields'), list)] *)
Definition has_fields_list (data : pyval) : bool :=
  match data with
  | PDict d => match dict_get "fields" d with
               | Some (PList _) => true
               | _ => false
               end
  | _ => false
  end.

(** [call_gemini(url, summary, basic, prompt_path)], after the prompt is
    built. *)
Definition call_gemini (w : world) (url : string) (summary : list descriptor)
    (basic : gmap string pyval) : res pyval :=
  match api w with
  | None | Some "" => _fallback_config url summary basic
  | Some _ =>
      match generate w with
      | GenerateRaises _ => _fallback_config url summary basic
      | GenerateReturns resp =>
          let txt := response_text resp in
          let body :=
            Py.bind (_extract_json_text txt) (fun jtxt =>
              match json_loads w jtxt with
              | Some data =>
                  if has_fields_list data then Ok data
                  else _fallback_config url summary basic
              | None => Raise (ValueError "JSONDecodeError")
              end) in
          match body with
          | Ok cfg => Ok cfg
          | Raise _ => _fallback_config url summary basic
          end
      end
  end.

(** [d[k] = v] on the items of a [dict]: the value is replaced where the
    key is, a new item is added at the end otherwise. *)
Fixpoint dict_set {V} (k : string) (v : V) (d : list (string * V)) : list (string * V) :=
  match d with
  | [] => [(k, v)]
  | (k', v') :: d' =>
      if String.eqb k k' then (k', v) :: d' else (k', v') :: dict_set k v d'
  end.

(** [build_config_from_gemini(url, basic, system_prompt_path)], once the
    page is fetched and summarised. *)
Definition build_config_from_gemini (w : world) (url : string) (summ : list descriptor)
    (basic : gmap string pyval) : res pyval :=
  Py.bind (call_gemini w url summ basic) (fun cfg =>
    match cfg with
    | PDict d => Ok (PDict (dict_set "form_url" (PStr url) d))
    | PList _ => Raise (TypeError "list indices must be integers or slices, not str")
    | _ => Raise (TypeError "object does not support item assignment")
    end).

(** *** The second pass of [summarize_form_fields]

    When the page has no input named [entry.*], the fields are read from
    the array the page assigns to [FB_PUBLIC_LOAD_DATA_]. *)

(** What follows the name in a match of
    [FB_PUBLIC_LOAD_DATA_\s*=\s*(\[)]: the text from the bracket on. *)
Definition after_assignment (s : string) : option string :=
  match lstrip s with
  | String "=" r =>
      match lstrip r with
      | String "[" r' => Some (String "[" r')
      | _ => None
      end
  | _ => None
  end.

(** [re.search(r'FB_PUBLIC_LOAD_DATA_\s*=\s*(\[)', html)]: [html[start:]]
    for the first match. *)
Fixpoint find_load_data (html : string) : option string :=
  match (if startswith html "FB_PUBLIC_LOAD_DATA_"
         then after_assignment (String.substring 20 (String.length html) html)
         else None) with
  | Some r => Some r
  | None =>
      match html with
      | "" => None
      | String _ html' => find_load_data html'
      end
  end.

(** The loop over [range(start, len(html))]: [end - start] for the
    bracket that brings [count] back to 0, [None] when the loop ends
    without one. *)
Fixpoint bracket_end (count : Z) (s : string) : option nat :=
  match s with
  | "" => None
  | String ch s' =>
      if Ascii.eqb ch "[" then option_map S (bracket_end (count + 1) s')
      else if Ascii.eqb ch "]" then
        if (count - 1 =? 0)%Z then Some 1%nat
        else option_map S (bracket_end (count - 1) s')
      else option_map S (bracket_end count s')
  end.

(** [data[1][1] or []] under the checks on [data]. *)
Definition questions_of (data : pyval) : pyval :=
  match data with
  | PList (_ :: PList (_ :: questions :: _) :: _) => py_or questions (PList [])
  | _ => PList []
  end.

(** [tmap] and [tmap.get(qtype, 'text')]; [True] and [False] are the keys
    1 and 0, a list or a dict cannot be a key. *)
Definition tmap (n : Z) : string :=
  if (n =? 0)%Z then "text"
  else if (n =? 1)%Z then "paragraph"
  else if (n =? 2)%Z then "choice"
  else if (n =? 3)%Z then "checkbox"
  else if (n =? 4)%Z then "dropdown"
  else if (n =? 9)%Z then "date"
  else if (n =? 10)%Z then "time"
  else "text".

Definition field_type (qtype : pyval) : res string :=
  match qtype with
  | PInt n => Ok (tmap n)
  | PBool b => Ok (tmap (if b then 1 else 0))
  | PNone | PStr _ => Ok "text"
  | PList _ => Raise (TypeError "unhashable type: 'list'")
  | PDict _ => Raise (TypeError "unhashable type: 'dict'")
  end.

(** [str(q[4][0][0])] under the checks on [q[4]]. *)
Definition entry_of (q4 : pyval) : option string :=
  match q4 with
  | PList (PList (x :: _) :: _) =>
      match x with
      | PInt _ | PBool _ | PStr _ => Some (py_str x)
      | _ => None
      end
  | _ => None
  end.

(** The labels appended to [options]: [q[4][0][1]] is missing, or is not
    iterable, and an exception leaves [options] empty. *)
Definition option_labels (q4 : pyval) : list string :=
  match q4 with
  | PList (PList (_ :: opts :: _) :: _) =>
      match iterate (py_or opts (PList [])) with
      | Ok items =>
          flat_map (fun opt =>
                      match opt with
                      | PList (PStr txt :: _) =>
                          if is_empty (strip txt) then [] else [strip txt]
                      | _ => []
                      end) items
      | Raise _ => []
      end
  | _ => []
  end.

(** [ftype in ('choice','checkbox','dropdown')] *)
Definition selectable (ftype : string) : bool :=
  String.eqb ftype "choice" || String.eqb ftype "checkbox" || String.eqb ftype "dropdown".

(** A value of the dictionary [fields]. *)
Record field_info : Type := FieldInfo {
  fi_type : string;
  fi_options : list string;     (* the members of the set, as they were added *)
  fi_label : string
}.

(** The body of the loop over the questions: the entry it stores, [None]
    when the question is skipped. *)
Definition question_entry (q : pyval) : res (option (string * field_info)) :=
  match q with
  | PList (_ :: q1 :: _ :: qtype :: q4 :: _) =>
      let label := match q1 with PStr s => s | _ => "" end in
      Py.bind (field_type qtype) (fun ftype =>
        match entry_of q4 with
        | Some eid =>
            if is_empty eid then Ok None
            else
              let options := if selectable ftype then option_labels q4 else [] in
              Ok (Some (eid, FieldInfo ftype options (String.substring 0 200 label)))
        | None => Ok None
        end)
  | _ => Ok None
  end.

(** The loop; an exception leaves it with the fields stored so far. *)
Fixpoint load_questions (fields : list (string * field_info)) (questions : list pyval)
  : list (string * field_info) :=
  match questions with
  | [] => fields
  | q :: rest =>
      match question_entry q with
      | Ok (Some (eid, info)) => load_questions (dict_set eid info fields) rest
      | Ok None => load_questions fields rest
      | Raise _ => fields
      end
  end.

(** [sorted(list(set(options)))] *)
Fixpoint insert_sorted (x : string) (l : list string) : list string :=
  match l with
  | [] => [x]
  | y :: l' =>
      match String.compare x y with
      | Lt => x :: l
      | Eq => l
      | Gt => y :: insert_sorted x l'
      end
  end.

Definition sorted_set (l : list string) : list string := fold_right insert_sorted [] l.

(** The descriptor appended to [out] for an item of [fields]. *)
Definition out_item (item : string * field_info) : descriptor :=
  Descriptor (Some (fst item)) (Some (fi_label (snd item))) (Some (fi_type (snd item)))
             (Some (sorted_set (fi_options (snd item)))).

(** [summarize_form_fields(html)] for a page on which the first pass
    found no field; [loads] is [json.loads]. *)
Definition summarize_load_data (loads : string -> option pyval) (html : string)
  : list descriptor :=
  let fields :=
    match find_load_data html with
    | Some from_start =>
        match bracket_end 0 from_start with
        | Some n =>
            match loads (String.substring 0 n from_start) with
            | Some data =>
                match iterate (questions_of data) with
                | Ok questions => load_questions [] questions
                | Raise _ => []
                end
            | None => []
            end
        | None => []
        end
    | None => []
    end in
  List.map out_item fields.

End GeminiParser.

(** * The vocabulary of the properties

    The words the statements below use: the shapes of the values, the
    entries of a row, sample pages. *)

Section XPathLiteralVocabulary.
Import CsvForm XPathExpr.

(** The values of the tokens of [literal_tokens], in order. *)
Fixpoint token_values (parts : list string) : list string :=
  match parts with
  | [] => []
  | p :: rest =>
      (if is_empty p then [] else [p])
      ++ match rest with
         | [] => []
         | _ :: _ => chr squote :: token_values rest
         end
  end.

(** A token of the [concat] call and the string it denotes. *)
Inductive fragment : string -> string -> Prop :=
| fragment_part (p : string) :
    has_char squote p = false -> p <> "" ->
    fragment (chr squote +:+ p +:+ chr squote) p
| fragment_quote :
    fragment (chr dquote +:+ chr squote +:+ chr dquote) (chr squote).

End XPathLiteralVocabulary.

Section CsvRowVocabulary.
Import CsvForm.

(** A string ends with [suf] up to case when it is some [pre] followed by a
    [tail] whose lower case is [suf]. *)
Definition ends_with_ci (k suf pre : string) : Prop :=
  exists tail, k = pre +:+ tail /\ lower tail = suf.








End CsvRowVocabulary.

Section DateTimeVocabulary.
Import Playwright BrowserFiller.






(** A page that has exactly the inputs selected by [selectors] and accepts
    every interaction. *)
Definition page_with_inputs (selectors : list string) : page :=
  {| count := fun l => match l with
                       | Locator s => if existsb (String.eqb s) selectors then 1 else 0
                       | _ => 0
                       end;
     tag_name := fun _ => Some "input";
     input_value := fun _ => Some "";
     url := "https://docs.google.com/forms/d/e/x/viewform";
     completes := fun _ => true;
     resolve := fun p => p;
     file_exists := fun _ => false |}.

End DateTimeVocabulary.

Section AirtableVocabulary.
Import Playwright AirtableFiller.



(** A page still showing the form: three inputs, a submit button, no
    success text, every wait completes. *)
Definition still_on_form : page :=
  {| count := fun l => match l with
                       | Locator "input, textarea" => 3
                       | Locator "button[type='submit'], button:has-text('Submit')" => 1
                       | _ => 0
                       end;
     tag_name := fun _ => Some "input";
     input_value := fun _ => Some "Ada";
     url := "https://airtable.com/shrForm";
     completes := fun _ => true;
     resolve := fun p => p;
     file_exists := fun _ => false |}.

(** The message of the exception [fill_value] raises for a type it has no
    branch for. *)
Definition unsupported_message (label : string) (kind : pyval) : string :=
  "Failed to fill field '" +:+ label +:+ "' (type: " +:+ py_str kind
  +:+ "): Unsupported field type: " +:+ py_str kind.

(** The type value is none of the supported ones. *)
Definition unsupported (kind : pyval) : Prop :=
  forall name, In name supported_kinds -> kind <> PStr name.

(** The line the driver prints before it fills a field. *)
Definition filling_line (fd : field_data) : event :=
  Printed ("Filling field: " +:+ fd_label fd +:+ " (" +:+ py_str (fd_type fd) +:+ ") = "
         +:+ py_str (fd_value fd)).

(** A page on which every locator selects one input and every interaction
    completes. *)
Definition page_with_everything : page :=
  {| count := fun _ => 1;
     tag_name := fun _ => Some "input";
     input_value := fun _ => Some "";
     url := "https://airtable.com/shrForm";
     completes := fun _ => true;
     resolve := fun p => p;
     file_exists := fun _ => true |}.

End AirtableVocabulary.

Section FallbackVocabulary.
Import GeminiParser.

(** A profile on which the guesses cannot raise: what it holds under the
    keys of the first and last name is a [str] (or [None]), and what it
    holds under the keys of the selections is a [str], a list or a [dict]
    (or a value that counts as false). *)
Definition plain_profile (basic : gmap string pyval) : Prop :=
  (forall k v, In k ["first_name"; "firstname"; "last_name"; "lastname"] ->
               basic !! k = Some v -> v = PNone \/ exists s, v = PStr s) /\
  (forall k v, In k ["selections"; "options"; "answers"] ->
               basic !! k = Some v ->
               truthy v = false \/ (exists s, v = PStr s) \/ (exists l, v = PList l)
               \/ (exists d, v = PDict d)).

(** The model call failed: no API key, an exception of the call, a text
    with no JSON in it, a text [json.loads] refuses, or a value with no list
    under [fields]. *)
Definition mapping_failed (w : world) : Prop :=
  api w = None \/ api w = Some "" \/
  (exists e, generate w = GenerateRaises e) \/
  (exists resp, generate w = GenerateReturns resp /\
     match _extract_json_text (response_text resp) with
     | Raise _ => True
     | Ok jtxt => match json_loads w jtxt with
                  | None => True
                  | Some data => has_fields_list data = false
                  end
     end).

(** What [_fallback_config] appends for a descriptor when the guess is
    [val]. *)
Definition entry_for (f : descriptor) (val : pyval) : pyval :=
  PDict [ ("entry_id", opt_str (entry_id f));
          ("question_label", PStr (match question_label f with Some s => s | None => "" end));
          ("type", PStr (match type_ f with Some s => s | None => "text" end));
          ("value", val);
          ("option_hints",
           match options f with
           | Some (o :: os) => PList (List.map PStr (o :: os))
           | _ => PNone
           end) ].

(** A value the loop over the selections can take. *)
Definition iterable_or_false (v : pyval) : Prop :=
  truthy v = false \/ (exists s, v = PStr s) \/ (exists l, v = PList l)
  \/ (exists d, v = PDict d).

End FallbackVocabulary.

Section SeleniumVocabulary.
Import Dom CsvForm XPathExpr.

(** The elements below the children [ks], the first of which is child
    number [i] of the element at [p]. *)
Fixpoint below (p : path) (i : nat) (ks : list node) : list (path * node) :=
  match ks with
  | [] => []
  | k :: ks' => elements (p ++ [i]) k ++ below p (S i) ks'
  end.

(** The node a path leads to. *)
Fixpoint node_at (n : node) (s : path) : option node :=
  match s with
  | [] => Some n
  | i :: s' =>
      match n with
      | Elem _ _ kids =>
          match nth_error kids i with
          | Some k => node_at k s'
          | None => None
          end
      | Text _ => None
      end
  end.

(** An element of the document that the query selects. *)
Definition located (pg : page) (q : query) (el : path * node) : Prop :=
  In el (elements [] (root pg)) /\ selects q el = true.

Definition checkbox_exact (opt : string) : query :=
  Query ["div"] [AttrEq "role" "'checkbox'"; AttrEq "aria-label" (_xpath_literal opt)].

Definition checkbox_containing (opt : string) : query :=
  Query ["div"] [AttrEq "role" "'checkbox'"; AttrContains "aria-label" (_xpath_literal opt)].

(** The control [select_checkboxes] finds for an option. *)
Definition found (pg : page) (question_label opt : string) : option (path * node) :=
  match find_checkbox pg question_label opt with
  | Ok r => r
  | Raise _ => None
  end.

(** One turn of the loop, which never raises. *)
Definition check_step (question_label : string) (st : check_state) (opt : string)
  : check_state :=
  let '(pg, success, acts) := st in
  if is_empty (strip opt) then st
  else match found pg question_label (strip opt) with
       | Some e =>
           if decide (aria_checked pg e = Some "true") then st
           else (click pg e, success, acts ++ [Click (fst e)])
       | None => (pg, false, acts)
       end.

(** The option is blank or a control is found for it. *)
Definition option_found (pg : page) (question_label opt : string) : bool :=
  is_empty (strip opt) ||
  match found pg question_label (strip opt) with Some _ => true | None => false end.


(** A form with one text input, labelled with a decorated variant. *)
Definition one_input_page : page :=
  Page (Elem "form" []
          [Elem "div" [("role", "heading")] [Text "Name"];
           Elem "input" [("type", "text"); ("aria-label", "Name *")] []])
       ∅.


End SeleniumVocabulary.

Section SeleniumExamplesVocabulary.
Import Dom CsvForm.

(** A question with two check boxes, the first one checked. *)
Definition two_boxes_page : page :=
  Page (Elem "form" []
          [Elem "div" [("role", "listitem")]
             [Elem "div" [("role", "heading")] [Elem "span" [] [Text " Toppings "]];
              Elem "div" [("role", "checkbox"); ("aria-label", "Cheese"); ("aria-checked", "true")] [];
              Elem "div" [("role", "checkbox"); ("aria-label", "Olives"); ("aria-checked", "false")] []]])
       ∅.

End SeleniumExamplesVocabulary.

Section AirtableControlsVocabulary.
Import Playwright AirtableFiller.

(** The candidates of a list the page has an element for. *)
Definition present (pg : page) (candidates : list locator) : list locator :=
  List.filter (fun l => (0 <? count pg l)%nat) candidates.

(** Candidates are tried in order with the interaction [act], up to the
    first on which it completes: [tried] are the ones reached; [ok] tells
    whether the last of them completed, the ones before it timed out.
    When [ok] is false every candidate was tried and timed out. *)
Definition attempts (pg : page) (act : locator -> action) (candidates tried : list locator)
    (ok : bool) : Prop :=
  if ok then
    exists before l after,
      tried = before ++ [l] /\ candidates = tried ++ after /\
      Forall (fun x => completes pg (act x) = false) before /\
      completes pg (act l) = true
  else tried = candidates /\ Forall (fun x => completes pg (act x) = false) candidates.

(** The events of trying the candidates. *)
Definition tries (act : locator -> action) (tried : list locator) : list event :=
  List.map (fun l => Did (act l)) tried.

(** The buttons [submit] looks for, in its order. *)
Definition submit_candidates (cfg : config) : list locator :=
  GetByRole "button" (NameRegexI "submit")
  :: List.map (fun s => First (Locator s))
       (alternative_selectors
        ++ match configured (submit_selector cfg) with
           | Some sel => [sel]
           | None => []
           end).

(** The selectors of [_fill_text_field] that select an input or a
    textarea, and its last locator. *)
Definition is_text_tag (pg : page) (l : locator) : bool :=
  match tag_name pg l with
  | Some tag => String.eqb tag "input" || String.eqb tag "textarea"
  | None => false
  end.

Definition text_field_candidates (pg : page) (label : string) : list locator :=
  List.filter (is_text_tag pg)
    (present pg (List.map (fun x => First (Locator x)) (text_field_xpaths label)))
  ++ present pg [First (FilterHas (Locator "input, textarea")
                                   (Locator ("label:has-text('" +:+ label +:+ "')")))].

(** The texts a run inserted, in order. *)
Fixpoint inserted (t : list event) : list pyval :=
  match t with
  | [] => []
  | Did (InsertText s) :: t' => PStr s :: inserted t'
  | _ :: t' => inserted t'
  end.

(** A page with nothing on it: no locator selects an element. *)
Definition empty_page : page :=
  {| count := fun _ => 0;
     tag_name := fun _ => None;
     input_value := fun _ => None;
     url := "https://airtable.com/shrForm";
     completes := fun _ => true;
     resolve := fun p => p;
     file_exists := fun _ => false |}.

(** The texts a run inserted are an initial part of [l], and all of [l]
    when the run returned. *)
Definition inserts_from (m : run unit) (l : list pyval) : Prop :=
  exists rest, l = inserted (snd m) ++ rest /\ (fst m = Ok tt -> rest = []).

(** The keys [fill_select_single] sends after it opened the field. *)
Definition select_keys (choice : string) : list event :=
  List.map Did [Press "Enter"; WaitForTimeout 500; InsertText choice; Press "Enter";
                WaitForTimeout 300].

(** A page on which the first element of each of the selectors exists,
    and nothing else; every interaction completes. *)
Definition page_with_first (selectors : list string) : page :=
  {| count := fun l => match l with
                       | First (Locator s) => if existsb (String.eqb s) selectors then 1 else 0
                       | _ => 0
                       end;
     tag_name := fun _ => Some "input";
     input_value := fun _ => Some "";
     url := "https://airtable.com/shrForm";
     completes := fun _ => true;
     resolve := fun p => p;
     file_exists := fun _ => false |}.

End AirtableControlsVocabulary.

Section PrefillVocabulary.
Import Playwright BrowserFiller.







End PrefillVocabulary.

Section InspectorVocabulary.
Import Dom CsvForm XPathExpr.

(** The header [run_inspector] suggests for a question, none for a type
    it leaves out. *)
Definition suggested_header (q : question) : list string :=
  if String.eqb (q_type q) "text" || String.eqb (q_type q) "paragraph" then [q_label q]
  else if String.eqb (q_type q) "choice" then [q_label q +:+ " (choice)"]
  else if String.eqb (q_type q) "multi" then [q_label q +:+ " (multi)"]
  else [].

Definition radio_exact (opt : string) : query :=
  Query ["div"] [AttrEq "role" "'radio'"; AttrEq "aria-label" (_xpath_literal opt)].

Definition radio_containing (opt : string) : query :=
  Query ["div"] [AttrEq "role" "'radio'"; AttrContains "aria-label" (_xpath_literal opt)].

(** A radio button of the page whose label has the option in it. *)
Definition radio_for (pg : page) (opt : string) (e : path * node) : Prop :=
  In e (elements [] (root pg)) /\
  node_tag (snd e) = "div" /\ node_attr "role" (snd e) = Some "radio" /\
  contains (aria_label e) opt = true.

(** The shape of a question: a stripped label, one of the five types,
    options that are not empty and stripped, and options only for the types
    [choice] and [multi], of which [multi] always has some. *)
Definition well_shaped (q : question) : Prop :=
  strip (q_label q) = q_label q /\
  In (q_type q) ["choice"; "multi"; "paragraph"; "text"; "unknown"] /\
  Forall (fun o => o <> "" /\ strip o = o) (q_options q) /\
  (q_options q <> [] -> q_type q = "choice" \/ q_type q = "multi") /\
  (q_type q = "multi" -> q_options q <> []).

(** The list items of the page, in document order. *)
Definition list_items (pg : page) : list (path * node) :=
  List.filter (selects (Query ["div"] [AttrEq "role" "'listitem'"])) (elements [] (root pg)).

(** A form with a radio question, a paragraph question and a dropdown. *)
Definition three_questions_page : page :=
  Page (Elem "form" []
          [Elem "div" [("role", "listitem")]
             [Elem "div" [("role", "heading")] [Elem "span" [] [Text "Colour"]];
              Elem "div" [("role", "radio"); ("aria-label", "Red")] [];
              Elem "div" [("role", "radio"); ("aria-label", " Blue ")] []];
           Elem "div" [("role", "listitem")]
             [Elem "div" [("role", "heading")] [Text "Comments"];
              Elem "textarea" [] []];
           Elem "div" [("role", "listitem")]
             [Elem "div" [("role", "listbox")] []]])
       ∅.

(** The text the browser renders for the elements of that page. *)
Definition three_questions_text (p : path) : string :=
  match p with
  | [0; 0; 0] => "Colour"
  | [1; 0] => " Comments "
  | _ => ""
  end.

(** A form of [pages] pages: "Next" is there on every page but the last,
    "Submit" on the last; the state is the number of the page shown, and
    the number after the last page once the form is submitted. *)
Definition paged_form (pages : nat) (st : nat) (timeout : Z) (xpath : string) : bool * nat :=
  if String.eqb xpath (button_xpath "Next") && (S st <? pages)%nat then (true, S st)
  else if String.eqb xpath (button_xpath "Submit") && (S st =? pages)%nat then (true, S st)
  else (false, st).

End InspectorVocabulary.

Section FormSummaryVocabulary.
Import GeminiParser.

(** The difference between the numbers of opening and of closing square
    brackets of a text. *)
Fixpoint depth (s : string) : Z :=
  match s with
  | "" => 0
  | String c s' =>
      ((if Ascii.eqb c "[" then 1 else if Ascii.eqb c "]" then -1 else 0) + depth s')%Z
  end.

(** Each string is below the next one in the order of [sorted]: the list
    is sorted and has no string twice. *)
Fixpoint increasing (l : list string) : Prop :=
  match l with
  | a :: (b :: _) as l' => String.compare a b = Lt /\ increasing l'
  | _ => True
  end.

(** The seven types of the configuration. *)
Definition field_types : list string :=
  ["text"; "paragraph"; "choice"; "checkbox"; "dropdown"; "date"; "time"].

(** A model that answers with a JSON object in a code fence. *)
Definition answering_world (answer : string) (data : pyval) : world :=
  {| api := Some "key";
     generate := GenerateReturns (Response (Some answer) []);
     json_loads := fun _ => Some data |}.

(** A stored field as the loop leaves it. *)
Definition sound_field (item : string * field_info) : Prop :=
  fst item <> "" /\
  String.length (fi_label (snd item)) <= 200 /\
  In (fi_type (snd item)) field_types /\
  Forall (fun o => o <> "" /\ strip o = o) (fi_options (snd item)) /\
  (fi_options (snd item) <> [] -> selectable (fi_type (snd item)) = true).

(** A descriptor of the summary: all four keys are there, the entry id is
    not empty, the label has at most 200 characters, the type is one of the
    seven, the options are sorted without repetition, none is empty or has
    white space at its ends, and only the selectable types have options. *)
Definition sound_descriptor (d : descriptor) : Prop :=
  exists eid lbl t opts,
    d = Descriptor (Some eid) (Some lbl) (Some t) (Some opts) /\
    eid <> "" /\
    String.length lbl <= 200 /\
    In t field_types /\
    increasing opts /\
    Forall (fun o => o <> "" /\ strip o = o) opts /\
    (opts <> [] -> selectable t = true).

(** The questions of a form: a text question, a choice question whose
    options repeat, and a paragraph question with the entry id of the
    first. *)
Definition sample_load_data : pyval :=
  PList [PNone;
         PList [PNone;
                PList [PList [PInt 1; PStr "Name"; PNone; PInt 0; PList [PList [PInt 1000]]];
                       PList [PInt 2; PStr "Pick"; PNone; PInt 2;
                              PList [PList [PInt 2000;
                                            PList [PList [PStr " B "]; PList [PStr "A"];
                                                   PList [PStr "B"]; PList [PStr "  "]]]]];
                       PList [PInt 3; PStr "Bio"; PNone; PBool true;
                              PList [PList [PStr "1000"]]];
                       PList [PInt 4; PStr "No entry"; PNone; PInt 0; PList []]]]].

End FormSummaryVocabulary.

Section RunLogVocabulary.
Import Playwright AirtableFiller.

(** The line printed for an item of [data.json] without its three keys. *)
Definition malformed_line : event :=
  Printed "Error: Each field in data.json must have 'label', 'type', and 'value' keys".

End RunLogVocabulary.

(** * Properties *)

(** ** Basic facts *)

Lemma sapp_nil_l (s : string) : "" +:+ s = s.
Proof. reflexivity. Qed.

Lemma sapp_cons (c : ascii) (s t : string) : String c s +:+ t = String c (s +:+ t).
Proof. reflexivity. Qed.

Lemma sapp_nil_r (s : string) : s +:+ "" = s.
Proof. induction s as [|c s IH]; [reflexivity|]. rewrite sapp_cons, IH. reflexivity. Qed.

Lemma sapp_assoc (s t u : string) : (s +:+ t) +:+ u = s +:+ (t +:+ u).
Proof.
  induction s as [|c s IH]; [reflexivity|].
  rewrite !sapp_cons, IH. reflexivity.
Qed.

Ltac snorm := rewrite ?sapp_assoc, ?sapp_cons, ?sapp_nil_l, ?sapp_nil_r.

Lemma slength_app (s t : string) :
  String.length (s +:+ t) = String.length s + String.length t.
Proof.
  induction s as [|c s IH]; [reflexivity|].
  rewrite sapp_cons. simpl. rewrite IH. reflexivity.
Qed.

Lemma has_char_app (c : ascii) (s t : string) :
  has_char c (s +:+ t) = has_char c s || has_char c t.
Proof.
  induction s as [|d s IH]; [reflexivity|].
  rewrite sapp_cons. simpl. rewrite IH. apply orb_assoc.
Qed.

(** ** Strings and the XPath literal *)

Section XPathLiteralProperties.
Import CsvForm XPathExpr.

Lemma substring_app_r (a b : string) :
  String.substring (String.length a) (String.length b) (a +:+ b) = b.
Proof.
  induction a as [|c a IH].
  - rewrite sapp_nil_l. induction b as [|d b IHb]; simpl; [reflexivity|].
    simpl in IHb. rewrite IHb. reflexivity.
  - rewrite sapp_cons. simpl. exact IH.
Qed.

Lemma split_not_nil (c : ascii) (s : string) : split c s <> [].
Proof.
  destruct s as [|d s]; simpl; [discriminate|].
  destruct (Ascii.eqb d c); [discriminate|].
  destruct (split c s); discriminate.
Qed.

Lemma join_cons_char (sep : string) (d : ascii) (h : string) (t : list string) :
  join sep (String d h :: t) = String d (join sep (h :: t)).
Proof. destruct t; reflexivity. Qed.

Lemma join_split (c : ascii) (s : string) : join (chr c) (split c s) = s.
Proof.
  induction s as [|d s IH]; [reflexivity|]. simpl.
  destruct (Ascii.eqb_spec d c) as [->|Hne].
  - destruct (split c s) as [|h t] eqn:E; [now apply split_not_nil in E|].
    change (join (chr c) ("" :: h :: t)) with ("" +:+ chr c +:+ join (chr c) (h :: t)).
    rewrite IH. reflexivity.
  - destruct (split c s) as [|h t] eqn:E; [now apply split_not_nil in E|].
    rewrite join_cons_char, IH. reflexivity.
Qed.

Lemma split_no_sep (c : ascii) (s : string) :
  Forall (fun p => has_char c p = false) (split c s).
Proof.
  induction s as [|d s IH]; simpl.
  - constructor; [reflexivity|constructor].
  - destruct (Ascii.eqb_spec d c) as [->|Hne].
    + constructor; [reflexivity|exact IH].
    + destruct (split c s) as [|h t] eqn:E; [now apply split_not_nil in E|].
      inversion IH; subst.
      constructor; [|assumption]. simpl.
      rewrite Ascii.eqb_sym. apply Ascii.eqb_neq in Hne. rewrite Hne. assumption.
Qed.

Lemma concat_token_values (parts : list string) :
  concat_all (token_values parts) = join (chr squote) parts.
Proof.
  induction parts as [|p rest IH]; [reflexivity|].
  destruct rest as [|p' rest'].
  - destruct p; simpl; [reflexivity|]. snorm. reflexivity.
  - change (join (chr squote) (p :: p' :: rest'))
      with (p +:+ chr squote +:+ join (chr squote) (p' :: rest')).
    rewrite <- IH. destruct p; simpl; snorm; reflexivity.
Qed.

Lemma literal_tokens_fragments (parts : list string) :
  Forall (fun p => has_char squote p = false) parts ->
  Forall2 fragment (literal_tokens parts) (token_values parts).
Proof.
  induction 1 as [|p rest Hp Hrest IH]; [constructor|].
  simpl. apply Forall2_app.
  - destruct p; simpl; constructor; [|constructor].
    apply fragment_part; [assumption|discriminate].
  - destruct rest; [constructor|]. constructor; [apply fragment_quote|exact IH].
Qed.

Lemma until_quote_app (q : ascii) (v r : string) :
  has_char q v = false -> until_quote q (v +:+ String q r) = Some (v, r).
Proof.
  induction v as [|c v IH]; intros H; snorm; simpl.
  - rewrite Ascii.eqb_refl. reflexivity.
  - simpl in H. apply orb_false_iff in H as [H1 H2].
    rewrite Ascii.eqb_sym, H1, (IH H2). reflexivity.
Qed.

Lemma fragment_parse (tok v r : string) :
  fragment tok v ->
  skip_ws (tok +:+ r) = tok +:+ r /\ parse_literal (tok +:+ r) = Some (v, r).
Proof.
  intros [p Hp _|]; snorm; split; try reflexivity.
  - unfold parse_literal. simpl. unfold chr. apply until_quote_app. assumption.
Qed.

Lemma fragment_not_empty (tok v : string) : fragment tok v -> 1 <= String.length tok.
Proof. intros [p _ _|]; snorm; simpl; lia. Qed.

Lemma join_length_ge (sep : string) (toks : list string) :
  Forall (fun t => 1 <= String.length t) toks ->
  length toks <= String.length (join sep toks).
Proof.
  induction 1 as [|t toks Ht Hts IH]; [simpl; lia|].
  destruct toks as [|t' toks'].
  - simpl. lia.
  - change (join sep (t :: t' :: toks')) with (t +:+ sep +:+ join sep (t' :: toks')).
    rewrite !slength_app. simpl in *. lia.
Qed.

Lemma parse_args_space (fuel : nat) (s : string) :
  parse_args fuel (String " " s) = parse_args fuel s.
Proof. destruct fuel; reflexivity. Qed.

Lemma parse_args_tokens (toks vals : list string) :
  Forall2 fragment toks vals -> toks <> [] ->
  forall (fuel : nat) (r : string),
    length toks <= fuel ->
    parse_args fuel (join ", " toks +:+ ")" +:+ r) = Some (vals, r).
Proof.
  induction 1 as [|tok v toks vals Hf Hrest IH]; [congruence|].
  intros _ fuel r Hfuel. destruct fuel as [|fuel]; [simpl in Hfuel; lia|].
  destruct toks as [|tok' toks'].
  - inversion Hrest; subst. simpl join.
    destruct (fragment_parse tok v (")" +:+ r) Hf) as [Hs Hp].
    cbn [parse_args]. rewrite Hs, Hp. reflexivity.
  - change (join ", " (tok :: tok' :: toks'))
      with (tok +:+ ", " +:+ join ", " (tok' :: toks')).
    rewrite !sapp_assoc.
    destruct (fragment_parse tok v (", " +:+ join ", " (tok' :: toks') +:+ ")" +:+ r) Hf)
      as [Hs Hp].
    cbn [parse_args]. rewrite Hs, Hp.
    change (skip_ws (", " +:+ join ", " (tok' :: toks') +:+ ")" +:+ r))
      with (String "," (String " " (join ", " (tok' :: toks') +:+ ")" +:+ r))).
    cbv iota. change (Ascii.eqb "," ",") with true. cbv iota.
    rewrite parse_args_space, IH; [reflexivity|discriminate|simpl in *; lia].
Qed.

Lemma fragment_value_lacks_quote (tok v : string) :
  fragment tok v -> has_char squote v = false \/ has_char dquote v = false.
Proof. intros [p Hp _|]; [left; assumption|right; reflexivity]. Qed.

Lemma xpath_literal_concat_value (s : string) :
  has_char squote s = true -> has_char dquote s = true ->
  exists toks vals,
    _xpath_literal s = "concat(" +:+ join ", " toks +:+ ")" /\
    Forall2 fragment toks vals /\
    2 <= length toks /\
    concat_all vals = s /\
    string_value (_xpath_literal s) = Some s.
Proof.
  intros Hs Hd.
  set (toks := literal_tokens (split squote s)).
  set (vals := token_values (split squote s)).
  assert (HF : Forall2 fragment toks vals)
    by (apply literal_tokens_fragments, split_no_sep).
  assert (Hc : concat_all vals = s)
    by (unfold vals; rewrite concat_token_values; apply join_split).
  assert (He : _xpath_literal s = "concat(" +:+ join ", " toks +:+ ")")
    by (unfold _xpath_literal; rewrite Hs, Hd; reflexivity).
  clearbody toks vals.
  assert (Hlen : 2 <= length vals).
  { destruct vals as [|v1 [|v2 vs]]; simpl; try lia.
    - simpl in Hc. rewrite <- Hc in Hs. discriminate.
    - simpl in Hc. rewrite sapp_nil_r in Hc. rewrite <- Hc in Hs, Hd.
      inversion HF as [|tok ? ? ? Hf _].
      apply fragment_value_lacks_quote in Hf as [Hq|Hq]; congruence. }
  assert (Hlen' : 2 <= length toks) by (rewrite (Forall2_length _ _ _ HF); exact Hlen).
  exists toks, vals. rewrite He.
  repeat split; try assumption.
  unfold string_value.
  change (skip_ws ("concat(" +:+ join ", " toks +:+ ")"))
    with ("concat(" +:+ join ", " toks +:+ ")").
  change (startswith ("concat(" +:+ join ", " toks +:+ ")") "concat(") with true.
  cbv iota.
  replace (String.length ("concat(" +:+ join ", " toks +:+ ")") - 7)
    with (String.length (join ", " toks +:+ ")"))
    by (rewrite !slength_app; simpl; lia).
  change 7 with (String.length "concat(") at 1.
  rewrite substring_app_r.
  assert (Hne : toks <> []) by (destruct toks; simpl in Hlen'; [lia|discriminate]).
  assert (Hfuel : length toks <= String.length ("concat(" +:+ join ", " toks +:+ ")")).
  { rewrite !slength_app.
    assert (Forall (fun t => 1 <= String.length t) toks) as Hj.
    { clear -HF. induction HF; constructor; eauto using fragment_not_empty. }
    apply (join_length_ge ", ") in Hj. lia. }
  pose proof (parse_args_tokens toks vals HF Hne _ "" Hfuel) as P.
  change (join ", " toks +:+ ")" +:+ "") with (join ", " toks +:+ ")") in P.
  rewrite P.
  destruct vals as [|v1 [|v2 vs]]; simpl in Hlen; try lia.
  simpl skip_ws. simpl is_empty. cbv iota. rewrite Hc. reflexivity.
Qed.

Lemma string_value_quoted (q : ascii) (s : string) :
  q = squote \/ q = dquote -> has_char q s = false ->
  string_value (chr q +:+ s +:+ chr q) = Some s.
Proof.
  intros Hq Hs. unfold string_value, chr. snorm.
  assert (Hsk : skip_ws (String q (s +:+ String q "")) = String q (s +:+ String q ""))
    by (destruct Hq; subst q; reflexivity).
  rewrite Hsk.
  assert (Hst : startswith (String q (s +:+ String q "")) "concat(" = false)
    by (destruct Hq; subst q; reflexivity).
  rewrite Hst. unfold parse_literal.
  assert (Hor : Ascii.eqb q squote || Ascii.eqb q dquote = true)
    by (destruct Hq; subst q; reflexivity).
  rewrite Hor, until_quote_app by assumption. reflexivity.
Qed.

(** The value of [_xpath_literal s], read as an XPath expression, is [s]. *)
Lemma string_value_xpath_literal (s : string) :
  string_value (_xpath_literal s) = Some s.
Proof.
  destruct (has_char squote s) eqn:Hs.
  - destruct (has_char dquote s) eqn:Hd.
    + destruct (xpath_literal_concat_value s Hs Hd) as (_ & _ & _ & _ & _ & _ & Hv).
      exact Hv.
    + unfold _xpath_literal. rewrite Hs, Hd. simpl.
      apply string_value_quoted; auto.
  - unfold _xpath_literal. rewrite Hs. simpl. apply string_value_quoted; auto.
Qed.

(** C9. [_xpath_literal s] is an XPath string expression whose value is [s]:
    a single-quoted literal when [s] has no single quote, a double-quoted
    literal when it has a single but no double quote, and otherwise a call
    of [concat] on at least two tokens, each a single-quoted fragment or the
    double-quoted single quote, whose values concatenate to [s]. *)
Theorem xpath_literal_roundtrip (s : string) :
  string_value (_xpath_literal s) = Some s /\
  match has_char squote s, has_char dquote s with
  | false, _ => _xpath_literal s = chr squote +:+ s +:+ chr squote
  | true, false => _xpath_literal s = chr dquote +:+ s +:+ chr dquote
  | true, true =>
      exists toks vals,
        _xpath_literal s = "concat(" +:+ join ", " toks +:+ ")" /\
        Forall2 fragment toks vals /\
        2 <= length toks /\
        concat_all vals = s
  end.
Proof.
  split; [apply string_value_xpath_literal|].
  destruct (has_char squote s) eqn:Hs.
  - destruct (has_char dquote s) eqn:Hd.
    + destruct (xpath_literal_concat_value s Hs Hd)
        as (toks & vals & He & HF & Hl & Hc & Hv).
      exists toks, vals. auto.
    + unfold _xpath_literal. rewrite Hs, Hd. reflexivity.
  - unfold _xpath_literal. rewrite Hs. reflexivity.
Qed.

End XPathLiteralProperties.

(** ** Basic facts *)

Lemma lower_length (s : string) : String.length (lower s) = String.length s.
Proof. induction s as [|c s IH]; simpl; congruence. Qed.

Lemma lower_app (s t : string) : lower (s +:+ t) = lower s +:+ lower t.
Proof.
  induction s as [|c s IH]; [reflexivity|].
  rewrite sapp_cons. simpl. rewrite IH. reflexivity.
Qed.

Lemma endswith_refl (s : string) : endswith s s = true.
Proof. destruct s; [reflexivity|]. cbn [endswith]. rewrite String.eqb_refl. reflexivity. Qed.

Lemma endswith_iff (s suf : string) :
  endswith s suf = true <-> exists p, s = p +:+ suf.
Proof.
  split.
  - induction s as [|c s IH]; cbn [endswith]; intros H.
    + rewrite orb_false_r in H. apply String.eqb_eq in H. exists "". subst. reflexivity.
    + apply orb_true_iff in H as [H|H].
      * apply String.eqb_eq in H. exists "". rewrite <- H. reflexivity.
      * destruct (IH H) as [p ->]. exists (String c p). reflexivity.
  - intros [p ->]. induction p as [|c p IH].
    + apply endswith_refl.
    + rewrite sapp_cons. cbn [endswith]. rewrite IH. apply orb_true_r.
Qed.

Lemma endswith_lower_iff (k suf : string) :
  endswith (lower k) suf = true <-> exists pre, ends_with_ci k suf pre.
Proof.
  split.
  - induction k as [|c k IH]; intros H.
    + cbn [lower endswith] in H. rewrite orb_false_r in H. apply String.eqb_eq in H.
      exists "", "". split; [reflexivity|exact H].
    + change (lower (String c k)) with (String (lower_char c) (lower k)) in H.
      cbn [endswith] in H. apply orb_true_iff in H as [H|H].
      * apply String.eqb_eq in H. exists "", (String c k). split; [reflexivity|exact H].
      * destruct (IH H) as (pre & tail & -> & Ht).
        exists (String c pre), tail. split; [reflexivity|exact Ht].
  - intros (pre & tail & -> & Ht). rewrite lower_app, Ht.
    apply endswith_iff. eauto.
Qed.

Lemma sapp_inv_same_length (p1 p2 a b : string) :
  String.length a = String.length b -> p1 +:+ a = p2 +:+ b -> p1 = p2 /\ a = b.
Proof.
  revert p2. induction p1 as [|c p1 IH]; intros [|d p2] Hl H; snorm; rewrite ?sapp_nil_l in H.
  - auto.
  - subst a. rewrite sapp_cons in Hl. simpl in Hl. rewrite slength_app in Hl. lia.
  - subst b. rewrite sapp_cons in Hl. simpl in Hl. rewrite slength_app in Hl. lia.
  - rewrite !sapp_cons in H. injection H as -> H.
    destruct (IH p2 Hl H) as [-> ->]. auto.
Qed.

Lemma substring_0_app (p t : string) :
  String.substring 0 (String.length p) (p +:+ t) = p.
Proof.
  induction p as [|c p IH].
  - destruct t; reflexivity.
  - rewrite sapp_cons. simpl. rewrite IH. reflexivity.
Qed.

Lemma drop_last_app (p t : string) :
  drop_last (String.length t) (p +:+ t) = p.
Proof.
  unfold drop_last. rewrite slength_app.
  replace (String.length p + String.length t - String.length t) with (String.length p) by lia.
  apply substring_0_app.
Qed.



(** No header ends with both suffixes. *)
Lemma choice_multi_exclusive (k pre pre' : string) :
  ends_with_ci k "(choice)" pre -> ends_with_ci k "(multi)" pre' -> False.
Proof.
  intros (t & Hk & Ht) (t' & Hk' & Ht').
  destruct t as [|c t]; [discriminate|].
  change (lower (String c t)) with (String (lower_char c) (lower t)) in Ht.
  injection Ht as _ Ht.
  assert (Hl : String.length t = String.length t').
  { rewrite <- (lower_length t), <- (lower_length t'), Ht, Ht'. reflexivity. }
  rewrite Hk in Hk'.
  change (pre +:+ String c t) with (pre +:+ (chr c +:+ t)) in Hk'.
  rewrite <- sapp_assoc in Hk'.
  destruct (sapp_inv_same_length _ _ _ _ Hl Hk') as [_ ->].
  rewrite Ht in Ht'. discriminate.
Qed.


Lemma is_empty_false (s : string) : is_empty s = false <-> s <> "".
Proof. destruct s; simpl; split; congruence. Qed.


(** ** The rows of the CSV file *)

Section CsvRowProperties.
Import CsvForm.










Example parse_row_types_multi :
  (parse_row_types [("Langs (Multi) ", Some "a; b;;c ;"); ("Job(CHOICE)", Some " x ");
                    ("Empty", Some "  "); ("Gone", None)]).2
  !! "Langs" = Some ["a"; "b"; "c"].
Proof. reflexivity. Qed.

End CsvRowProperties.

(** ** The date and time fields of the prefill *)

Section DateTimeProperties.
Import Playwright BrowserFiller.











(** Without an entry id a date or a time field is not touched. *)
Lemma fill_field_no_entry_id (pg : page) (t : string) (eid lbl : option string) (val : pyval) :
  t = "date" \/ t = "time" -> nonempty eid = false ->
  fill_field pg (Field (Some t) eid lbl val) = (Ok tt, []).
Proof.
  intros Ht He. unfold fill_field. cbn [f_type f_entry_id f_value]. rewrite He.
  destruct Ht as [->| ->]; reflexivity.
Qed.








End DateTimeProperties.

(** ** The Airtable filler *)

Section AirtableProperties.
Import Playwright AirtableFiller.







Lemma kind_is_false (kind : pyval) (name : string) :
  kind <> PStr name -> kind_is kind name = false.
Proof.
  destruct kind; try reflexivity. intros H. simpl.
  apply String.eqb_neq. congruence.
Qed.

Lemma fill_value_unsupported (pg : page) (kind : pyval) (label : string) (value : pyval)
    (timeout : Z) :
  unsupported kind ->
  fill_value pg kind label value timeout
  = (Raise (Exception (unsupported_message label kind)), []).
Proof.
  intros H. unfold fill_value. cbn [existsb text_kinds].
  rewrite !kind_is_false by (apply H; simpl; tauto).
  reflexivity.
Qed.

Lemma fill_all_app (pg : page) (timeout : Z) (before after : list field_data) :
  fill_all pg (before ++ after) timeout
  = (fill_all pg before timeout ;;; fill_all pg after timeout).
Proof.
  induction before as [|fd before IH]; simpl.
  - destruct (fill_all pg after timeout) as [r t]. reflexivity.
  - rewrite IH. unfold print. cbn [bind].
    destruct (fill_value pg (fd_type fd) (fd_label fd) (fd_value fd) timeout) as [[[]|e] t1];
      [|reflexivity].
    destruct (fill_all pg before timeout) as [[[]|e] t2]; [|reflexivity].
    destruct (fill_all pg after timeout) as [r t3].
    simpl. rewrite <- ?app_assoc. reflexivity.
Qed.

(** C8, as the code has it.  For a field whose type value is none of the
    supported ones, [fill_value] raises an exception whose message names
    the type, and issues no interaction.  The driver does not handle the
    exception field by field: when the fields before were filled, the loop
    stops at this field, the fields after it are not touched, nothing is
    submitted and the run ends with status [error] and that message. *)
Theorem fill_value_unsupported_type (pg : page) (cfg : config) (kind : pyval) (label : string)
    (value : pyval) (timeout : Z) (before after : list field_data) (t : list event) :
  unsupported kind ->
  fill_all pg before timeout = (Ok tt, t) ->
  let fd := FieldData label kind value in
  fill_value pg kind label value timeout
  = (Raise (Exception (unsupported_message label kind)), []) /\
  fill_all pg (before ++ fd :: after) timeout
  = (Raise (Exception (unsupported_message label kind)), t ++ [filling_line fd]) /\
  fill_and_submit pg cfg (before ++ fd :: after) timeout
  = (("error", unsupported_message label kind),
     t ++ [filling_line fd; Printed ("Error: " +:+ unsupported_message label kind)]).
Proof.
  intros Hk Hb fd.
  pose proof (fill_value_unsupported pg kind label value timeout Hk) as Hv.
  assert (Ha : fill_all pg (before ++ fd :: after) timeout
               = (Raise (Exception (unsupported_message label kind)), t ++ [filling_line fd])).
  { rewrite fill_all_app, Hb. cbn [fill_all bind]. subst fd. cbn [fd_type fd_label fd_value].
    rewrite Hv. unfold print. simpl. reflexivity. }
  repeat split; [exact Hv|exact Ha|].
  unfold fill_and_submit. rewrite Ha. cbn [bind]. rewrite <- app_assoc. reflexivity.
Qed.

Lemma fill_value_unsupported_type_witness :
  fill_and_submit page_with_everything (Config None None None)
    ([FieldData "Name" (PStr "text") (PStr "Ada")]
     ++ FieldData "Colour" (PStr "color") (PStr "red")
     :: [FieldData "Email" (PStr "email") (PStr "ada@example.org")]) 10000
  = (("error", unsupported_message "Colour" (PStr "color")),
     [filling_line (FieldData "Name" (PStr "text") (PStr "Ada"));
      Did (Fill (First (Locator "//label[normalize-space()='Name']/following::input[1]")) "Ada")]
     ++ [filling_line (FieldData "Colour" (PStr "color") (PStr "red"));
         Printed ("Error: " +:+ unsupported_message "Colour" (PStr "color"))]).
Proof.
  apply (fill_value_unsupported_type page_with_everything (Config None None None)
           (PStr "color") "Colour" (PStr "red") 10000
           [FieldData "Name" (PStr "text") (PStr "Ada")]
           [FieldData "Email" (PStr "email") (PStr "ada@example.org")]).
  - intros name Hin. simpl in Hin.
    repeat (destruct Hin as [<-|Hin]; [discriminate|]). destruct Hin.
  - reflexivity.
Defined.

(** The error is not confined to the field: after a field of unsupported
    type the driver fills no other field, though [fill_value] on the next
    field alone would fill it, and the run fails. *)
Lemma unsupported_type_stops_the_run :
  let pg := page_with_everything in
  let colour := FieldData "Colour" (PStr "color") (PStr "red") in
  let name := FieldData "Name" (PStr "text") (PStr "Ada") in
  fill_value pg (fd_type name) (fd_label name) (fd_value name) 10000
  = (Ok tt,
     [Did (Fill (First (Locator "//label[normalize-space()='Name']/following::input[1]")) "Ada")]) /\
  actions (snd (fill_and_submit pg (Config None None None) [colour; name] 10000)) = [] /\
  fst (fst (fill_and_submit pg (Config None None None) [colour; name] 10000)) = "error".
Proof. repeat split; reflexivity. Qed.

End AirtableProperties.

(** ** The fallback mapping *)

Section FallbackProperties.
Import GeminiParser.

Lemma matching_option_member (options : list string) (hint o : string) :
  matching_option options hint = Some o -> In o options /\ same_option o hint = true.
Proof.
  induction options as [|x xs IH]; simpl; [discriminate|].
  destruct (same_option x hint) eqn:E.
  - intros H. injection H as <-. auto.
  - intros H. destruct (IH H). auto.
Qed.

(** For the types [dropdown] and [choice] the guess is an option of the
    list: the first one that equals the hint of the profile up to case and
    surrounding space, else the first option; it is the empty string only
    when there is no option. *)
Lemma guess_value_choice_member (label ftype : string) (options : list string)
    (basic : gmap string pyval) :
  ftype = "dropdown" \/ ftype = "choice" ->
  exists o, _guess_value label ftype options basic = Ok (PStr o) /\
            (In o options \/ (options = [] /\ o = "")).
Proof.
  intros Ht. unfold _guess_value.
  assert (String.eqb ftype "text" || String.eqb ftype "paragraph" = false) as ->
    by (destruct Ht as [->| ->]; reflexivity).
  assert (String.eqb ftype "date" = false) as -> by (destruct Ht as [->| ->]; reflexivity).
  assert (String.eqb ftype "time" = false) as -> by (destruct Ht as [->| ->]; reflexivity).
  assert (String.eqb ftype "dropdown" || String.eqb ftype "choice" = true) as ->
    by (destruct Ht as [->| ->]; reflexivity).
  set (v := pick basic _ _). clearbody v.
  destruct options as [|o os].
  - exists "". destruct v; simpl; auto.
  - destruct v as [| | |hint| |];
      try (exists o; split; [reflexivity|left; left; reflexivity]).
    destruct (matching_option (o :: os) hint) as [m|] eqn:E.
    + exists m. split; [reflexivity|]. left. apply (matching_option_member _ _ _ E).
    + exists o. split; [reflexivity|left; left; reflexivity].
Qed.

Lemma guess_value_checkbox_eq (label : string) (options : list string)
    (basic : gmap string pyval) :
  _guess_value label "checkbox" options basic
  = let v := py_or (get basic "selections")
               (py_or (get basic "options") (py_or (get basic "answers") (PList []))) in
    let v := match v with PStr _ => PList [v] | _ => v end in
    Py.bind (iterate (py_or v (PList []))) (fun items =>
      Ok (PList (List.map PStr
            (flat_map (fun o => List.filter (fun cand => same_option cand (py_str o)) options)
                      items)))).
Proof. reflexivity. Qed.

(** For the type [checkbox] a value that is returned is a list of options
    of the list. *)
Lemma guess_value_checkbox_members (label : string) (options : list string)
    (basic : gmap string pyval) (v : pyval) :
  _guess_value label "checkbox" options basic = Ok v ->
  exists picked, v = PList (List.map PStr picked) /\ forall o, In o picked -> In o options.
Proof.
  rewrite guess_value_checkbox_eq. cbv zeta.
  destruct (iterate _) as [items|e]; simpl; [|discriminate].
  intros H. injection H as <-. eexists. split; [reflexivity|].
  intros o Hin. apply in_flat_map in Hin as (x & _ & Hin).
  apply filter_In in Hin. tauto.
Qed.

(** C10 fails on the code, in one respect.  For the types [dropdown] and
    [choice] the guess is always an option of the list (the empty string
    when there is none), and for the type [checkbox] a value that is
    returned is a list of options of the list: no option is invented.  But
    a value is not always returned: with a profile whose [selections] entry
    is a number, the guess for a checkbox field is a [TypeError], raised by
    the loop over the entry. *)
Theorem guess_value_checkbox_raises :
  (forall label ftype options basic,
      ftype = "dropdown" \/ ftype = "choice" ->
      exists o, _guess_value label ftype options basic = Ok (PStr o) /\
                (In o options \/ (options = [] /\ o = ""))) /\
  (forall label options basic v,
      _guess_value label "checkbox" options basic = Ok v ->
      exists picked, v = PList (List.map PStr picked) /\
                     forall o, In o picked -> In o options) /\
  _guess_value "Pick" "checkbox" ["A"; "B"] {["selections" := PInt 1]}
  = Raise (TypeError "'int' object is not iterable").
Proof.
  split; [|split].
  - intros label ftype options basic Ht. apply guess_value_choice_member. exact Ht.
  - intros label options basic v Hv. eapply guess_value_checkbox_members. exact Hv.
  - reflexivity.
Qed.

(** Whenever the model call fails, [call_gemini] is [_fallback_config]. *)
Lemma call_gemini_falls_back (w : world) (url : string) (summary : list descriptor)
    (basic : gmap string pyval) :
  mapping_failed w ->
  call_gemini w url summary basic = _fallback_config url summary basic.
Proof.
  unfold call_gemini. intros [H|[H|[[e H]|(resp & H & Hx)]]]; try (rewrite H; reflexivity).
  - destruct (api w) as [[|c k]|]; try reflexivity. rewrite H. reflexivity.
  - destruct (api w) as [[|c k]|]; try reflexivity. rewrite H.
    destruct (_extract_json_text (response_text resp)) as [jtxt|e]; simpl; [|reflexivity].
    destruct (json_loads w jtxt) as [data|]; [|reflexivity].
    rewrite Hx. destruct (_fallback_config url summary basic); reflexivity.
Qed.

(** When no guess raises, the fallback has one entry for each descriptor,
    in order, and the value of a checkbox entry is a list. *)
Lemma fallback_fields_complete (basic : gmap string pyval) (summary : list descriptor)
    (fields : list pyval) :
  fallback_fields basic summary = Ok fields ->
  Forall2 (fun f d => exists val, d = entry_for f val /\
                        (type_ f = Some "checkbox" -> is_list val = true))
          summary fields.
Proof.
  revert fields. induction summary as [|f rest IH]; intros fields; simpl.
  - intros H. injection H as <-. constructor.
  - unfold fallback_field.
    destruct (_guess_value _ _ _ basic) as [val|e]; simpl; [|discriminate].
    destruct (fallback_fields basic rest) as [ds|e]; simpl; [|discriminate].
    intros H. injection H as <-. constructor; [|apply IH; reflexivity].
    eexists. split.
    + unfold entry_for. destruct (options f) as [[|o os]|]; reflexivity.
    + intros Ht. rewrite Ht. simpl.
      destruct (is_list val) eqn:E; simpl; [exact E|]. destruct (truthy val); reflexivity.
Qed.

Lemma pick_str (basic : gmap string pyval) (keys : list string) :
  (forall k v, In k keys -> basic !! k = Some v -> v = PNone \/ exists s, v = PStr s) ->
  exists s, pick basic keys (PStr "") = PStr s.
Proof.
  induction keys as [|k ks IH]; intros H; simpl; [eauto|].
  assert (exists s, pick basic ks (PStr "") = PStr s) as IH'
    by (apply IH; intros k' v' Hk'; apply H; right; exact Hk').
  destruct (basic !! k) as [v|] eqn:E; [|exact IH'].
  destruct (H k v (or_introl eq_refl) E) as [->|[s ->]]; [exact IH'|].
  simpl. destruct (is_empty s); [exact IH'|eauto].
Qed.

Lemma guess_text_total (l : string) (basic : gmap string pyval) :
  plain_profile basic -> exists v, guess_text l basic = Ok v.
Proof.
  intros [Hname _]. unfold guess_text.
  repeat match goal with
         | |- exists v, (if ?c then _ else _) = Ok v => destruct c
         end; try (eexists; reflexivity).
  destruct (pick_str basic ["first_name"; "firstname"]) as [fn ->];
    [intros k v Hk; apply Hname; simpl in *; tauto|].
  destruct (pick_str basic ["last_name"; "lastname"]) as [ln ->];
    [intros k v Hk; apply Hname; simpl in *; tauto|].
  simpl. eauto.
Qed.

Lemma py_or_iterable (a b : pyval) :
  iterable_or_false a -> iterable_or_false b -> iterable_or_false (py_or a b).
Proof.
  intros Ha Hb. unfold py_or. destruct (truthy a) eqn:E; [exact Ha|exact Hb].
Qed.

Lemma iterate_iterable (v : pyval) :
  iterable_or_false v ->
  exists items,
    iterate (py_or (match v with PStr _ => PList [v] | _ => v end) (PList [])) = Ok items.
Proof.
  intros [H|[[s ->]|[[l ->]|[d ->]]]].
  - destruct v as [|b|z|s|l|d]; unfold py_or; simpl in *; try rewrite H; simpl; eauto.
  - simpl. eauto.
  - unfold py_or. destruct (truthy (PList l)); simpl; eauto.
  - unfold py_or. destruct (truthy (PDict d)); simpl; eauto.
Qed.

Lemma selections_iterable (basic : gmap string pyval) :
  plain_profile basic ->
  let v := py_or (get basic "selections")
             (py_or (get basic "options") (py_or (get basic "answers") (PList []))) in
  exists items,
    iterate (py_or (match v with PStr _ => PList [v] | _ => v end) (PList [])) = Ok items.
Proof.
  intros [_ Hsel].
  assert (forall k, In k ["selections"; "options"; "answers"] ->
                    iterable_or_false (get basic k)) as H.
  { intros k Hk. unfold get. destruct (basic !! k) as [v|] eqn:E; [|left; reflexivity].
    apply (Hsel k v Hk E). }
  apply iterate_iterable.
  repeat apply py_or_iterable; try (apply H; simpl; tauto).
  left. reflexivity.
Qed.

(** On a plain profile every guess is a value. *)
Lemma guess_value_total (label ftype : string) (options : list string)
    (basic : gmap string pyval) :
  plain_profile basic -> exists v, _guess_value label ftype options basic = Ok v.
Proof.
  intros Hp. unfold _guess_value.
  destruct (_ || _); [apply guess_text_total; exact Hp|].
  destruct (String.eqb ftype "date"); [eauto|].
  destruct (String.eqb ftype "time"); [eauto|].
  destruct (_ || _).
  { destruct (match pick basic _ _ with PStr _ => _ | _ => _ end); eauto. }
  destruct (String.eqb ftype "checkbox"); [|eauto].
  destruct (selections_iterable basic Hp) as [items Hi]. cbv zeta in Hi.
  rewrite Hi. simpl. eauto.
Qed.

(** On a plain profile the fallback is complete: a configuration with one
    entry for each descriptor, in order, a checkbox entry holding a list;
    and so is [call_gemini] whenever the model call fails. *)
Lemma fallback_config_complete (w : world) (url : string) (summary : list descriptor)
    (basic : gmap string pyval) :
  plain_profile basic ->
  exists fields,
    _fallback_config url summary basic
    = Ok (PDict [("form_url", PStr url); ("fields", PList fields)]) /\
    Forall2 (fun f d => exists val, d = entry_for f val /\
                          (type_ f = Some "checkbox" -> is_list val = true))
            summary fields /\
    (mapping_failed w ->
     call_gemini w url summary basic
     = Ok (PDict [("form_url", PStr url); ("fields", PList fields)])).
Proof.
  intros Hp.
  assert (exists fields, fallback_fields basic summary = Ok fields) as [fields Hf].
  { induction summary as [|f rest [ds IH]]; simpl; [eauto|].
    unfold fallback_field.
    destruct (guess_value_total
                (match question_label f with Some s => s | None => "" end)
                (match type_ f with Some s => s | None => "text" end)
                (match options f with Some l => l | None => [] end) basic Hp) as [v ->].
    simpl. rewrite IH. simpl. eauto. }
  exists fields.
  assert (_fallback_config url summary basic
          = Ok (PDict [("form_url", PStr url); ("fields", PList fields)])) as E
    by (unfold _fallback_config; rewrite Hf; reflexivity).
  split; [exact E|]. split; [exact (fallback_fields_complete basic summary fields Hf)|].
  intros Hfail. rewrite call_gemini_falls_back by exact Hfail. exact E.
Qed.

(** C2 fails on the code, in one respect.  Whenever the model call fails,
    [call_gemini] is [_fallback_config]; and on a plain profile the
    fallback returns a configuration with one entry for each descriptor, in
    order, the value of a checkbox entry being a list.  But the fallback
    can raise: without an API key [call_gemini] goes to the fallback, and
    for a checkbox field and a profile whose [selections] entry is a number
    the fallback raises a [TypeError], so that no configuration is
    returned. *)
Theorem call_gemini_fallback_raises :
  (forall w url summary basic,
      mapping_failed w ->
      call_gemini w url summary basic = _fallback_config url summary basic) /\
  (forall w url summary basic,
      plain_profile basic ->
      exists fields,
        _fallback_config url summary basic
        = Ok (PDict [("form_url", PStr url); ("fields", PList fields)]) /\
        Forall2 (fun f d => exists val, d = entry_for f val /\
                              (type_ f = Some "checkbox" -> is_list val = true))
                summary fields /\
        (mapping_failed w ->
         call_gemini w url summary basic
         = Ok (PDict [("form_url", PStr url); ("fields", PList fields)]))) /\
  let summary := [Descriptor (Some "1000") (Some "Your name") (Some "text") (Some []);
                  Descriptor (Some "2000") (Some "Pick") (Some "checkbox") (Some ["A"; "B"])] in
  let basic : gmap string pyval := {["name" := PStr "Ada"; "selections" := PInt 1]} in
  let w := World None (GenerateRaises (Exception "unreachable")) (fun _ => None) in
  mapping_failed w /\
  _fallback_config "https://docs.google.com/forms/d/e/x/viewform" summary basic
  = Raise (TypeError "'int' object is not iterable") /\
  call_gemini w "https://docs.google.com/forms/d/e/x/viewform" summary basic
  = Raise (TypeError "'int' object is not iterable").
Proof.
  split; [|split].
  - intros w url summary basic Hf. apply call_gemini_falls_back. exact Hf.
  - intros w url summary basic Hp. apply fallback_config_complete. exact Hp.
  - split; [left; reflexivity|split; reflexivity].
Qed.

End FallbackProperties.

(** ** The Selenium filler *)

Section SeleniumProperties.
Import Dom CsvForm XPathExpr.

(** Induction on a tree with the hypothesis for every child. *)
Lemma node_induction (P : node -> Prop) :
  (forall s, P (Text s)) ->
  (forall tag attrs kids, Forall P kids -> P (Elem tag attrs kids)) ->
  forall n, P n.
Proof.
  intros HText HElem.
  fix IH 1. intros [tag attrs kids|s]; [|apply HText].
  apply HElem. induction kids as [|k kids IHk]; constructor; [apply IH|exact IHk].
Qed.

Lemma elements_Elem (p : path) (tag : string) (attrs : list (string * string))
    (kids : list node) :
  elements p (Elem tag attrs kids) = (p, Elem tag attrs kids) :: below p 0 kids.
Proof.
  simpl. f_equal. generalize 0. induction kids as [|k kids IH]; intros i; simpl; [reflexivity|].
  rewrite IH. reflexivity.
Qed.

Lemma in_below (p : path) (i : nat) (ks : list node) (x : path * node) :
  In x (below p i ks) <->
  exists j k, nth_error ks j = Some k /\ In x (elements (p ++ [i + j]) k).
Proof.
  revert i. induction ks as [|k ks IH]; intros i; simpl.
  - split; [intros []|]. intros (j & k & H & _). destruct j; discriminate.
  - rewrite in_app_iff, IH. split.
    + intros [H|(j & k' & Hj & H)].
      * exists 0, k. rewrite Nat.add_0_r. auto.
      * exists (S j), k'. rewrite Nat.add_succ_r. auto.
    + intros (j & k' & Hj & H). destruct j as [|j]; simpl in Hj.
      * injection Hj as <-. rewrite Nat.add_0_r in H. auto.
      * right. exists j, k'. rewrite Nat.add_succ_r in H. auto.
Qed.

(** An element listed below [n] sits at its path. *)
Lemma elements_node_at (n : node) :
  forall p q m, In (q, m) (elements p n) -> exists s, q = p ++ s /\ node_at n s = Some m.
Proof.
  induction n as [s|tag attrs kids IH] using node_induction; intros p q m Hin.
  - destruct Hin.
  - rewrite elements_Elem in Hin. destruct Hin as [H|H].
    + injection H as <- <-. exists []. rewrite app_nil_r. auto.
    + apply in_below in H as (j & k & Hj & H). simpl in H.
      rewrite List.Forall_forall in IH.
      destruct (IH k (nth_error_In _ _ Hj) _ _ _ H) as (s & -> & Hs).
      exists (j :: s). rewrite <- app_assoc. split; [reflexivity|].
      simpl. rewrite Hj. exact Hs.
Qed.

(** No two elements of a document have the same path. *)
Lemma elements_path_unique (n : node) (p q : path) (m1 m2 : node) :
  In (q, m1) (elements p n) -> In (q, m2) (elements p n) -> m1 = m2.
Proof.
  intros H1 H2.
  apply elements_node_at in H1 as (s1 & E1 & N1), H2 as (s2 & E2 & N2).
  rewrite E1 in E2. apply app_inv_head in E2. subst s2. congruence.
Qed.

(** The elements below an element of the document are in the document. *)
Lemma elements_sub (n : node) :
  forall p q m x, In (q, m) (elements p n) -> In x (elements q m) -> In x (elements p n).
Proof.
  induction n as [s|tag attrs kids IH] using node_induction; intros p q m x Hin Hx.
  - destruct Hin.
  - rewrite elements_Elem in Hin. destruct Hin as [H|H].
    + injection H as <- <-. exact Hx.
    + rewrite elements_Elem. right.
      apply in_below in H as (j & k & Hj & H). apply in_below. exists j, k.
      split; [exact Hj|]. rewrite List.Forall_forall in IH.
      eapply (IH k (nth_error_In _ _ Hj)); eauto.
Qed.

Lemma descendants_sub (p : path) (n : node) (x : path * node) :
  In x (descendants p n) -> In x (elements p n).
Proof.
  unfold descendants. destruct (elements p n); simpl; [auto|]. auto.
Qed.

(** ** Finding elements *)

Lemma lit_value_xpath_literal (s : string) : lit_value (_xpath_literal s) = s.
Proof. unfold lit_value. rewrite string_value_xpath_literal. reflexivity. Qed.

Lemma head_filter_some {A} (f : A -> bool) (l : list A) (x : A) :
  head (List.filter f l) = Some x -> In x l /\ f x = true.
Proof.
  intros H. assert (In x (List.filter f l)) as Hin.
  { destruct (List.filter f l); [discriminate|]. injection H as ->. left. reflexivity. }
  apply filter_In in Hin. exact Hin.
Qed.

Lemma head_filter_exists {A} (f : A -> bool) (l : list A) (x : A) :
  In x l -> f x = true -> exists y, head (List.filter f l) = Some y.
Proof.
  intros Hin Hf. assert (In x (List.filter f l)) as H by (apply filter_In; auto).
  destruct (List.filter f l) as [|y ys]; [destruct H|]. exists y. reflexivity.
Qed.

Lemma find_element_spec (pg : page) (q : query) :
  well_formed q = true ->
  find_element pg q = Ok (head (List.filter (selects q) (elements [] (root pg)))).
Proof. intros H. unfold find_element, find_elements. rewrite H. reflexivity. Qed.

Lemma find_element_located (pg : page) (q : query) (el : path * node) :
  find_element pg q = Ok (Some el) -> located pg q el.
Proof.
  unfold find_element, find_elements. destruct (well_formed q); [|discriminate].
  simpl. intros H. injection H as H. apply head_filter_some in H. exact H.
Qed.

Lemma first_in_containers_spec (pg : page) (inner : query) (cs : list (path * node)) :
  well_formed inner = true ->
  (forall c, In c cs -> In c (elements [] (root pg))) ->
  exists r, first_in_containers cs inner = Ok r /\
            forall el, r = Some el -> located pg inner el.
Proof.
  intros Hwf. induction cs as [|c cs IH]; intros Hcs; simpl.
  - exists None. split; [reflexivity|discriminate].
  - unfold find_element_in, find_elements_in. rewrite Hwf. simpl.
    destruct (head (List.filter (selects inner) (descendants (fst c) (snd c))))
      as [el|] eqn:E.
    + exists (Some el). split; [reflexivity|]. intros el' H. injection H as <-.
      apply head_filter_some in E as [Hin Hsel]. split; [|exact Hsel].
      apply descendants_sub in Hin.
      eapply elements_sub; [|exact Hin].
      rewrite <- surjective_pairing. apply Hcs. left. reflexivity.
    + apply IH. intros c' Hc'. apply Hcs. right. exact Hc'.
Qed.

Lemma question_containers_well_formed (label : string) :
  well_formed (question_containers (_xpath_literal label)) = true.
Proof.
  unfold well_formed, question_containers. cbn [q_conds forallb cond_lit].
  rewrite string_value_xpath_literal. reflexivity.
Qed.

Lemma find_in_question_container_spec (pg : page) (label : string) (inner : query) :
  well_formed inner = true ->
  exists r, _find_in_question_container pg label inner = Ok r /\
            forall el, r = Some el -> located pg inner el.
Proof.
  intros Hwf. unfold _find_in_question_container, find_elements.
  rewrite question_containers_well_formed. simpl.
  apply first_in_containers_spec; [exact Hwf|].
  intros c Hc. apply filter_In in Hc. tauto.
Qed.

(** The answer of the page depends on the tree only. *)
Lemma find_in_question_container_root (pg pg' : page) (label : string) (inner : query) :
  root pg = root pg' ->
  _find_in_question_container pg label inner = _find_in_question_container pg' label inner.
Proof.
  intros H. unfold _find_in_question_container, find_elements. rewrite H. reflexivity.
Qed.

Lemma find_element_root (pg pg' : page) (q : query) :
  root pg = root pg' -> find_element pg q = find_element pg' q.
Proof. intros H. unfold find_element, find_elements. rewrite H. reflexivity. Qed.

(** *** Check boxes *)

Lemma checkbox_queries_well_formed (opt : string) :
  well_formed (checkbox_exact opt) = true /\ well_formed (checkbox_containing opt) = true.
Proof.
  unfold well_formed, checkbox_exact, checkbox_containing. cbn [q_conds forallb cond_lit].
  rewrite string_value_xpath_literal. split; reflexivity.
Qed.

Lemma find_checkbox_spec (pg : page) (question_label opt : string) :
  exists r, find_checkbox pg question_label opt = Ok r /\
            forall el, r = Some el -> In el (elements [] (root pg)).
Proof.
  unfold find_checkbox. fold (checkbox_exact opt). fold (checkbox_containing opt).
  destruct (checkbox_queries_well_formed opt) as [W1 W2].
  destruct (find_in_question_container_spec pg question_label _ W1) as (r & -> & Hr).
  simpl. destruct r as [el|].
  - exists (Some el). split; [reflexivity|]. intros el' H. injection H as <-.
    apply (Hr el eq_refl).
  - rewrite (find_element_spec pg _ W1). simpl.
    destruct (head (List.filter (selects (checkbox_exact opt)) _)) as [el|] eqn:E.
    + exists (Some el). split; [reflexivity|]. intros el' H. injection H as <-.
      apply head_filter_some in E. tauto.
    + rewrite (find_element_spec pg _ W2).
      eexists. split; [reflexivity|]. intros el H.
      apply head_filter_some in H. tauto.
Qed.

Lemma find_checkbox_root (pg pg' : page) (question_label opt : string) :
  root pg = root pg' ->
  find_checkbox pg question_label opt = find_checkbox pg' question_label opt.
Proof.
  intros H. unfold find_checkbox.
  rewrite (find_in_question_container_root pg pg' _ _ H).
  rewrite !(find_element_root pg pg' _ H). reflexivity.
Qed.

Lemma aria_checked_click (pg : page) (e e' : path * node) :
  aria_checked pg e <> Some "true" ->
  aria_checked (click pg e) e'
  = if decide (fst e = fst e') then Some "true" else aria_checked pg e'.
Proof.
  intros Hne. unfold click, aria_checked at 1. simpl.
  assert (match aria_checked pg e with Some "true" => "false" | _ => "true" end = "true") as ->.
  { destruct (aria_checked pg e) as [v|]; [|reflexivity].
    destruct (String.eqb_spec v "true") as [->|Hv]; [congruence|].
    repeat (destruct v as [|[[] [] [] [] [] [] [] []] v]; try reflexivity). congruence. }
  destruct (decide (fst e = fst e')) as [<-|Hp].
  - rewrite lookup_insert_eq. reflexivity.
  - rewrite lookup_insert_ne by exact Hp. reflexivity.
Qed.

Lemma forallb_ext {A} (f g : A -> bool) (l : list A) :
  (forall x, f x = g x) -> forallb f l = forallb g l.
Proof. intros H. induction l as [|x l IH]; simpl; [reflexivity|]. rewrite H, IH. reflexivity. Qed.

Lemma match_true_string {A} (o : option string) (a b : A) :
  match o with Some "true" => a | _ => b end
  = if decide (o = Some "true") then a else b.
Proof.
  destruct (decide (o = Some "true")) as [->|Hne]; [reflexivity|].
  destruct o as [v|]; [|reflexivity].
  repeat (destruct v as [|[[] [] [] [] [] [] [] []] v]; try reflexivity). congruence.
Qed.

Lemma find_checkbox_found (pg : page) (question_label opt : string) :
  find_checkbox pg question_label opt = Ok (found pg question_label opt).
Proof.
  unfold found. destruct (find_checkbox_spec pg question_label opt) as (r & -> & _).
  reflexivity.
Qed.

Lemma found_in_document (pg : page) (question_label opt : string) (e : path * node) :
  found pg question_label opt = Some e -> In e (elements [] (root pg)).
Proof.
  unfold found. destruct (find_checkbox_spec pg question_label opt) as (r & -> & Hr).
  exact (Hr e).
Qed.

Lemma found_root (pg pg' : page) (question_label opt : string) :
  root pg = root pg' -> found pg question_label opt = found pg' question_label opt.
Proof. intros H. unfold found. rewrite (find_checkbox_root pg pg' _ _ H). reflexivity. Qed.

Lemma check_one_step (question_label : string) (st : check_state) (opt : string) :
  check_one question_label st opt = Ok (check_step question_label st opt).
Proof.
  destruct st as [[pg success] acts]. unfold check_one, check_step.
  destruct (is_empty (strip opt)); [reflexivity|].
  rewrite find_checkbox_found. simpl.
  destruct (found pg question_label (strip opt)) as [e|]; [|reflexivity].
  rewrite match_true_string. destruct (decide _); reflexivity.
Qed.

Lemma check_all_fold (question_label : string) (opts : list string) (st : check_state) :
  check_all question_label st opts = Ok (fold_left (check_step question_label) opts st).
Proof.
  revert st. induction opts as [|o os IH]; intros st; simpl; [reflexivity|].
  rewrite check_one_step. simpl. apply IH.
Qed.

(** What the loop keeps and what it achieves, from any state. *)
Lemma check_fold_spec (question_label : string) (opts : list string) :
  forall pg success acts,
  exists pg' new,
    fold_left (check_step question_label) opts (pg, success, acts)
    = (pg', success && forallb (option_found pg question_label) opts, acts ++ new) /\
    root pg' = root pg /\
    (forall e, aria_checked pg e = Some "true" -> aria_checked pg' e = Some "true") /\
    (forall a, In a new ->
       exists e, a = Click (fst e) /\ In e (elements [] (root pg)) /\
                 aria_checked pg e <> Some "true" /\ aria_checked pg' e = Some "true") /\
    (forall opt e, In opt opts -> is_empty (strip opt) = false ->
       found pg question_label (strip opt) = Some e -> aria_checked pg' e = Some "true").
Proof.
  induction opts as [|o os IH]; intros pg success acts.
  - exists pg, []. simpl. rewrite andb_true_r, app_nil_r.
    repeat split; auto; intros; contradiction.
  - cbn [fold_left forallb]. unfold check_step at 2, option_found at 1.
    destruct (is_empty (strip o)) eqn:Eo.
    + destruct (IH pg success acts) as (pg' & new & -> & Hr & Hk & Hn & Hf).
      exists pg', new. simpl. repeat split; auto.
      intros opt e [<-|Hin] Hne; [congruence|eauto].
    + destruct (found pg question_label (strip o)) as [e0|] eqn:Ef.
      * destruct (decide (aria_checked pg e0 = Some "true")) as [Hc|Hc].
        -- destruct (IH pg success acts) as (pg' & new & -> & Hr & Hk & Hn & Hf).
           exists pg', new. simpl. repeat split; auto.
           intros opt e [<-|Hin] Hne He; [|eauto].
           rewrite Ef in He. injection He as <-. auto.
        -- destruct (IH (click pg e0) success (acts ++ [Click (fst e0)]))
             as (pg' & new & -> & Hr & Hk & Hn & Hf).
           assert (Hroot : root (click pg e0) = root pg) by reflexivity.
           assert (Hkeep : forall e, aria_checked pg e = Some "true" ->
                                     aria_checked (click pg e0) e = Some "true").
           { intros e He. rewrite aria_checked_click by exact Hc.
             destruct (decide _); auto. }
           assert (Hnow : aria_checked (click pg e0) e0 = Some "true").
           { rewrite aria_checked_click by exact Hc.
             destruct (decide _) as [_|Hn']; [reflexivity|congruence]. }
           exists pg', (Click (fst e0) :: new). simpl. rewrite <- app_assoc. simpl.
           assert (Hopts : forallb (option_found (click pg e0) question_label) os
                           = forallb (option_found pg question_label) os).
           { apply forallb_ext. intros x. unfold option_found.
             rewrite (found_root (click pg e0) pg _ _ Hroot). reflexivity. }
           rewrite Hopts. split; [reflexivity|]. split; [congruence|].
           split; [intros e He; auto|]. split.
           ++ intros a [<-|Ha].
              ** exists e0. repeat split; auto. eapply found_in_document; eauto.
              ** destruct (Hn a Ha) as (e & -> & Hin & Hnc & Hc').
                 exists e. repeat split; auto.
           ++ intros opt e [<-|Hin] Hne He.
              ** rewrite Ef in He. injection He as <-. auto.
              ** apply (Hf opt e Hin Hne).
                 rewrite (found_root (click pg e0) pg _ _ Hroot). exact He.
      * destruct (IH pg false acts) as (pg' & new & -> & Hr & Hk & Hn & Hf).
        exists pg', new. simpl. rewrite andb_false_r. repeat split; auto.
        intros opt e [<-|Hin] Hne He; [congruence|eauto].
Qed.

(** When every control the options lead to is checked, the loop changes
    nothing. *)
Lemma check_fold_stable (question_label : string) (opts : list string) (pg : page) :
  (forall opt e, In opt opts -> is_empty (strip opt) = false ->
     found pg question_label (strip opt) = Some e -> aria_checked pg e = Some "true") ->
  forall success acts,
    fold_left (check_step question_label) opts (pg, success, acts)
    = (pg, success && forallb (option_found pg question_label) opts, acts).
Proof.
  induction opts as [|o os IH]; intros H success acts.
  - simpl. rewrite andb_true_r. reflexivity.
  - cbn [fold_left forallb]. unfold check_step at 2, option_found at 1.
    assert (Hos : forall opt e, In opt os -> is_empty (strip opt) = false ->
              found pg question_label (strip opt) = Some e -> aria_checked pg e = Some "true")
      by (intros opt e Hin; apply H; right; exact Hin).
    destruct (is_empty (strip o)) eqn:Eo.
    + rewrite (IH Hos). reflexivity.
    + destruct (found pg question_label (strip o)) as [e0|] eqn:Ef.
      * destruct (decide (aria_checked pg e0 = Some "true")) as [Hc|Hc].
        -- rewrite (IH Hos). reflexivity.
        -- destruct Hc. apply (H o e0); auto. left. reflexivity.
      * rewrite (IH Hos). simpl. rewrite andb_false_r. reflexivity.
Qed.

(** C5. [select_checkboxes] never raises and only clicks.  A control of
    the page whose [aria-checked] is ["true"] is not clicked and stays
    checked; every click is on a control of the page that was not checked
    and is checked afterwards; and a second call with the same arguments on
    the page the first call leaves clicks nothing, changes nothing and
    returns the same value. *)
Theorem select_checkboxes_idempotent (pg : page) (question_label : string)
    (option_values : list string) :
  exists pg' success acts,
    select_checkboxes pg question_label option_values = Ok (pg', success, acts) /\
    (forall e, In e (elements [] (root pg)) -> aria_checked pg e = Some "true" ->
               ~ In (Click (fst e)) acts /\ aria_checked pg' e = Some "true") /\
    (forall a, In a acts ->
       exists e, a = Click (fst e) /\ In e (elements [] (root pg)) /\
                 aria_checked pg e <> Some "true" /\ aria_checked pg' e = Some "true") /\
    select_checkboxes pg' question_label option_values = Ok (pg', success, []).
Proof.
  unfold select_checkboxes. rewrite check_all_fold.
  destruct (check_fold_spec question_label option_values pg true [])
    as (pg' & new & E & Hr & Hk & Hn & Hf).
  rewrite E. simpl in *. exists pg', (forallb (option_found pg question_label) option_values), new.
  split; [reflexivity|]. split; [|split].
  - intros e Hin He. split; [|auto].
    intros Hc. destruct (Hn _ Hc) as (e0 & Heq & Hin0 & Hnc & _).
    injection Heq as Hp. destruct e as [q m], e0 as [q0 m0]. simpl in Hp. subst q0.
    rewrite (elements_path_unique _ _ _ _ _ Hin Hin0) in He. congruence.
  - exact Hn.
  - rewrite check_all_fold, check_fold_stable.
    + simpl. do 3 f_equal. apply forallb_ext. intros x. unfold option_found.
      rewrite (found_root pg' pg _ _ Hr). reflexivity.
    + intros opt e Hin Hne He. apply (Hf opt e Hin Hne).
      rewrite <- (found_root pg' pg _ _ Hr). exact He.
Qed.

(** *** Text fields *)









End SeleniumProperties.

(** ** Examples: strings, rows and the fallback mapping *)

Section PureExamplesProperties.
Import XPathExpr CsvForm GeminiParser.

Example lower_sample : lower "Email (CHOICE)" = "email (choice)".
Proof. reflexivity. Qed.

Example strip_sample : strip "  a b  " = "a b".
Proof. reflexivity. Qed.

Example split_sample : split ";" "a;;b;" = ["a"; ""; "b"; ""].
Proof. reflexivity. Qed.

Example endswith_sample :
  endswith "email (choice)" "(choice)" = true /\ drop_last 8 "Email (choice)" = "Email ".
Proof. split; reflexivity. Qed.

Example int_sample :
  str_of_N (int_of_digits "06") = "6" /\ pad2 (int_of_digits "05") = "05"
  /\ str_of_N (int_of_digits "00") = "0".
Proof. repeat split; reflexivity. Qed.

Example py_str_sample :
  py_str (PList [PStr "a'b"; PInt (-5); PNone; PBool true])
  = "[" +:+ chr dquote +:+ "a'b" +:+ chr dquote +:+ ", -5, None, True]".
Proof. reflexivity. Qed.

Example variants_sample :
  _candidate_label_variants " Name "
  = ["Name"; "Name (Required)"; "Name *"; "Name*"].
Proof. reflexivity. Qed.

Example xpath_literal_plain : _xpath_literal "Name" = "'Name'".
Proof. reflexivity. Qed.

Example xpath_literal_single_quote :
  _xpath_literal "Ada's" = chr dquote +:+ "Ada's" +:+ chr dquote.
Proof. reflexivity. Qed.

Example xpath_literal_both :
  _xpath_literal ("a'b" +:+ chr dquote +:+ "c")
  = "concat('a', " +:+ chr dquote +:+ "'" +:+ chr dquote +:+ ", 'b" +:+ chr dquote +:+ "c')".
Proof. reflexivity. Qed.

Example string_value_rejects_one_argument : string_value "concat('a')" = None.
Proof. reflexivity. Qed.

Example extract_fenced :
  _extract_json_text ("Here it is: ```JSON" +:+ chr newline +:+ "{'fields': []}" +:+ chr newline
                      +:+ "``` as asked")
  = Ok "{'fields': []}".
Proof. reflexivity. Qed.

Example extract_object_to_end :
  _extract_json_text "Sure. {'fields': [{'value': 1}]}  " = Ok "{'fields': [{'value': 1}]}".
Proof. reflexivity. Qed.

Example extract_widest :
  _extract_json_text "x {'a': 1} y" = Ok "{'a': 1}".
Proof. reflexivity. Qed.

Example extract_nothing :
  _extract_json_text "no object here"
  = Raise (ValueError "No JSON object found in model output").
Proof. reflexivity. Qed.

Example guess_email :
  _guess_value "Your Email" "text" [] {["email" := PStr "ada@example.org"]}
  = Ok (PStr "ada@example.org").
Proof. reflexivity. Qed.

Example guess_full_name :
  _guess_value "Name" "text" [] {["first_name" := PStr "Ada"; "last_name" := PStr "Lovelace"]}
  = Ok (PStr "Ada Lovelace").
Proof. reflexivity. Qed.

Example guess_name_not_a_str :
  _guess_value "Name" "text" [] {["first_name" := PInt 7]}
  = Raise (TypeError "unsupported operand type(s) for +").
Proof. reflexivity. Qed.

Example guess_choice_hint :
  _guess_value "Size" "choice" ["Small"; "Large"] {["choice" := PStr " large "]}
  = Ok (PStr "Large").
Proof. reflexivity. Qed.

Example guess_choice_first :
  _guess_value "Size" "dropdown" ["Small"; "Large"] {["choice" := PStr "huge"]}
  = Ok (PStr "Small").
Proof. reflexivity. Qed.

Example guess_checkbox :
  _guess_value "Pick" "checkbox" ["A"; "b"; "C"]
    {["selections" := PList [PStr " a"; PStr "B"; PStr "z"]]}
  = Ok (PList [PStr "A"; PStr "b"]).
Proof. reflexivity. Qed.

Example guess_date_refused :
  _guess_value "Birthday" "date" [] {["dob" := PStr "9 June 2025"]} = Ok (PStr "").
Proof. reflexivity. Qed.

Example fallback_sample :
  _fallback_config "https://docs.google.com/forms/d/e/x/viewform"
    [Descriptor (Some "1000") (Some "Your email") (Some "text") (Some []);
     Descriptor (Some "2000") (Some "Size") (Some "choice") (Some ["Small"; "Large"])]
    {["email" := PStr "ada@example.org"]}
  = Ok (PDict
          [("form_url", PStr "https://docs.google.com/forms/d/e/x/viewform");
           ("fields",
            PList
              [PDict [("entry_id", PStr "1000"); ("question_label", PStr "Your email");
                      ("type", PStr "text"); ("value", PStr "ada@example.org");
                      ("option_hints", PNone)];
               PDict [("entry_id", PStr "2000"); ("question_label", PStr "Size");
                      ("type", PStr "choice"); ("value", PStr "Small");
                      ("option_hints", PList [PStr "Small"; PStr "Large"])]])]).
Proof. reflexivity. Qed.

End PureExamplesProperties.

(** ** Examples: the Playwright fillers *)

Section PlaywrightExamplesProperties.
Import Playwright BrowserFiller AirtableFiller.

Example match_date_sample :
  match_date "2025-06-09" = Some ("2025", "06", "09") /\ match_date "2025-6-9" = None
  /\ match_date ("2025-06-09" +:+ chr newline) = Some ("2025", "06", "09").
Proof. repeat split; reflexivity. Qed.

Example match_time_sample :
  match_time "09:45" = Some ("09", "45") /\ match_time "9:45" = None
  /\ match_time "09:45 " = None.
Proof. repeat split; reflexivity. Qed.

Example prefill_sample :
  prefill_form
    (page_with_inputs [part_selector "7" "_hour"; part_selector "7" "_minute"])
    [Field (Some "time") (Some "7") (Some "Start") (PStr "09:05");
     Field (Some "date") (Some "8") (Some "Day") (PStr "2025-06-09");
     Field (Some "unknown") (Some "9") None (PStr "x")]
    false
  = (Ok tt, [Did (PageFill (part_selector "7" "_hour") "9");
             Did (PageFill (part_selector "7" "_minute") "05");
             Printed "Prefill done."]).
Proof. reflexivity. Qed.

Example fill_value_checkbox :
  fill_value page_with_everything (PStr "checkbox") "Subscribe" (PBool true) 10000
  = (Ok tt, [Did (Tick (GetByLabel "Subscribe"))]).
Proof. reflexivity. Qed.

Example fill_value_not_found :
  fill_value still_on_form (PStr "text") "Name" (PStr "Ada") 10000
  = (Raise (Exception
             "Failed to fill field 'Name' (type: text): Could not find text field for label: Name"),
     []).
Proof. reflexivity. Qed.

Example wait_for_success_form_gone :
  wait_for_success (page_with_inputs []) (Config None None None) 10000
  = (Ok tt, [Did (WaitForTimeout 3000);
             Printed "Form fields no longer present - assuming successful submission"]).
Proof. reflexivity. Qed.

Example wait_for_success_url :
  wait_for_success still_on_form (Config None None (Some "shrForm")) 10000 = (Ok tt, []).
Proof. reflexivity. Qed.

End PlaywrightExamplesProperties.

(** ** Examples: the Selenium filler *)

Section SeleniumExamplesProperties.
Import Dom CsvForm.

Example normalize_space_sample : normalize_space "  a   b " = "a b".
Proof. reflexivity. Qed.

Example select_checkboxes_sample :
  match select_checkboxes two_boxes_page "Toppings" ["Cheese"; " Olives"; ""; "Ham"] with
  | Ok (pg, success, acts) =>
      success = false /\ acts = [Click [0; 2]] /\
      aria_checked_now pg !! [0; 2] = Some "true" /\ aria_checked_now pg !! [0; 1] = None
  | Raise _ => False
  end.
Proof. vm_compute. repeat split; reflexivity. Qed.

Example fill_text_field_in_container :
  fill_text_field
    (Page (Elem "form" []
             [Elem "div" [("role", "listitem")]
                [Elem "span" [] [Text "Name"]; Elem "textarea" [] []]]) ∅)
    "Name" "Ada"
  = Ok (true, [Clear [0; 1]; SendKeys [0; 1] "Ada"]).
Proof. vm_compute. reflexivity. Qed.

Example fill_text_field_not_found :
  fill_text_field one_input_page "Email" "ada@example.org" = Ok (false, []).
Proof. vm_compute. reflexivity. Qed.

End SeleniumExamplesProperties.

(** ** Buttons, text fields and choices of the Airtable filler *)

Section AirtableControlsProperties.
Import Playwright AirtableFiller.

Lemma attempts_app_false (pg : page) (act : locator -> action)
    (c1 t1 c2 t2 : list locator) (ok : bool) :
  attempts pg act c1 t1 false -> attempts pg act c2 t2 ok ->
  attempts pg act (c1 ++ c2) (t1 ++ t2) ok.
Proof.
  intros [-> H1] H2. destruct ok; simpl in *.
  - destruct H2 as (before & l & after & -> & -> & Hb & Hl).
    exists (c1 ++ before), l, after. rewrite <- !app_assoc.
    repeat split; [|exact Hl]. apply Forall_app; auto.
  - destruct H2 as [-> H2]. split; [reflexivity|]. apply Forall_app; auto.
Qed.

Lemma attempts_app_true (pg : page) (act : locator -> action) (c1 t1 c2 : list locator) :
  attempts pg act c1 t1 true -> attempts pg act (c1 ++ c2) t1 true.
Proof.
  intros (before & l & after & -> & -> & Hb & Hl).
  exists before, l, (after ++ c2). rewrite <- !app_assoc. auto.
Qed.

Lemma tries_app (act : locator -> action) (t1 t2 : list locator) :
  tries act (t1 ++ t2) = tries act t1 ++ tries act t2.
Proof. apply List.map_app. Qed.

(** One guarded attempt: [if l.count() > 0: act(l); return], with a
    time-out swallowed. *)
Lemma one_attempt (pg : page) (act : locator -> action) (l : locator)
    (catches : exn -> bool) :
  catches (PlaywrightTimeoutError "Timeout exceeded") = true ->
  exists tried ok,
    try_catch catches
      (if (0 <? count pg l)%nat then do pg (act l) ;;; returned else goes_on)
      (fun _ => goes_on)
    = (Ok ok, tries act tried) /\
    attempts pg act (present pg [l]) tried ok.
Proof.
  intros Hc. unfold present. cbn [List.filter].
  destruct (0 <? count pg l)%nat.
  - unfold do. destruct (completes pg (act l)) eqn:Hl.
    + exists [l], true. split; [reflexivity|].
      exists [], l, []. repeat split; auto.
    + exists [l], false. cbn [bind try_catch]. rewrite Hc. split; [reflexivity|].
      split; [reflexivity|]. constructor; auto.
  - exists [], false. split; [reflexivity|]. split; [reflexivity|]. constructor.
Qed.

Lemma present_app (pg : page) (a b : list locator) :
  present pg (a ++ b) = present pg a ++ present pg b.
Proof. apply List.filter_app. Qed.

Lemma click_first_selector_attempts (pg : page) (selectors : list string) :
  exists tried ok,
    click_first_selector pg selectors = (Ok ok, tries Click tried) /\
    attempts pg Click (present pg (List.map (fun s => First (Locator s)) selectors)) tried ok.
Proof.
  induction selectors as [|s rest IH].
  - exists [], false. split; [reflexivity|]. split; [reflexivity|]. constructor.
  - destruct (one_attempt pg Click (First (Locator s)) is_timeout eq_refl)
      as (t1 & ok1 & E1 & A1).
    destruct IH as (t2 & ok2 & E2 & A2).
    cbn [click_first_selector List.map].
    change (First (Locator s) :: List.map (fun s0 => First (Locator s0)) rest)
      with ([First (Locator s)] ++ List.map (fun s0 => First (Locator s0)) rest).
    rewrite present_app, E1. cbn [bind]. destruct ok1.
    + exists t1, true. cbn [returned ret]. rewrite app_nil_r. split; [reflexivity|].
      apply attempts_app_true. exact A1.
    + rewrite E2. exists (t1 ++ t2), ok2. rewrite tries_app. split; [reflexivity|].
      apply attempts_app_false; assumption.
Qed.

(** X1. [submit] clicks the buttons it can find, in its order (the button
    named "submit", the five usual selectors, the configured selector),
    until a click completes.  It clicks nothing else, returns as soon as a
    click completed, and raises "Could not find submit button" exactly when
    no button was found or every click timed out. *)
Theorem submit_clicks_until_one_completes (pg : page) (cfg : config) :
  exists (tried : list locator) (ok : bool),
    submit pg cfg
    = (if ok then Ok tt else Raise (PlaywrightTimeoutError "Could not find submit button"),
       tries Click tried) /\
    attempts pg Click (present pg (submit_candidates cfg)) tried ok.
Proof.
  unfold submit, submit_candidates.
  destruct (one_attempt pg Click (GetByRole "button" (NameRegexI "submit")) is_timeout eq_refl)
    as (t0 & ok0 & E0 & A0).
  rewrite E0. cbn [bind].
  match goal with
  | |- context [present pg (?x :: ?l)] => change (x :: l) with ([x] ++ l)
  end.
  rewrite List.map_app, !present_app.
  destruct ok0.
  - exists t0, true. cbn [ret]. rewrite app_nil_r. split; [reflexivity|].
    apply attempts_app_true. exact A0.
  - destruct (click_first_selector_attempts pg alternative_selectors) as (t1 & ok1 & E1 & A1).
    rewrite E1. cbn [bind]. destruct ok1.
    + exists (t0 ++ t1), true. cbn [ret]. rewrite app_nil_r, tries_app.
      split; [reflexivity|].
      apply attempts_app_false; [exact A0|]. apply attempts_app_true. exact A1.
    + destruct (configured (submit_selector cfg)) as [sel|].
      * destruct (click_first_selector_attempts pg [sel]) as (t2 & ok2 & E2 & A2).
        rewrite E2. cbn [bind].
        exists (t0 ++ t1 ++ t2), ok2. rewrite !tries_app.
        split; [destruct ok2; cbn [ret raise]; rewrite ?app_nil_r; reflexivity|].
        apply attempts_app_false; [exact A0|]. apply attempts_app_false; assumption.
      * exists (t0 ++ t1), false. cbn [goes_on ret bind raise]. rewrite !app_nil_r, tries_app.
        split; [reflexivity|].
        apply attempts_app_false; [exact A0|].
        change (present pg (List.map (fun s => First (Locator s)) [])) with (@nil locator).
        exact A1.
Qed.

Lemma filter_text_app (pg : page) (a b : list locator) :
  List.filter (is_text_tag pg) (a ++ b)
  = List.filter (is_text_tag pg) a ++ List.filter (is_text_tag pg) b.
Proof. apply List.filter_app. Qed.

Lemma fill_first_xpath_attempts (pg : page) (value : string) (xpaths : list string) :
  exists tried ok,
    fill_first_xpath pg xpaths value = (Ok ok, tries (fun l => Fill l value) tried) /\
    attempts pg (fun l => Fill l value)
      (List.filter (is_text_tag pg)
         (present pg (List.map (fun x => First (Locator x)) xpaths))) tried ok.
Proof.
  induction xpaths as [|x rest IH].
  - exists [], false. split; [reflexivity|]. split; [reflexivity|]. constructor.
  - destruct IH as (t2 & ok2 & E2 & A2).
    cbn [fill_first_xpath List.map].
    change (First (Locator x) :: List.map (fun x0 => First (Locator x0)) rest)
      with ([First (Locator x)] ++ List.map (fun x0 => First (Locator x0)) rest).
    rewrite present_app, filter_text_app.
    assert (exists t1 ok1,
      try_catch any_exception
        (if (0 <? count pg (First (Locator x)))%nat
         then tag <- evaluate_tag pg (First (Locator x));;
              (if String.eqb tag "input" || String.eqb tag "textarea"
               then do pg (Fill (First (Locator x)) value);;; returned
               else goes_on)
         else goes_on)
        (fun _ => goes_on)
      = (Ok ok1, tries (fun l => Fill l value) t1) /\
      attempts pg (fun l => Fill l value)
        (List.filter (is_text_tag pg) (present pg [First (Locator x)])) t1 ok1)
      as (t1 & ok1 & E1 & A1).
    { unfold present, is_text_tag, evaluate_tag. cbn [List.filter].
      destruct (0 <? count pg (First (Locator x)))%nat;
        [|exists [], false; split; [reflexivity|]; split; [reflexivity|constructor]].
      cbn [List.filter].
      destruct (tag_name pg (First (Locator x))) as [tag|];
        [|exists [], false; split; [reflexivity|]; split; [reflexivity|constructor]].
      cbn [bind ret]. destruct (String.eqb tag "input" || String.eqb tag "textarea");
        [|exists [], false; split; [reflexivity|]; split; [reflexivity|constructor]].
      unfold do. destruct (completes pg (Fill (First (Locator x)) value)) eqn:Hl.
      - exists [First (Locator x)], true. split; [reflexivity|].
        exists [], (First (Locator x)), []. repeat split; auto.
      - exists [First (Locator x)], false. split; [reflexivity|].
        split; [reflexivity|]. constructor; auto. }
    rewrite E1. cbn [bind]. destruct ok1.
    + exists t1, true. cbn [returned ret]. rewrite app_nil_r. split; [reflexivity|].
      apply attempts_app_true. exact A1.
    + rewrite E2. exists (t1 ++ t2), ok2. rewrite tries_app. split; [reflexivity|].
      apply attempts_app_false; assumption.
Qed.

(** X2. [_fill_text_field] types the value, and nothing else, into the
    controls its selectors find, in its order (the six XPath selectors
    that select an input or a textarea, then the input next to a label
    with the text), until a fill completes; it raises "Could not find text
    field for label" exactly when there is no such control or every fill
    failed. *)
Theorem fill_text_field_fills_until_one_completes (pg : page) (label value : string)
    (timeout : Z) :
  exists (tried : list locator) (ok : bool),
    _fill_text_field pg label value timeout
    = (if ok then Ok tt
       else Raise (PlaywrightTimeoutError ("Could not find text field for label: " +:+ label)),
       tries (fun l => Fill l value) tried) /\
    attempts pg (fun l => Fill l value) (text_field_candidates pg label) tried ok.
Proof.
  unfold _fill_text_field, text_field_candidates.
  destruct (fill_first_xpath_attempts pg value (text_field_xpaths label))
    as (t1 & ok1 & E1 & A1).
  rewrite E1. cbn [bind]. destruct ok1.
  - exists t1, true. cbn [ret]. rewrite app_nil_r. split; [reflexivity|].
    apply attempts_app_true. exact A1.
  - destruct (one_attempt pg (fun l => Fill l value)
                (First (FilterHas (Locator "input, textarea")
                          (Locator ("label:has-text('" +:+ label +:+ "')"))))
                any_exception eq_refl) as (t2 & ok2 & E2 & A2).
    rewrite E2. cbn [bind].
    exists (t1 ++ t2), ok2. rewrite tries_app.
    split; [destruct ok2; cbn [ret raise]; rewrite ?app_nil_r; reflexivity|].
    apply attempts_app_false; assumption.
Qed.

(** ** What [fill_value] makes of a failure *)


Lemma try_catch_raise_events {A} (catches : exn -> bool) (m : run A) (f : exn -> exn) :
  snd (try_catch catches m (fun e => raise (f e))) = snd m.
Proof.
  destruct m as [[x|e] t]; [reflexivity|]. cbn [try_catch].
  destruct (catches e); cbn [raise snd]; rewrite ?app_nil_r; reflexivity.
Qed.

Lemma toggle_by_label_actions (pg : page) (label : string) (interaction : locator -> action)
    (a : action) :
  In a (actions (snd (toggle_by_label pg label interaction))) ->
  exists l, a = interaction l.
Proof.
  unfold toggle_by_label, do.
  destruct (0 <? count pg (GetByLabel label))%nat;
    [destruct (completes pg (interaction (GetByLabel label)))|];
    cbn [bind try_catch is_timeout goes_on returned ret raise snd];
    destruct (0 <? count pg
                (First (Locator (label_xpath label +:+ "//input[@type='checkbox']"))))%nat;
    simpl; intros H; intuition eauto.
Qed.

(** X3. A field of type [checkbox] is checked when its value is truthy and
    unchecked otherwise: a non-empty string checks it whatever it says, and
    the other interaction is never issued. *)
Theorem fill_value_checkbox_by_truth (pg : page) (label : string) (value : pyval)
    (timeout : Z) (a : action) :
  In a (actions (snd (fill_value pg (PStr "checkbox") label value timeout))) ->
  exists l, a = if truthy value then Tick l else Untick l.
Proof.
  unfold fill_value. cbn [existsb text_kinds kind_is String.eqb Ascii.eqb Bool.eqb orb].
  rewrite try_catch_raise_events. unfold _fill_checkbox, check_by_label, uncheck_by_label.
  intros H. destruct (truthy value); apply toggle_by_label_actions in H as [l ->]; eauto.
Qed.

Lemma fill_value_checkbox_by_truth_witness :
  exists l, Tick (GetByLabel "Agree") = if truthy (PStr "false") then Tick l else Untick l.
Proof.
  apply (fill_value_checkbox_by_truth page_with_everything "Agree" (PStr "false") 10000
           (Tick (GetByLabel "Agree"))).
  left. reflexivity.
Defined.

(** X4. A field of type [attachment] whose file does not exist is refused
    before the page is touched; the exception names the field, its type and
    the resolved path. *)
Theorem fill_value_attachment_missing_file (pg : page) (label : string) (value : pyval)
    (timeout : Z) :
  file_exists pg (resolve pg (py_str value)) = false ->
  fill_value pg (PStr "attachment") label value timeout
  = (Raise (Exception ("Failed to fill field '" +:+ label
                       +:+ "' (type: attachment): File not found: "
                       +:+ resolve pg (py_str value))), []).
Proof.
  intros H. unfold fill_value.
  cbn [existsb text_kinds kind_is String.eqb Ascii.eqb Bool.eqb orb].
  unfold _fill_attachment, set_attachment. rewrite H. reflexivity.
Qed.

Lemma fill_value_attachment_missing_file_witness :
  fill_value empty_page (PStr "attachment") "CV" (PStr "cv.pdf") 10000
  = (Raise (Exception "Failed to fill field 'CV' (type: attachment): File not found: cv.pdf"),
     []).
Proof.
  apply (fill_value_attachment_missing_file empty_page "CV" (PStr "cv.pdf") 10000).
  reflexivity.
Defined.




(** ** The choices of a multiple select *)

Lemma inserted_app (t1 t2 : list event) : inserted (t1 ++ t2) = inserted t1 ++ inserted t2.
Proof.
  induction t1 as [|[a|l] t1 IH]; [reflexivity| |exact IH].
  destruct a; cbn [inserted app]; rewrite IH; reflexivity.
Qed.

Lemma open_field_inserts_nothing (pg : page) (label : string) :
  inserted (snd (open_field pg label)) = [].
Proof.
  unfold open_field, do.
  destruct (0 <? count pg (First (GetByLabel label)))%nat;
    [destruct (completes pg (Click (First (GetByLabel label))))|];
    cbn [bind try_catch is_timeout goes_on returned ret raise snd app inserted];
    try reflexivity;
    (destruct (0 <? count pg (First (Locator (label_xpath label))))%nat; [|reflexivity]);
    match goal with
    | |- context [if (0 <? count pg ?l)%nat then _ else _] =>
        destruct (0 <? count pg l)%nat
    end;
    match goal with
    | |- context [completes pg ?a] => destruct (completes pg a)
    end; reflexivity.
Qed.

Lemma inserts_from_bind (m k : run unit) (l1 l2 : list pyval) :
  inserts_from m l1 -> inserts_from k l2 -> inserts_from (m ;;; k) (l1 ++ l2).
Proof.
  unfold inserts_from.
  destruct m as [[[]|e] t], k as [r t']; intros (r1 & E1 & F1) (r2 & E2 & F2);
    cbn [bind fst snd] in *.
  - exists r2. rewrite inserted_app, E1, E2, (F1 eq_refl), app_nil_r, <- app_assoc.
    split; [reflexivity|exact F2].
  - exists (r1 ++ l2). rewrite E1, <- app_assoc. split; [reflexivity|discriminate].
Qed.

Lemma inserts_from_raise (e : exn) (l : list pyval) : inserts_from (raise e) l.
Proof. exists l. split; [reflexivity|discriminate]. Qed.

Lemma inserts_from_do (pg : page) (a : action) :
  inserts_from (do pg a) (match a with InsertText s => [PStr s] | _ => [] end).
Proof. exists []. destruct a; split; reflexivity. Qed.

Lemma inserts_from_open_field (pg : page) (label : string) :
  inserts_from (open_field pg label) [].
Proof. exists []. rewrite open_field_inserts_nothing. split; reflexivity. Qed.

(** X6. [fill_select_multi] inserts the choices in their order, one per
    choice, none skipped and none twice: at any point the texts inserted
    are an initial part of the list, and the whole list when the call
    returns. *)
Theorem fill_select_multi_inserts_in_order (pg : page) (label : string)
    (choices : list pyval) :
  exists rest,
    choices = inserted (snd (fill_select_multi pg label choices)) ++ rest /\
    (fst (fill_select_multi pg label choices) = Ok tt -> rest = []).
Proof.
  change (inserts_from (fill_select_multi pg label choices) choices).
  induction choices as [|c choices IH].
  - exists []. split; reflexivity.
  - cbn [fill_select_multi].
    change (c :: choices) with ([] ++ [] ++ [] ++ [c] ++ [] ++ [] ++ [] ++ [] ++ choices).
    apply inserts_from_bind; [apply inserts_from_open_field|].
    apply inserts_from_bind; [apply (inserts_from_do pg (Press "Enter"))|].
    apply inserts_from_bind; [apply (inserts_from_do pg (WaitForTimeout 500))|].
    apply inserts_from_bind;
      [destruct c; try apply inserts_from_raise; apply (inserts_from_do pg (InsertText _))|].
    apply inserts_from_bind; [apply (inserts_from_do pg (Press "Enter"))|].
    apply inserts_from_bind; [apply (inserts_from_do pg (WaitForTimeout 300))|].
    apply inserts_from_bind; [apply (inserts_from_do pg (Press "Escape"))|].
    apply inserts_from_bind; [apply (inserts_from_do pg (WaitForTimeout 200))|].
    exact IH.
Qed.

(** ** The ways out of [wait_for_success] *)




(** ** A select field that is not on the page *)

(** X8. When the page has neither a control nor a label for the field,
    [open_field] returns without a click and without an exception, so a
    [single_select] field that is missing goes unnoticed: the keys that
    choose the option are sent all the same, to whatever has the focus, and
    [fill_value] returns normally. *)
Theorem single_select_missing_field_unnoticed (pg : page) (label : string) (value : pyval)
    (timeout : Z) :
  count pg (First (GetByLabel label)) = 0 ->
  count pg (First (Locator (label_xpath label))) = 0 ->
  open_field pg label = (Ok tt, []) /\
  (Forall (fun a => completes pg a = true)
     [Press "Enter"; WaitForTimeout 500; InsertText (py_str value); WaitForTimeout 300] ->
   fill_value pg (PStr "single_select") label value timeout
   = (Ok tt, select_keys (py_str value))).
Proof.
  intros H1 H2.
  assert (Ho : open_field pg label = (Ok tt, [])).
  { unfold open_field. rewrite H1, H2. reflexivity. }
  split; [exact Ho|]. intros Hc.
  apply Forall_cons_iff in Hc as [C1 Hc]. apply Forall_cons_iff in Hc as [C2 Hc].
  apply Forall_cons_iff in Hc as [C3 Hc]. apply Forall_cons_iff in Hc as [C4 _].
  unfold fill_value. cbn [existsb text_kinds kind_is String.eqb Ascii.eqb Bool.eqb orb].
  unfold _fill_single_select, fill_select_single, do. rewrite Ho, C1, C2, C3, C4.
  reflexivity.
Qed.

Lemma single_select_missing_field_unnoticed_witness :
  open_field empty_page "Country" = (Ok tt, []) /\
  (Forall (fun a => completes empty_page a = true)
     [Press "Enter"; WaitForTimeout 500; InsertText (py_str (PStr "Peru"));
      WaitForTimeout 300] ->
   fill_value empty_page (PStr "single_select") "Country" (PStr "Peru") 10000
   = (Ok tt, select_keys (py_str (PStr "Peru")))).
Proof.
  apply (single_select_missing_field_unnoticed empty_page "Country" (PStr "Peru") 10000);
    reflexivity.
Defined.

(** ** Examples: buttons and choices *)

Example submit_sample :
  submit (page_with_first ["button:has-text('Send')"; "#go"]) (Config (Some "#go") None None)
  = (Ok tt, [Did (Click (First (Locator "button:has-text('Send')")))]) /\
  submit (page_with_first ["#go"]) (Config (Some "#go") None None)
  = (Ok tt, [Did (Click (First (Locator "#go")))]) /\
  submit (page_with_first ["#go"]) (Config None None None)
  = (Raise (PlaywrightTimeoutError "Could not find submit button"), []).
Proof. repeat split; reflexivity. Qed.

Example fill_select_multi_sample :
  inserted (snd (fill_select_multi empty_page "Tags" [PStr "a"; PStr "b"])) = [PStr "a"; PStr "b"] /\
  fill_select_multi empty_page "Tags" [PStr "a"; PInt 5; PStr "b"]
  = (Raise (Exception "text: expected string"),
     List.map Did [Press "Enter"; WaitForTimeout 500; InsertText "a"; Press "Enter";
                   WaitForTimeout 300; Press "Escape"; WaitForTimeout 200;
                   Press "Enter"; WaitForTimeout 500]).
Proof. split; reflexivity. Qed.

End AirtableControlsProperties.

(** ** What the prefill does to the page, and when it can fail *)

Section PrefillProperties.
Import Playwright BrowserFiller.

















End PrefillProperties.

(** ** White space at the ends of a string *)

Lemma lstrip_no_space (c : ascii) (s : string) :
  isspace c = false -> lstrip (String c s) = String c s.
Proof. intros H. simpl. rewrite H. reflexivity. Qed.

Lemma lstrip_head (s : string) :
  match lstrip s with
  | "" => True
  | String c _ => isspace c = false
  end.
Proof.
  induction s as [|c s IH]; simpl; [exact I|].
  destruct (isspace c) eqn:E; [exact IH|exact E].
Qed.

Lemma rstrip_cons (c : ascii) (s : string) :
  isspace c = false -> rstrip (String c s) = String c (rstrip s).
Proof. intros H. simpl. rewrite H. reflexivity. Qed.

Lemma rstrip_idempotent (s : string) : rstrip (rstrip s) = rstrip s.
Proof.
  induction s as [|c s IH]; [reflexivity|].
  simpl. destruct (isspace c && is_empty (rstrip s)) eqn:E; [reflexivity|].
  simpl. rewrite IH, E. reflexivity.
Qed.

Lemma strip_head (s : string) :
  match strip s with
  | "" => True
  | String c _ => isspace c = false
  end.
Proof.
  unfold strip. pose proof (lstrip_head s) as H.
  destruct (lstrip s) as [|c t]; [exact I|].
  rewrite (rstrip_cons c t H). exact H.
Qed.

Lemma strip_idempotent (s : string) : strip (strip s) = strip s.
Proof.
  pose proof (strip_head s) as H. unfold strip at 1.
  destruct (strip s) as [|c t] eqn:E; [reflexivity|].
  rewrite (lstrip_no_space c t H), <- E. unfold strip. apply rstrip_idempotent.
Qed.

(** A string that stripping leaves as it is has no white space at its
    ends. *)
Lemma stripped_ends (s : string) :
  strip s = s -> lstrip s = s /\ rstrip s = s.
Proof.
  intros H. pose proof (strip_head s) as Hh. rewrite H in Hh.
  assert (Hl : lstrip s = s) by (destruct s as [|c t]; [reflexivity|apply lstrip_no_space, Hh]).
  split; [exact Hl|]. unfold strip in H. rewrite Hl in H. exact H.
Qed.

Lemma rstrip_app_kept (a b : string) :
  rstrip b <> "" -> rstrip (a +:+ b) = a +:+ rstrip b.
Proof.
  intros Hb. induction a as [|c a IH]; [reflexivity|].
  rewrite !sapp_cons. simpl. rewrite IH.
  destruct (a +:+ rstrip b) eqn:E.
  - destruct a; [rewrite sapp_nil_l in E; contradiction|rewrite sapp_cons in E; discriminate].
  - rewrite andb_false_r. reflexivity.
Qed.

Lemma rstrip_app_blank (a b : string) :
  rstrip b = "" -> rstrip (a +:+ b) = rstrip a.
Proof.
  intros Hb. induction a as [|c a IH]; [exact Hb|].
  rewrite sapp_cons. simpl. rewrite IH. reflexivity.
Qed.

(** A stripped, non-empty string followed by a suffix with no white space
    at its end is stripped. *)
Lemma strip_app_stripped (a b : string) :
  strip a = a -> a <> "" -> rstrip b = b -> b <> "" -> strip (a +:+ b) = a +:+ b.
Proof.
  intros Ha Hne Hb Hbne. pose proof (strip_head a) as Hh. rewrite Ha in Hh.
  destruct a as [|c a]; [contradiction|].
  unfold strip. rewrite sapp_cons, (lstrip_no_space c _ Hh), <- sapp_cons.
  rewrite rstrip_app_kept by (rewrite Hb; exact Hbne). rewrite Hb. reflexivity.
Qed.

Lemma strip_app_space (a : string) :
  strip a = a -> a <> "" -> strip (a +:+ " ") = a.
Proof.
  intros Ha Hne. pose proof (strip_head a) as Hh. rewrite Ha in Hh.
  destruct (stripped_ends a Ha) as [_ Hr].
  destruct a as [|c a]; [contradiction|].
  unfold strip. rewrite sapp_cons, (lstrip_no_space c _ Hh), <- sapp_cons.
  rewrite rstrip_app_blank by reflexivity. exact Hr.
Qed.

(** ** The inspector, the radio buttons and the buttons of the Selenium filler *)

Section InspectorProperties.
Import Dom CsvForm XPathExpr.

Lemma template_headers (qs : list question) (acc : list string * gmap string string) :
  fst (fold_left template_step qs acc) = fst acc ++ flat_map suggested_header qs.
Proof.
  revert acc. induction qs as [|q qs IH]; intros [headers sample].
  - simpl. rewrite app_nil_r. reflexivity.
  - cbn [fold_left flat_map]. rewrite IH. unfold template_step, suggested_header.
    destruct (String.eqb (q_type q) "text" || String.eqb (q_type q) "paragraph");
      [cbn [fst]; rewrite <- app_assoc; reflexivity|].
    destruct (String.eqb (q_type q) "choice");
      [cbn [fst]; rewrite <- app_assoc; reflexivity|].
    destruct (String.eqb (q_type q) "multi");
      [cbn [fst]; rewrite <- app_assoc; reflexivity|].
    reflexivity.
Qed.

Lemma suggested_header_in (qs : list question) (q : question) (h : string) :
  In q qs -> In h (suggested_header q) -> In h (fst (template qs)).
Proof.
  intros Hq Hh. unfold template. rewrite template_headers. cbn [fst app].
  apply in_flat_map. exists q. auto.
Qed.

Lemma choice_header_stripped (lbl : string) :
  strip lbl = lbl -> lbl <> "" -> strip (lbl +:+ " (choice)") = lbl +:+ " (choice)".
Proof. intros H Hne. apply strip_app_stripped; [exact H|exact Hne|reflexivity|discriminate]. Qed.

Lemma multi_header_stripped (lbl : string) :
  strip lbl = lbl -> lbl <> "" -> strip (lbl +:+ " (multi)") = lbl +:+ " (multi)".
Proof. intros H Hne. apply strip_app_stripped; [exact H|exact Hne|reflexivity|discriminate]. Qed.

Lemma app_not_empty (a b : string) : a <> "" -> a +:+ b <> "".
Proof. destruct a; [contradiction|]. rewrite sapp_cons. discriminate. Qed.

(** X11. The headers the inspector suggests are read back by [parse_row_types]
    as the inspector meant them.  For a question whose label is not empty
    and has no white space at its ends, and a cell that is not blank: the
    header of a [choice] question gives a radio field with the label of
    the question, the header of a [multi] question gives a checkbox field
    with that label, and the header of a [text] or [paragraph] question
    gives a text field with that label, provided the label does not itself
    end with [(choice)] or [(multi)]. *)
Theorem template_headers_parse_back (qs : list question) (q : question) (v : string) :
  In q qs -> strip (q_label q) = q_label q -> q_label q <> "" -> strip v <> "" ->
  let lbl := q_label q in
  (q_type q = "choice" ->
     In (lbl +:+ " (choice)") (fst (template qs)) /\
     parse_row_types [(lbl +:+ " (choice)", Some v)] = (∅, {[lbl := strip v]}, ∅)) /\
  (q_type q = "multi" ->
     In (lbl +:+ " (multi)") (fst (template qs)) /\
     parse_row_types [(lbl +:+ " (multi)", Some v)]
     = (∅, ∅, {[lbl := multi_items (strip v)]})) /\
  (q_type q = "text" \/ q_type q = "paragraph" ->
     In lbl (fst (template qs)) /\
     (endswith (lower lbl) "(choice)" = false ->
      endswith (lower lbl) "(multi)" = false ->
      parse_row_types [(lbl, Some v)] = ({[lbl := strip v]}, ∅, ∅))).
Proof.
  intros Hq Hs Hne Hv lbl. apply is_empty_false in Hv.
  assert (Hc : endswith (lower (lbl +:+ " (choice)")) "(choice)" = true).
  { apply endswith_lower_iff. exists (lbl +:+ " "), "(choice)".
    split; [snorm; reflexivity|reflexivity]. }
  assert (Hm : endswith (lower (lbl +:+ " (multi)")) "(multi)" = true).
  { apply endswith_lower_iff. exists (lbl +:+ " "), "(multi)".
    split; [snorm; reflexivity|reflexivity]. }
  split; [|split].
  - intros Ht. split.
    + apply (suggested_header_in qs q); [exact Hq|].
      unfold suggested_header. rewrite Ht. left. reflexivity.
    + unfold parse_row_types. cbn [fold_left parse_cell fst snd].
      rewrite (choice_header_stripped lbl Hs Hne), Hv, Hc.
      rewrite (proj2 (is_empty_false _) (app_not_empty lbl " (choice)" Hne)). cbn [orb].
      change (lbl +:+ " (choice)") with (lbl +:+ (" " +:+ "(choice)")).
      rewrite <- sapp_assoc, drop_last_app, (strip_app_space lbl Hs Hne). reflexivity.
  - intros Ht. split.
    + apply (suggested_header_in qs q); [exact Hq|].
      unfold suggested_header. rewrite Ht. left. reflexivity.
    + unfold parse_row_types. cbn [fold_left parse_cell fst snd].
      rewrite (multi_header_stripped lbl Hs Hne), Hv, Hm.
      rewrite (proj2 (is_empty_false _) (app_not_empty lbl " (multi)" Hne)). cbn [orb].
      destruct (endswith (lower (lbl +:+ " (multi)")) "(choice)") eqn:Hx.
      { exfalso. apply endswith_lower_iff in Hx as [pre Hx].
        apply endswith_lower_iff in Hm as [pre' Hm'].
        exact (choice_multi_exclusive _ _ _ Hx Hm'). }
      change (lbl +:+ " (multi)") with (lbl +:+ (" " +:+ "(multi)")).
      rewrite <- sapp_assoc, drop_last_app, (strip_app_space lbl Hs Hne). reflexivity.
  - intros Ht. split.
    + apply (suggested_header_in qs q); [exact Hq|].
      unfold suggested_header. destruct Ht as [-> | ->]; left; reflexivity.
    + intros Hx Hy. unfold parse_row_types. cbn [fold_left parse_cell fst snd].
      fold lbl in Hs. rewrite Hs, Hv, Hx, Hy.
      rewrite (proj2 (is_empty_false lbl) Hne). reflexivity.
Qed.

Lemma template_headers_parse_back_witness :
  In ("Colour (choice)") (fst (template [Question "Name" "text" []; Question "Colour" "choice" ["Red"; "Blue"]])) /\
  parse_row_types [("Colour (choice)", Some " Blue ")] = (∅, {["Colour" := "Blue"]}, ∅).
Proof.
  apply (template_headers_parse_back
           [Question "Name" "text" []; Question "Colour" "choice" ["Red"; "Blue"]]
           (Question "Colour" "choice" ["Red"; "Blue"]) " Blue ").
  - right. left. reflexivity.
  - reflexivity.
  - discriminate.
  - discriminate.
  - reflexivity.
Defined.

(** ** Radio buttons *)

Lemma startswith_refl (s : string) : startswith s s = true.
Proof. induction s as [|c s IH]; [reflexivity|]. simpl. rewrite Ascii.eqb_refl. exact IH. Qed.

Lemma contains_refl (s : string) : contains s s = true.
Proof. destruct s; [reflexivity|]. cbn [contains]. rewrite startswith_refl. reflexivity. Qed.

Lemma radio_queries_well_formed (opt : string) :
  well_formed (radio_exact opt) = true /\ well_formed (radio_containing opt) = true.
Proof.
  unfold well_formed, radio_exact, radio_containing. cbn [q_conds forallb cond_lit].
  rewrite string_value_xpath_literal. split; reflexivity.
Qed.

Lemma is_div (e : path * node) :
  existsb (String.eqb (node_tag (snd e))) ["div"] = true <-> node_tag (snd e) = "div".
Proof.
  cbn [existsb]. rewrite orb_false_r. apply String.eqb_eq.
Qed.

Lemma has_role_radio (e : path * node) :
  holds (AttrEq "role" "'radio'") e = true <-> node_attr "role" (snd e) = Some "radio".
Proof.
  cbn [holds]. change (lit_value "'radio'") with "radio".
  destruct (node_attr "role" (snd e)) as [v|]; [|split; discriminate].
  rewrite String.eqb_eq. split; congruence.
Qed.

Lemma radio_containing_selects (pg : page) (opt : string) (e : path * node) :
  located pg (radio_containing opt) e <-> radio_for pg opt e.
Proof.
  unfold located, radio_for, selects, radio_containing. cbn [q_tags q_conds forallb].
  rewrite andb_true_r, !andb_true_iff, is_div, has_role_radio.
  cbn [holds]. rewrite lit_value_xpath_literal. unfold aria_label. tauto.
Qed.

Lemma radio_exact_selects (pg : page) (opt : string) (e : path * node) :
  located pg (radio_exact opt) e -> radio_for pg opt e.
Proof.
  unfold located, radio_for, selects, radio_exact. cbn [q_tags q_conds forallb].
  rewrite andb_true_r, !andb_true_iff, is_div, has_role_radio.
  cbn [holds]. rewrite lit_value_xpath_literal. unfold aria_label.
  intros (Hin & Hd & Hr & Ha). repeat split; auto.
  destruct (node_attr "aria-label" (snd e)) as [v|]; [|discriminate].
  apply String.eqb_eq in Ha as ->. apply contains_refl.
Qed.

(** X12. [select_radio] clicks one radio button whose label contains the option
    and returns [True], or finds that the page has no such button, clicks
    nothing and returns [False].  It never clicks twice and never clicks
    anything but such a radio button. *)
Theorem select_radio_clicks_a_matching_radio (pg : page) (question_label opt : string) :
  (exists e, radio_for pg opt e /\
             select_radio pg question_label opt = Ok (true, [Click (fst e)])) \/
  ((forall e, ~ radio_for pg opt e) /\
   select_radio pg question_label opt = Ok (false, [])).
Proof.
  unfold select_radio, find_radio. fold (radio_exact opt). fold (radio_containing opt).
  destruct (radio_queries_well_formed opt) as [W1 W2].
  destruct (find_in_question_container_spec pg question_label _ W1) as (r & -> & Hr).
  cbn [Py.bind]. destruct r as [el|].
  { left. exists el. split; [|reflexivity]. apply radio_exact_selects, Hr. reflexivity. }
  rewrite (find_element_spec pg _ W1). cbn [Py.bind].
  destruct (head (List.filter (selects (radio_exact opt)) _)) as [el|] eqn:E.
  { left. exists el. split; [|reflexivity]. apply radio_exact_selects.
    apply head_filter_some in E. exact E. }
  rewrite (find_element_spec pg _ W2).
  destruct (head (List.filter (selects (radio_containing opt)) _)) as [el|] eqn:E2.
  { left. exists el. split; [|reflexivity]. apply radio_containing_selects.
    apply head_filter_some in E2. exact E2. }
  right. split; [|reflexivity]. intros e He.
  apply radio_containing_selects in He as [Hin Hsel].
  destruct (head_filter_exists _ _ _ Hin Hsel) as [y Hy]. congruence.
Qed.

(** ** The buttons of [submit_form] *)

Lemma click_button_by_text_clicked (browser : Type)
    (wait_and_click : browser -> Z -> string -> bool * browser)
    (texts : list string) (timeout : Z) (st : browser) :
  let '(_, ok, clicked) := click_button_by_text browser wait_and_click st texts timeout in
  (ok = false /\ clicked = []) \/
  (ok = true /\ exists t, In t texts /\ clicked = [button_xpath t]).
Proof.
  revert st. induction texts as [|t rest IH]; intros st; [left; auto|].
  cbn [click_button_by_text].
  destruct (wait_and_click st timeout (button_xpath t)) as [[|] st'].
  - right. split; [reflexivity|]. exists t. split; [left|]; reflexivity.
  - specialize (IH st').
    destruct (click_button_by_text browser wait_and_click st' rest timeout) as [[st'' ok] cl].
    destruct IH as [H|(H & t' & Hin & Hc)]; [left; exact H|].
    right. split; [exact H|]. exists t'. split; [right; exact Hin|exact Hc].
Qed.

(** X13. Whatever the pages of the form do, [submit_form] clicks "Next" or
    "Continue" at most five times and "Submit" or "Send" at most once, and
    a click on "Submit" or "Send" is its last click. *)
Theorem submit_form_clicks (browser : Type)
    (wait_and_click : browser -> Z -> string -> bool * browser) (st : browser) :
  exists nexts last,
    snd (submit_form browser wait_and_click st) = nexts ++ last /\
    length nexts <= 5 /\
    Forall (fun x => x = button_xpath "Next" \/ x = button_xpath "Continue") nexts /\
    (last = [] \/ last = [button_xpath "Submit"] \/ last = [button_xpath "Send"]).
Proof.
  unfold submit_form. generalize 5 as n. intros n. revert st.
  assert (Hfinal : forall st,
    let last := snd (final_attempt browser wait_and_click st) in
    last = [] \/ last = [button_xpath "Submit"] \/ last = [button_xpath "Send"]).
  { intros st0. unfold final_attempt.
    pose proof (click_button_by_text_clicked browser wait_and_click ["Submit"; "Send"] 5 st0)
      as H.
    destruct (click_button_by_text browser wait_and_click st0 ["Submit"; "Send"] 5)
      as [[st' ok] cl].
    cbn [snd]. destruct H as [[_ ->]|(_ & t & Hin & ->)]; [left; reflexivity|].
    destruct Hin as [<-|[<-|[]]]; auto. }
  induction n as [|n IH]; intros st.
  - exists [], (snd (final_attempt browser wait_and_click st)).
    split; [reflexivity|]. split; [simpl; lia|]. split; [constructor|apply Hfinal].
  - cbn [submit_rounds].
    pose proof (click_button_by_text_clicked browser wait_and_click ["Submit"; "Send"] 5 st)
      as H1.
    destruct (click_button_by_text browser wait_and_click st ["Submit"; "Send"] 5)
      as [[st1 ok1] cl1].
    destruct H1 as [[-> ->]|(-> & t & Hin & ->)].
    + pose proof (click_button_by_text_clicked browser wait_and_click
                    ["Next"; "Continue"] 5 st1) as H2.
      destruct (click_button_by_text browser wait_and_click st1 ["Next"; "Continue"] 5)
        as [[st2 ok2] cl2].
      destruct H2 as [[-> ->]|(-> & t & Hin & ->)].
      * exists [], (snd (final_attempt browser wait_and_click st2)).
        split; [reflexivity|]. split; [simpl; lia|]. split; [constructor|apply Hfinal].
      * destruct (IH st2) as (nexts & last & E & Hl & Hn & Hlast).
        destruct (submit_rounds browser wait_and_click n st2) as [st3 cl3].
        cbn [snd] in *. subst cl3.
        exists (button_xpath t :: nexts), last.
        split; [reflexivity|]. split; [simpl; lia|]. split; [|exact Hlast].
        constructor; [|exact Hn]. destruct Hin as [<-|[<-|[]]]; auto.
    + exists [], [button_xpath t].
      split; [reflexivity|]. split; [simpl; lia|]. split; [constructor|].
      destruct Hin as [<-|[<-|[]]]; auto.
Qed.

(** ** The questions the inspector extracts *)

Lemma collect_aria_labels_stripped (container : path * node) (role : string) :
  Forall (fun o => o <> "" /\ strip o = o) (_collect_aria_labels container role).
Proof.
  unfold _collect_aria_labels.
  destruct (find_elements_in container _) as [els|e]; [|constructor].
  apply List.Forall_forall. intros o Ho. apply in_map_iff in Ho as (l & <- & Hl).
  apply filter_In in Hl as [_ Hl]. apply andb_true_iff in Hl as [_ Hl].
  apply negb_true_iff, is_empty_false in Hl. split; [exact Hl|apply strip_idempotent].
Qed.

Lemma first_in_containers_returns (inner : query) (cs : list (path * node)) :
  well_formed inner = true -> exists r, first_in_containers cs inner = Ok r.
Proof.
  intros W. induction cs as [|c cs IH]; [eexists; reflexivity|].
  cbn [first_in_containers]. unfold find_element_in, find_elements_in. rewrite W.
  cbn [Py.bind]. destruct (head _); [eexists; reflexivity|exact IH].
Qed.

Lemma first_text_returns (visible_text : path -> string) (el : path * node) :
  exists t, _first_text visible_text el heading_paths = Ok t.
Proof.
  unfold heading_paths. cbn [_first_text find_rel].
  unfold find_element_in, find_elements_in.
  change (well_formed (Query ["div"] [AttrEq "role" "'heading'"])) with true.
  cbn [Py.bind].
  destruct (first_in_containers_returns (Query ["span"] [])
              (List.filter (selects (Query ["div"] [AttrEq "role" "'heading'"]))
                 (descendants (fst el) (snd el))) eq_refl) as [r ->].
  cbn [Py.bind].
  assert (exists t,
    match head (List.filter (selects (Query ["div"] [AttrEq "role" "'heading'"]))
                  (descendants (fst el) (snd el))) with
    | Some f => if is_empty (_text visible_text f) then Ok "" else Ok (_text visible_text f)
    | None => Ok ""
    end = Ok t) as H.
  { destruct (head _) as [f|]; [|eexists; reflexivity].
    destruct (is_empty (_text visible_text f)); eexists; reflexivity. }
  destruct r as [f|]; [|exact H].
  destruct (is_empty (_text visible_text f)); [exact H|eexists; reflexivity].
Qed.

Lemma question_of_well_shaped (visible_text : path -> string) (idx : N) (item : path * node) :
  exists q, question_of visible_text idx item = Ok q /\ well_shaped q.
Proof.
  unfold question_of, find_elements_in, find_element_in.
  change (well_formed (Query ["textarea"] [])) with true.
  change (well_formed (Query ["input"] [])) with true.
  change (well_formed any_text_control) with true.
  cbn [Py.bind].
  destruct (first_text_returns visible_text item) as [t ->]. cbn [Py.bind].
  pose proof (collect_aria_labels_stripped item "radio") as Hr.
  pose proof (collect_aria_labels_stripped item "checkbox") as Hc.
  match goal with
  | |- context [Py.bind (if ?c then ?a else ?b) _] =>
      assert (exists l, (if c then a else b) = Ok l) as [l ->]
        by (destruct c; eexists; reflexivity)
  end.
  cbn [Py.bind].
  set (label := strip (if is_empty l then "Question " +:+ str_of_N idx else l)).
  assert (Hl : strip label = label) by apply strip_idempotent.
  destruct (_collect_aria_labels item "radio") as [|r rs] eqn:Er.
  2:{ eexists. split; [reflexivity|]. unfold well_shaped. cbn.
      repeat split; auto; try congruence; try discriminate. }
  destruct (_collect_aria_labels item "checkbox") as [|c cs] eqn:Ec.
  2:{ eexists. split; [reflexivity|]. unfold well_shaped. cbn.
      repeat split; auto; try congruence; try discriminate. }
  destruct (List.filter (selects (Query ["textarea"] [])) _) as [|x xs].
  2:{ eexists. split; [reflexivity|]. unfold well_shaped. cbn.
      repeat split; auto; try congruence; try discriminate. }
  destruct (List.filter (selects (Query ["input"] [])) _) as [|y ys].
  2:{ eexists. split; [reflexivity|]. unfold well_shaped. cbn.
      repeat split; auto 6; try congruence; try discriminate. }
  eexists. split; [reflexivity|]. unfold well_shaped. cbn.
  destruct (listboxes item); repeat split; auto 6; try congruence; try discriminate.
Qed.

Lemma questions_from_well_shaped (visible_text : path -> string)
    (items : list (path * node)) (idx : N) :
  exists qs, questions_from visible_text idx items = Ok qs /\
             length qs = length items /\ Forall well_shaped qs.
Proof.
  revert idx. induction items as [|item rest IH]; intros idx.
  - exists []. repeat split. constructor.
  - cbn [questions_from].
    destruct (question_of_well_shaped visible_text idx item) as (q & -> & Hq).
    destruct (IH (idx + 1)%N) as (qs & -> & Hlen & Hqs).
    exists (q :: qs). cbn [Py.bind length]. repeat split; [congruence|constructor; auto].
Qed.

(** X14. On every page, once the form is ready, and whatever text the browser
    renders, the inspector returns one question for each list item of the
    page, in order, and
    every question is well shaped: its label is stripped, its type is one
    of [choice], [multi], [paragraph], [text] and [unknown], its options
    are non-empty stripped labels, and only [choice] and [multi] questions
    have options. *)
Theorem extract_form_questions_well_shaped (visible_text : path -> string) (pg : page) :
  exists qs,
    extract_form_questions visible_text pg = Ok qs /\
    length qs = length (list_items pg) /\
    Forall well_shaped qs.
Proof.
  unfold extract_form_questions, find_elements, list_items.
  change (well_formed (Query ["div"] [AttrEq "role" "'listitem'"])) with true.
  cbn [Py.bind]. apply questions_from_well_shaped.
Qed.

(** ** Examples: the inspector and the buttons *)

Example extract_form_questions_sample :
  extract_form_questions three_questions_text three_questions_page
  = Ok [Question "Colour" "choice" ["Red"; "Blue"];
        Question "Comments" "paragraph" [];
        Question "Question 3" "choice" []].
Proof. vm_compute. reflexivity. Qed.

Example template_sample :
  fst (template [Question "Colour" "choice" ["Red"; "Blue"];
                 Question "Comments" "paragraph" [];
                 Question "Days" "multi" ["Mon"; "Tue"; "Wed"];
                 Question "Upload" "unknown" []])
  = ["Colour (choice)"; "Comments"; "Days (multi)"] /\
  snd (template [Question "Colour" "choice" ["Red"; "Blue"];
                 Question "Comments" "paragraph" [];
                 Question "Days" "multi" ["Mon"; "Tue"; "Wed"];
                 Question "Upload" "unknown" []])
  = <["Days (multi)" := "Mon; Tue"]>
      (<["Comments" := "Sample Comments"]> (<["Colour (choice)" := "Red"]> ∅)).
Proof. split; vm_compute; reflexivity. Qed.

(** A text question whose label ends with [(choice)] is read back as a
    radio field. *)
Example template_label_with_suffix :
  fst (template [Question "Your (choice)" "text" []]) = ["Your (choice)"] /\
  parse_row_types [("Your (choice)", Some "x")] = (∅, {["Your" := "x"]}, ∅).
Proof. split; vm_compute; reflexivity. Qed.

Example select_radio_sample :
  select_radio three_questions_page "Colour" "Blue" = Ok (true, [Click [0; 2]]) /\
  select_radio three_questions_page "Colour" "Green" = Ok (false, []).
Proof. split; vm_compute; reflexivity. Qed.

Example submit_form_three_pages :
  submit_form nat (paged_form 3) 0
  = (3, [button_xpath "Next"; button_xpath "Next"; button_xpath "Submit"]).
Proof. vm_compute. reflexivity. Qed.

(** On a form of seven pages the five rounds are used up before "Submit"
    shows: the form is left on its sixth page, not submitted. *)
Example submit_form_seven_pages :
  submit_form nat (paged_form 7) 0
  = (5, [button_xpath "Next"; button_xpath "Next"; button_xpath "Next";
         button_xpath "Next"; button_xpath "Next"]).
Proof. vm_compute. reflexivity. Qed.

End InspectorProperties.

(** ** Characters and slices *)

Lemma has_char_lstrip (c : ascii) (s : string) :
  has_char c s = false -> has_char c (lstrip s) = false.
Proof.
  induction s as [|d s IH]; [auto|]. simpl. intros H.
  apply orb_false_iff in H as [Hd Hs].
  destruct (isspace d); [auto|]. simpl. rewrite Hd, Hs. reflexivity.
Qed.

Lemma has_char_rstrip (c : ascii) (s : string) :
  has_char c s = false -> has_char c (rstrip s) = false.
Proof.
  induction s as [|d s IH]; [auto|]. simpl. intros H.
  apply orb_false_iff in H as [Hd Hs].
  destruct (isspace d && is_empty (rstrip s)); [reflexivity|].
  simpl. rewrite Hd, (IH Hs). reflexivity.
Qed.

Lemma has_char_strip (c : ascii) (s : string) :
  has_char c s = false -> has_char c (strip s) = false.
Proof. intros H. apply has_char_rstrip, has_char_lstrip, H. Qed.

Lemma substring_0_length (s : string) : String.substring 0 (String.length s) s = s.
Proof. induction s as [|c s IH]; [reflexivity|]. simpl. rewrite IH. reflexivity. Qed.

Lemma substring_0_length_le (n : nat) (s : string) :
  n <= String.length s -> String.length (String.substring 0 n s) = n.
Proof.
  revert s. induction n as [|n IH]; intros [|c s] H; simpl in *; try reflexivity; try lia.
  rewrite IH by lia. reflexivity.
Qed.

(** ** The answer of the model and the summary of the form *)

Section FormSummaryProperties.
Import GeminiParser.

Lemma after_first_no_backquote (s : string) :
  has_char "`" s = false -> after_first "```" s = None.
Proof.
  induction s as [|c s IH]; [reflexivity|]. simpl. intros H.
  apply orb_false_iff in H as [Hc Hs]. rewrite Hc. simpl. exact (IH Hs).
Qed.

Lemma find_char_none (c : ascii) (s : string) :
  has_char c s = false -> find_char c s = None.
Proof.
  induction s as [|d s IH]; [reflexivity|]. simpl. intros H.
  apply orb_false_iff in H as [Hc Hs]. rewrite Hc, (IH Hs). reflexivity.
Qed.

(** X15. A text with no brace and no back quote holds no JSON object:
    [_extract_json_text] raises [ValueError], with the message for an empty
    text when the text is empty. *)
Theorem extract_json_text_without_brace (txt : string) :
  has_char "{" txt = false -> has_char "`" txt = false ->
  _extract_json_text txt
  = Raise (ValueError (if is_empty txt then "Empty response text"
                       else "No JSON object found in model output")).
Proof.
  intros Hb Hq. unfold _extract_json_text.
  destruct (is_empty txt); [reflexivity|].
  unfold fence_group. rewrite (after_first_no_backquote _ (has_char_strip _ _ Hq)).
  unfold object_to_end.
  rewrite (find_char_none _ _ (has_char_rstrip _ _ (has_char_strip _ _ Hb))).
  rewrite (find_char_none _ _ (has_char_strip _ _ Hb)).
  destruct (endswith (rstrip (strip txt)) "}"); reflexivity.
Qed.

Lemma extract_json_text_without_brace_witness :
  _extract_json_text "I cannot map this form."
  = Raise (ValueError "No JSON object found in model output").
Proof.
  apply (extract_json_text_without_brace "I cannot map this form."); reflexivity.
Defined.

(** X16. A JSON object with white space around it and no code fence is
    returned as it is, without the white space. *)
Theorem extract_json_text_bare_object (txt : string) :
  startswith (strip txt) "{" = true -> endswith (strip txt) "}" = true ->
  has_char "`" txt = false ->
  _extract_json_text txt = Ok (strip txt).
Proof.
  intros Hs He Hq. unfold _extract_json_text.
  destruct txt as [|c t] eqn:E; [discriminate|]. rewrite <- E in *. cbn [is_empty].
  assert (is_empty txt = false) as -> by (rewrite E; reflexivity).
  unfold fence_group. rewrite (after_first_no_backquote _ (has_char_strip _ _ Hq)).
  unfold object_to_end.
  assert (Hr : rstrip (strip txt) = strip txt) by (unfold strip; apply rstrip_idempotent).
  rewrite Hr, He.
  destruct (strip txt) as [|d s] eqn:Es; [discriminate|].
  cbn [startswith] in Hs. apply andb_true_iff in Hs as [Hd _].
  cbn [find_char]. rewrite Hd. rewrite substring_0_length. reflexivity.
Qed.

Lemma extract_json_text_bare_object_witness :
  _extract_json_text "  {'fields': []}  " = Ok "{'fields': []}".
Proof.
  apply (extract_json_text_bare_object "  {'fields': []}  "); reflexivity.
Defined.

(** ** Dates and times of the fallback mapping *)



(** ** The configuration [call_gemini] returns *)

Lemma fallback_config_has_fields (url : string) (summary : list descriptor)
    (basic : gmap string pyval) (cfg : pyval) :
  _fallback_config url summary basic = Ok cfg ->
  has_fields_list cfg = true /\
  exists d, cfg = PDict d /\ dict_get "form_url" d = Some (PStr url).
Proof.
  unfold _fallback_config. destruct (fallback_fields basic summary) as [fields|e];
    [|discriminate].
  cbn [Py.bind]. intros H. injection H as <-. split; [reflexivity|].
  eexists. split; reflexivity.
Qed.

Lemma call_gemini_has_fields (w : world) (url : string) (summary : list descriptor)
    (basic : gmap string pyval) (cfg : pyval) :
  call_gemini w url summary basic = Ok cfg -> has_fields_list cfg = true.
Proof.
  unfold call_gemini. intros H.
  assert (F : _fallback_config url summary basic = Ok cfg -> has_fields_list cfg = true)
    by (intros F; apply (fallback_config_has_fields _ _ _ _ F)).
  destruct (api w) as [[|c k]|]; [exact (F H)| |exact (F H)].
  destruct (generate w) as [e|resp]; [exact (F H)|].
  destruct (_extract_json_text (response_text resp)) as [jtxt|e]; cbn [Py.bind] in H;
    [|exact (F H)].
  destruct (json_loads w jtxt) as [data|]; [|exact (F H)].
  destruct (has_fields_list data) eqn:E.
  - injection H as <-. exact E.
  - destruct (_fallback_config url summary basic) as [c'|e'] eqn:E'; [|discriminate].
    injection H as <-. apply (fallback_config_has_fields _ _ _ _ E').
Qed.

(** X18. Whatever the model answers, a configuration [call_gemini] returns is
    a dictionary with a list under [fields]: the answer of the model when
    it is one, the fallback configuration otherwise. *)
Theorem call_gemini_returns_fields (w : world) (url : string) (summary : list descriptor)
    (basic : gmap string pyval) (cfg : pyval) :
  call_gemini w url summary basic = Ok cfg ->
  has_fields_list cfg = true /\
  (_fallback_config url summary basic = Ok cfg \/
   exists resp jtxt,
     generate w = GenerateReturns resp /\
     _extract_json_text (response_text resp) = Ok jtxt /\
     json_loads w jtxt = Some cfg).
Proof.
  intros H. split; [exact (call_gemini_has_fields _ _ _ _ _ H)|].
  unfold call_gemini in H.
  destruct (api w) as [[|c k]|]; [left; exact H| |left; exact H].
  destruct (generate w) as [e|resp]; [left; exact H|].
  destruct (_extract_json_text (response_text resp)) as [jtxt|e] eqn:Ex; cbn [Py.bind] in H;
    [|left; exact H].
  destruct (json_loads w jtxt) as [data|] eqn:Ej; [|left; exact H].
  destruct (has_fields_list data) eqn:E.
  - injection H as <-. right. exists resp, jtxt. auto.
  - left. destruct (_fallback_config url summary basic); [exact H|discriminate].
Qed.

Lemma call_gemini_returns_fields_witness :
  has_fields_list (PDict [("fields", PList [])]) = true.
Proof.
  apply (call_gemini_returns_fields (answering_world "{}" (PDict [("fields", PList [])]))
           "https://docs.google.com/forms/d/e/x/viewform" [] ∅ (PDict [("fields", PList [])])).
  reflexivity.
Defined.

Lemma dict_set_keys {V} (k : string) (v : V) (d : list (string * V)) :
  forall k', List.In k' (List.map fst (dict_set k v d)) <->
             k' = k \/ List.In k' (List.map fst d).
Proof.
  intros k'. induction d as [|[k0 v0] d IH]; simpl.
  - intuition congruence.
  - destruct (String.eqb_spec k k0) as [->|Hne]; simpl; [intuition congruence|].
    rewrite IH. tauto.
Qed.

Lemma dict_get_form_url (k : string) (v : pyval) (d : list (string * pyval)) :
  dict_get k (dict_set k v d) = Some v.
Proof.
  induction d as [|[k0 v0] d IH]; simpl.
  - rewrite String.eqb_refl. reflexivity.
  - destruct (String.eqb k k0) eqn:E; simpl; rewrite E; [reflexivity|exact IH].
Qed.

Lemma dict_get_other (k k' : string) (v : pyval) (d : list (string * pyval)) :
  k' <> k -> dict_get k' (dict_set k v d) = dict_get k' d.
Proof.
  intros Hne. induction d as [|[k0 v0] d IH]; simpl.
  - apply String.eqb_neq in Hne. rewrite Hne. reflexivity.
  - destruct (String.eqb_spec k k0) as [->|Hk]; simpl.
    + apply String.eqb_neq in Hne. rewrite Hne. reflexivity.
    + rewrite IH. reflexivity.
Qed.

(** X19. [build_config_from_gemini] returns whenever [call_gemini] does: the
    assignment of the URL cannot fail, because what [call_gemini] returns is
    a dictionary.  The configuration it returns has the URL asked for under
    [form_url], whatever URL the model put there, and still a list under
    [fields]. *)
Theorem build_config_sets_form_url (w : world) (url : string) (summ : list descriptor)
    (basic : gmap string pyval) :
  match call_gemini w url summ basic with
  | Ok _ =>
      exists d, build_config_from_gemini w url summ basic = Ok (PDict d) /\
                dict_get "form_url" d = Some (PStr url) /\
                has_fields_list (PDict d) = true
  | Raise e => build_config_from_gemini w url summ basic = Raise e
  end.
Proof.
  unfold build_config_from_gemini.
  destruct (call_gemini w url summ basic) as [cfg|e] eqn:E; [|reflexivity].
  pose proof (call_gemini_has_fields _ _ _ _ _ E) as Hf. cbn [Py.bind].
  destruct cfg as [| | | | |d]; try discriminate.
  eexists. split; [reflexivity|]. split; [apply dict_get_form_url|].
  cbn [has_fields_list] in *. rewrite dict_get_other by discriminate. exact Hf.
Qed.

(** ** The array of [FB_PUBLIC_LOAD_DATA_] *)

Lemma substring_0_all (m : nat) (s : string) :
  String.length s <= m -> String.substring 0 m s = s.
Proof.
  revert m. induction s as [|c s IH]; intros [|m] H; simpl in *; try reflexivity; try lia.
  rewrite IH by lia. reflexivity.
Qed.

Lemma substring_is_suffix (n m : nat) (s : string) :
  String.length s <= n + m -> exists p, s = p +:+ String.substring n m s.
Proof.
  revert s. induction n as [|n IH]; intros s H.
  - exists "". rewrite substring_0_all by lia. reflexivity.
  - destruct s as [|c s]; [exists ""; reflexivity|].
    simpl in H. destruct (IH s) as [p Hp]; [lia|].
    exists (String c p). rewrite sapp_cons. simpl. rewrite <- Hp. reflexivity.
Qed.

Lemma lstrip_is_suffix (s : string) : exists p, s = p +:+ lstrip s.
Proof.
  induction s as [|c s [p IH]]; [exists ""; reflexivity|].
  simpl. destruct (isspace c); [|exists ""; reflexivity].
  exists (String c p). rewrite sapp_cons, <- IH. reflexivity.
Qed.

Lemma after_assignment_spec (s r : string) :
  after_assignment s = Some r ->
  (exists p, s = p +:+ r) /\ startswith r "[" = true.
Proof.
  unfold after_assignment. destruct (lstrip_is_suffix s) as [p1 H1].
  destruct (lstrip s) as [|c t]; [discriminate|].
  destruct (Ascii.eqb_spec c "=") as [->|Hc];
    [|repeat (destruct c as [[] [] [] [] [] [] [] []]; try discriminate); congruence].
  destruct (lstrip_is_suffix t) as [p2 H2].
  destruct (lstrip t) as [|d u]; [discriminate|].
  destruct (Ascii.eqb_spec d "[") as [->|Hd];
    [|repeat (destruct d as [[] [] [] [] [] [] [] []]; try discriminate); congruence].
  intros H. injection H as <-. split; [|reflexivity].
  exists (p1 +:+ "=" +:+ p2). rewrite H1, H2. snorm. reflexivity.
Qed.

Lemma find_load_data_spec (html r : string) :
  find_load_data html = Some r ->
  (exists p, html = p +:+ r) /\ startswith r "[" = true.
Proof.
  induction html as [|c html IH].
  - cbn [find_load_data startswith]. discriminate.
  - cbn [find_load_data].
    destruct (if startswith (String c html) "FB_PUBLIC_LOAD_DATA_"
              then after_assignment
                     (String.substring 20 (String.length (String c html)) (String c html))
              else None) as [r'|] eqn:E.
    + intros H. injection H as ->.
      destruct (startswith (String c html) "FB_PUBLIC_LOAD_DATA_"); [|discriminate].
      apply after_assignment_spec in E as [[p Hp] Hs]. split; [|exact Hs].
      destruct (substring_is_suffix 20 (String.length (String c html)) (String c html))
        as [p0 Hp0]; [lia|].
      exists (p0 +:+ p). rewrite Hp0 at 1. rewrite Hp. snorm. reflexivity.
    + intros H. destruct (IH H) as [[p Hp] Hs]. split; [|exact Hs].
      exists (String c p). rewrite sapp_cons, <- Hp. reflexivity.
Qed.

Lemma substring_0_nil (m : nat) : String.substring 0 m "" = "".
Proof. destruct m; reflexivity. Qed.

Lemma substring_0_0 (s : string) : String.substring 0 0 s = "".
Proof. destruct s; reflexivity. Qed.

Lemma endswith_cons (c : ascii) (s suf : string) :
  endswith s suf = true -> endswith (String c s) suf = true.
Proof. intros H. cbn [endswith]. rewrite H. apply orb_true_r. Qed.

Lemma bracket_end_spec (s : string) (c : Z) :
  (0 < c)%Z ->
  match bracket_end c s with
  | Some n =>
      0 < n <= String.length s /\
      (c + depth (String.substring 0 n s) = 0)%Z /\
      endswith (String.substring 0 n s) "]" = true /\
      forall m, m < n -> (0 < c + depth (String.substring 0 m s))%Z
  | None => forall m, (0 < c + depth (String.substring 0 m s))%Z
  end.
Proof.
  revert c. induction s as [|ch s IH]; intros c Hc.
  - cbn [bracket_end]. intros m. rewrite substring_0_nil. simpl. lia.
  - cbn [bracket_end].
    assert (Step : forall c' (delta : Z),
      (0 < c')%Z -> (c' = c + delta)%Z ->
      depth (String ch "") = delta ->
      match option_map S (bracket_end c' s) with
      | Some n =>
          0 < n <= String.length (String ch s) /\
          (c + depth (String.substring 0 n (String ch s)) = 0)%Z /\
          endswith (String.substring 0 n (String ch s)) "]" = true /\
          forall m, m < n -> (0 < c + depth (String.substring 0 m (String ch s)))%Z
      | None => forall m, (0 < c + depth (String.substring 0 m (String ch s)))%Z
      end).
    { intros c' delta Hc' Hd Hch. specialize (IH c' Hc').
      assert (Hdepth : forall x, depth (String ch x) = (delta + depth x)%Z).
      { intros x. simpl in *. lia. }
      destruct (bracket_end c' s) as [n|]; cbn [option_map].
      - destruct IH as (Hn & Hz & He & Hm). cbn [String.substring String.length].
        split; [lia|]. split; [rewrite Hdepth; lia|].
        split; [apply endswith_cons, He|].
        intros [|m] Hlt; [simpl; lia|].
        cbn [String.substring]. rewrite Hdepth. specialize (Hm m). lia.
      - intros [|m]; [simpl; lia|].
        cbn [String.substring]. rewrite Hdepth. specialize (IH m). lia. }
    destruct (Ascii.eqb ch "[") eqn:E1.
    { apply (Step (c + 1)%Z 1%Z); [lia|lia|]. simpl. rewrite E1. reflexivity. }
    destruct (Ascii.eqb ch "]") eqn:E2.
    { destruct (c - 1 =? 0)%Z eqn:E3.
      - apply Z.eqb_eq in E3. apply Ascii.eqb_eq in E2. subst ch.
        cbn [String.substring String.length]. rewrite (substring_0_0 s).
        split; [lia|]. split; [simpl; lia|]. split; [reflexivity|].
        intros m Hm. assert (m = 0) as -> by lia. simpl. lia.
      - apply Z.eqb_neq in E3.
        apply (Step (c - 1)%Z (-1)%Z); [lia|lia|]. simpl. rewrite E1, E2. reflexivity. }
    apply (Step c 0%Z); [lia|lia|]. simpl. rewrite E1, E2. reflexivity.
Qed.

(** X20. The text handed to [json.loads] is cut out of the page at the first
    bracket after [FB_PUBLIC_LOAD_DATA_ =] and runs to the bracket that
    closes it: its square brackets are balanced, it ends with a closing
    bracket, and no shorter piece is balanced.  When no bracket closes the
    first one, nothing is cut out.  (Brackets are counted wherever they
    stand, inside JSON strings too.) *)
Theorem load_data_slice_is_balanced (html from_start : string) :
  find_load_data html = Some from_start ->
  (exists before, html = before +:+ from_start) /\
  startswith from_start "[" = true /\
  match bracket_end 0 from_start with
  | Some n =>
      let jtxt := String.substring 0 n from_start in
      String.length jtxt = n /\ depth jtxt = 0%Z /\ endswith jtxt "]" = true /\
      forall m, 0 < m < n -> (0 < depth (String.substring 0 m from_start))%Z
  | None => forall m, 0 < m -> (0 < depth (String.substring 0 m from_start))%Z
  end.
Proof.
  intros H. destruct (find_load_data_spec html from_start H) as [Hp Hs].
  split; [exact Hp|]. split; [exact Hs|].
  destruct from_start as [|c r]; [discriminate|].
  cbn [startswith] in Hs. apply andb_true_iff in Hs as [Hc _].
  apply Ascii.eqb_eq in Hc. subst c.
  change (bracket_end 0 (String "[" r)) with (option_map S (bracket_end 1 r)).
  pose proof (bracket_end_spec r 1 ltac:(lia)) as B.
  destruct (bracket_end 1 r) as [n|]; cbn [option_map].
  - destruct B as (Hn & Hz & He & Hm). cbv zeta. cbn [String.substring].
    split; [cbn [String.length]; rewrite substring_0_length_le by lia; reflexivity|].
    split; [cbn [depth Ascii.eqb Bool.eqb andb]; lia|].
    split; [apply endswith_cons, He|].
    intros [|m] Hlt; [lia|]. cbn [String.substring depth Ascii.eqb Bool.eqb andb].
    specialize (Hm m). lia.
  - intros [|m] Hlt; [lia|]. cbn [String.substring depth Ascii.eqb Bool.eqb andb].
    specialize (B m). lia.
Qed.

Lemma load_data_slice_is_balanced_witness :
  (exists before, "var FB_PUBLIC_LOAD_DATA_ = [null,[1,[2]]];" = before +:+ "[null,[1,[2]]];") /\
  startswith "[null,[1,[2]]];" "[" = true /\
  match bracket_end 0 "[null,[1,[2]]];" with
  | Some n =>
      let jtxt := String.substring 0 n "[null,[1,[2]]];" in
      String.length jtxt = n /\ depth jtxt = 0%Z /\ endswith jtxt "]" = true /\
      forall m, 0 < m < n -> (0 < depth (String.substring 0 m "[null,[1,[2]]];"))%Z
  | None => forall m, 0 < m -> (0 < depth (String.substring 0 m "[null,[1,[2]]];"))%Z
  end.
Proof.
  apply (load_data_slice_is_balanced "var FB_PUBLIC_LOAD_DATA_ = [null,[1,[2]]];"
           "[null,[1,[2]]];").
  reflexivity.
Defined.

(** ** The fields read from the array *)

Lemma substring_length_le (n m : nat) (s : string) :
  String.length (String.substring n m s) <= m.
Proof.
  revert n m. induction s as [|c s IH]; intros [|n] [|m]; simpl; try lia.
  - specialize (IH 0 m). lia.
  - apply IH.
  - apply IH.
Qed.

Lemma tmap_types (n : Z) : In (tmap n) field_types.
Proof.
  unfold tmap, field_types.
  repeat match goal with |- context [(?a =? ?b)%Z] => destruct (a =? b)%Z end;
    simpl; tauto.
Qed.

Lemma field_type_types (qtype : pyval) (t : string) :
  field_type qtype = Ok t -> In t field_types.
Proof.
  destruct qtype as [| b|n|s|l|d]; simpl; intros H; try discriminate;
    injection H as <-; try apply tmap_types; simpl; tauto.
Qed.

Lemma option_labels_stripped (q4 : pyval) :
  Forall (fun o => o <> "" /\ strip o = o) (option_labels q4).
Proof.
  unfold option_labels.
  destruct q4 as [| | | |[|[| | | |[|x [|opts l0]]|] l]|]; try constructor.
  destruct (iterate (py_or opts (PList []))) as [items|e]; [|constructor].
  apply List.Forall_forall. intros o Ho. apply in_flat_map in Ho as (opt & _ & Ho).
  destruct opt as [| | | |[|[| | |txt| |] l1]|]; try destruct Ho.
  destruct (is_empty (strip txt)) eqn:E; [destruct Ho|].
  destruct Ho as [<-|[]]. apply is_empty_false in E. split; [exact E|apply strip_idempotent].
Qed.

Lemma question_entry_sound (q : pyval) (item : string * field_info) :
  question_entry q = Ok (Some item) -> sound_field item.
Proof.
  unfold question_entry.
  destruct q as [| | | |[|q0 [|q1 [|q2 [|qtype [|q4 l]]]]]|]; try discriminate.
  destruct (field_type qtype) as [t|e] eqn:Et; [|discriminate]. cbn [Py.bind].
  destruct (entry_of q4) as [eid|]; [|discriminate].
  destruct (is_empty eid) eqn:Ee; [discriminate|].
  intros H. injection H as <-. unfold sound_field. cbn [fst snd fi_label fi_type fi_options].
  split; [apply is_empty_false, Ee|]. split; [apply substring_length_le|].
  split; [exact (field_type_types _ _ Et)|].
  destruct (selectable t); [|split; [constructor|congruence]].
  split; [apply option_labels_stripped|reflexivity].
Qed.

Lemma dict_set_forall {V} (P : string * V -> Prop) (k : string) (v : V)
    (d : list (string * V)) :
  P (k, v) -> Forall P d -> Forall P (dict_set k v d).
Proof.
  intros Hk. induction 1 as [|[k0 v0] d H0 Hd IH]; simpl.
  - constructor; [exact Hk|constructor].
  - destruct (String.eqb_spec k k0) as [->|Hne]; constructor; auto.
Qed.

Lemma dict_set_nodup {V} (k : string) (v : V) (d : list (string * V)) :
  List.NoDup (List.map fst d) -> List.NoDup (List.map fst (dict_set k v d)).
Proof.
  induction d as [|[k0 v0] d IH]; simpl; intros H.
  - constructor; [intros []|constructor].
  - apply List.NoDup_cons_iff in H as [Hn Hd].
    destruct (String.eqb_spec k k0) as [->|Hne]; simpl.
    + constructor; assumption.
    + constructor; [|exact (IH Hd)].
      intros Hin. apply dict_set_keys in Hin as [->|Hin]; [congruence|contradiction].
Qed.

Lemma load_questions_sound (questions : list pyval) (fields : list (string * field_info)) :
  Forall sound_field fields -> List.NoDup (List.map fst fields) ->
  Forall sound_field (load_questions fields questions) /\
  List.NoDup (List.map fst (load_questions fields questions)).
Proof.
  revert fields. induction questions as [|q rest IH]; intros fields Hf Hn; [auto|].
  cbn [load_questions].
  destruct (question_entry q) as [[[eid info]|]|e] eqn:E; [| |auto].
  - apply IH; [|apply dict_set_nodup, Hn].
    apply dict_set_forall; [exact (question_entry_sound _ _ E)|exact Hf].
  - apply IH; assumption.
Qed.

Lemma insert_sorted_head (x : string) (l : list string) :
  match insert_sorted x l with
  | [] => False
  | h :: _ => h = x \/ exists t, l = h :: t
  end.
Proof.
  destruct l as [|y l]; simpl; [auto|].
  destruct (String.compare x y); eauto.
Qed.

Lemma insert_sorted_increasing (x : string) (l : list string) :
  increasing l -> increasing (insert_sorted x l).
Proof.
  induction l as [|y l IH]; intros H; [exact I|].
  cbn [insert_sorted]. destruct (String.compare x y) eqn:E.
  - exact H.
  - split; [exact E|exact H].
  - assert (Hyx : String.compare y x = Lt).
    { rewrite String.compare_antisym, E. reflexivity. }
    assert (Hl : increasing l) by (destruct l; [exact I|apply H]).
    specialize (IH Hl). pose proof (insert_sorted_head x l) as Hh.
    destruct (insert_sorted x l) as [|h t]; [exact I|].
    split; [|exact IH].
    destruct Hh as [->|[t' ->]]; [exact Hyx|apply H].
Qed.

Lemma insert_sorted_in (x : string) (l : list string) (o : string) :
  In o (insert_sorted x l) -> o = x \/ In o l.
Proof.
  induction l as [|y l IH]; simpl; [intuition congruence|].
  destruct (String.compare x y); simpl; intuition congruence.
Qed.

Lemma sorted_set_spec (l : list string) :
  increasing (sorted_set l) /\ forall o, In o (sorted_set l) -> In o l.
Proof.
  induction l as [|x l [IH1 IH2]]; [split; [exact I|auto]|].
  cbn [sorted_set fold_right]. split; [apply insert_sorted_increasing, IH1|].
  intros o Ho. apply insert_sorted_in in Ho as [->|Ho]; [left; reflexivity|right; auto].
Qed.

Lemma out_item_sound (item : string * field_info) :
  sound_field item -> sound_descriptor (out_item item).
Proof.
  intros (He & Hl & Ht & Ho & Hs). destruct (sorted_set_spec (fi_options (snd item))) as [S1 S2].
  eexists _, _, _, _. split; [reflexivity|].
  split; [exact He|]. split; [exact Hl|]. split; [exact Ht|]. split; [exact S1|].
  split.
  - rewrite List.Forall_forall in *. auto.
  - intros Hne. apply Hs. intros E. rewrite E in Hne. apply Hne. reflexivity.
Qed.

Lemma load_data_fields_sound (data : pyval) :
  let fields := match iterate (questions_of data) with
                | Ok questions => load_questions [] questions
                | Raise _ => []
                end in
  Forall sound_field fields /\ List.NoDup (List.map fst fields).
Proof.
  cbv zeta. destruct (iterate (questions_of data)) as [questions|e].
  - apply load_questions_sound; constructor.
  - split; constructor.
Qed.

(** X21. Every descriptor read from [FB_PUBLIC_LOAD_DATA_] can be addressed and
    handled downstream, whatever the array holds: it has the four keys, a
    non-empty entry id, a label of at most 200 characters, one of the seven
    types of the configuration, and options that are sorted, without
    repetition, non-empty and stripped, present only for the types
    [choice], [checkbox] and [dropdown]. *)
Theorem summarize_load_data_sound (loads : string -> option pyval) (html : string) :
  Forall sound_descriptor (summarize_load_data loads html).
Proof.
  unfold summarize_load_data.
  assert (N : Forall sound_descriptor (List.map out_item [])) by constructor.
  destruct (find_load_data html) as [from_start|]; [|exact N].
  destruct (bracket_end 0 from_start) as [n|]; [|exact N].
  destruct (loads _) as [data|]; [|exact N].
  destruct (load_data_fields_sound data) as [H _].
  apply List.Forall_forall. intros d Hd. apply in_map_iff in Hd as (item & <- & Hi).
  apply out_item_sound. rewrite List.Forall_forall in H. exact (H item Hi).
Qed.

(** X22. No two descriptors read from [FB_PUBLIC_LOAD_DATA_] have the same
    entry id: a question that repeats an entry id replaces the earlier
    one. *)
Theorem summarize_load_data_distinct_ids (loads : string -> option pyval) (html : string) :
  List.NoDup (List.map entry_id (summarize_load_data loads html)).
Proof.
  unfold summarize_load_data.
  assert (N : List.NoDup (List.map entry_id (List.map out_item []))) by constructor.
  destruct (find_load_data html) as [from_start|]; [|exact N].
  destruct (bracket_end 0 from_start) as [n|]; [|exact N].
  destruct (loads _) as [data|]; [|exact N].
  destruct (load_data_fields_sound data) as [_ H].
  rewrite List.map_map. cbn [out_item entry_id].
  rewrite <- (List.map_map fst Some).
  apply List.NoDup_map_NoDup_ForallPairs; [|exact H].
  intros a b _ _ E. congruence.
Qed.

(** ** Examples: the summary read from the array *)

Example find_load_data_sample :
  find_load_data "<script>var FB_PUBLIC_LOAD_DATA_ = [null,[2]];</script>"
  = Some "[null,[2]];</script>" /\
  bracket_end 0 "[null,[2]];</script>" = Some 10.
Proof. split; reflexivity. Qed.

(** A bracket inside a string of the array is counted like any other. *)
Example bracket_end_inside_a_string : bracket_end 0 "['a]', 1]" = Some 4.
Proof. reflexivity. Qed.

Example summarize_load_data_sample :
  summarize_load_data (fun _ => Some sample_load_data)
    "<script>var FB_PUBLIC_LOAD_DATA_ = [null,[2]];</script>"
  = [Descriptor (Some "1000") (Some "Bio") (Some "paragraph") (Some []);
     Descriptor (Some "2000") (Some "Pick") (Some "choice") (Some ["A"; "B"])].
Proof. vm_compute. reflexivity. Qed.

(** A question whose type is a list stops the loop: the questions before
    it are kept, the ones after it are lost. *)
Example load_questions_stops :
  List.map fst
    (load_questions []
       [PList [PInt 1; PStr "Name"; PNone; PInt 0; PList [PList [PInt 1000]]];
        PList [PInt 2; PStr "Odd"; PNone; PList []; PList [PList [PInt 2000]]];
        PList [PInt 3; PStr "Bio"; PNone; PInt 1; PList [PList [PInt 3000]]]])
  = ["1000"].
Proof. vm_compute. reflexivity. Qed.

Example build_config_sample :
  build_config_from_gemini
    (answering_world "{}" (PDict [("form_url", PStr "https://example.org/other");
                                  ("fields", PList [])]))
    "https://docs.google.com/forms/d/e/x/viewform" [] ∅
  = Ok (PDict [("form_url", PStr "https://docs.google.com/forms/d/e/x/viewform");
               ("fields", PList [])]).
Proof. vm_compute. reflexivity. Qed.

End FormSummaryProperties.

(** ** The log row and the exit code of a run *)

Section RunLogProperties.
Import Playwright AirtableFiller.

Lemma fill_items_well_formed (pg : page) (data : list field_data) (timeout : Z) :
  fill_items pg (List.map WellFormed data) timeout
  = match fill_all pg data timeout with
    | (Ok _, t) => (Ok true, t)
    | (Raise e, t) => (Raise e, t)
    end.
Proof.
  induction data as [|fd rest IH]; [reflexivity|].
  cbn [List.map fill_items fill_all]. rewrite IH. unfold print. cbn [bind].
  destruct (fill_value pg (fd_type fd) (fd_label fd) (fd_value fd) timeout) as [[[]|e] t1];
    [|reflexivity].
  destruct (fill_all pg rest timeout) as [[[]|e] t2]; reflexivity.
Qed.

Lemma fill_items_after (pg : page) (before : list field_data) (rest : list data_item)
    (timeout : Z) (t : list event) :
  fill_all pg before timeout = (Ok tt, t) ->
  fill_items pg (List.map WellFormed before ++ rest) timeout
  = (fst (fill_items pg rest timeout), t ++ snd (fill_items pg rest timeout)).
Proof.
  revert t. induction before as [|fd before IH]; intros t H.
  - injection H as <-. cbn [List.map app]. destruct (fill_items pg rest timeout). reflexivity.
  - cbn [List.map app fill_items]. cbn [fill_all] in H. unfold print in *. cbn [bind] in *.
    destruct (fill_value pg (fd_type fd) (fd_label fd) (fd_value fd) timeout) as [[[]|e] t1];
      [|discriminate].
    destruct (fill_all pg before timeout) as [[[]|e] t2]; [|discriminate].
    rewrite (IH t2 eq_refl). cbn [app] in H. injection H as <-.
    cbn [fst snd app]. rewrite <- app_assoc. reflexivity.
Qed.

(** X23. What the log says and how the process ends.  When [data.json] holds
    only well-formed fields, the status logged is the status of the run and
    the exit code is 0 exactly for [success].  But when [data.json] is not
    a list, or an item of it lacks one of its three keys, the run stops
    there, without filling the fields after it and without submitting, and
    ends with exit code 1 while the row it logs still says [success]. *)
Theorem main_run_log_and_exit (pg : page) (cfg : config) (timeout : Z) :
  (forall data,
     let r := fst (main_run pg cfg (Some (List.map WellFormed data)) timeout) in
     logged_status r = fst (fst (fill_and_submit pg cfg data timeout)) /\
     (exit_code r = 0%Z <-> logged_status r = "success")) /\
  main_run pg cfg None timeout
  = (RunEnd "success" 1,
     [Printed "Error: data.json must contain a list of field objects"]) /\
  (forall before after t,
     fill_all pg before timeout = (Ok tt, t) ->
     main_run pg cfg (Some (List.map WellFormed before ++ Malformed :: after)) timeout
     = (RunEnd "success" 1, t ++ [malformed_line])).
Proof.
  split; [|split].
  - intros data. cbv zeta. unfold main_run, fill_and_submit.
    rewrite fill_items_well_formed. unfold print.
    destruct (fill_all pg data timeout) as [[[]|e] t0]; cbn [bind].
    + destruct (submit pg cfg) as [[[]|e1] t1]; cbn [bind].
      * destruct (wait_for_success pg cfg timeout) as [[[]|e2] t2]; cbn [bind fst].
        -- split; [reflexivity|]. split; reflexivity.
        -- destruct e2; cbn; (split; [reflexivity|]); split; discriminate.
      * destruct e1; cbn; (split; [reflexivity|]); split; discriminate.
    + destruct e; cbn; (split; [reflexivity|]); split; discriminate.
  - reflexivity.
  - intros before after t H. unfold main_run.
    rewrite (fill_items_after pg before (Malformed :: after) timeout t H).
    cbn [fill_items bind print ret fst snd app]. rewrite app_nil_r. reflexivity.
Qed.

(** An item without its keys after a field that was filled: one fill, the
    error line, nothing submitted, status [success] and exit code 1. *)
Example main_run_malformed_item :
  main_run page_with_everything (Config None None None)
    (Some [WellFormed (FieldData "Name" (PStr "text") (PStr "Ada"));
           Malformed;
           WellFormed (FieldData "Email" (PStr "email") (PStr "ada@example.org"))]) 10000
  = (RunEnd "success" 1,
     [filling_line (FieldData "Name" (PStr "text") (PStr "Ada"));
      Did (Fill (First (Locator "//label[normalize-space()='Name']/following::input[1]")) "Ada");
      malformed_line]).
Proof. vm_compute. reflexivity. Qed.

Example main_run_success :
  fst (main_run page_with_everything (Config None None None)
         (Some [WellFormed (FieldData "Name" (PStr "text") (PStr "Ada"))]) 10000)
  = RunEnd "success" 0.
Proof. vm_compute. reflexivity. Qed.

End RunLogProperties.
